(** * Oceanographic Summary & Threat Assessment Engine

    A shallow embedding of the TypeScript sources
      - [src/hooks/use-earthdata.ts]  (hooks [useOceanographicSummary],
        [useCoastalThreatAssessment], [useHistoricalTrends]),
      - [src/lib/earthdata-api.ts]    (class [EarthdataAPIService]),
      - the card component's [generateDynamicFallbackData].

    A JavaScript [number] is an IEEE 754 binary64 value; it is modelled by
    Rocq's primitive [float], so [0 / 0] is [nan], a comparison with [nan]
    is [false], and the thresholds are the very doubles the literals of the
    source denote. *)

From Stdlib Require Import ZArith String List Bool Lia Floats.
From Stdlib Require Uint63.
Import ListNotations.

Set Warnings "-inexact-float".

Local Open Scope float_scope.

(** ** JavaScript numbers and the [Math] functions the sources call *)

Module JS.

Definition number := float.

(** [x > y] and [x >= y] of the source. *)
Definition gt (x y : number) : bool := (y <? x).
Definition ge (x y : number) : bool := (y <=? x).

(** An array's [length], as a number (an array has fewer than 2^32
    elements, so the conversion is exact). *)
Definition of_nat (n : nat) : number := of_uint63 (Uint63.of_Z (Z.of_nat n)).

Definition of_Z (z : Z) : number :=
  if (z <? 0)%Z then - of_uint63 (Uint63.of_Z (- z)) else of_uint63 (Uint63.of_Z z).

(** [Math.abs]. *)
Definition Math_abs (x : number) : number := abs x.

(** [Math.round]: the integral number closest to [x], ties towards
    +infinity; [-0] for [-0.5 <= x < 0]; [nan] and the infinities are
    returned as they are. A finite double is [(-1)^s * m * 2^e]. *)
Definition Math_round (x : number) : number :=
  match Prim2SF x with
  | S754_finite s m e =>
      if (0 <=? e)%Z then x
      else
        let k := (- e)%Z in
        let r := Z.shiftr (cond_Zopp s (Zpos m) + 2 ^ (k - 1)) k in
        if (r =? 0)%Z then (if s then (-0) else 0) else of_Z r
  | _ => x
  end.

(** [Math.min] and [Math.max] of two arguments: [nan] if either is [nan],
    and [-0] is smaller than [+0]. *)
Definition Math_min (x y : number) : number :=
  if is_nan x || is_nan y then nan
  else if x <? y then x
  else if y <? x then y
  else if get_sign x then x else y.

Definition Math_max (x y : number) : number :=
  if is_nan x || is_nan y then nan
  else if x <? y then y
  else if y <? x then x
  else if get_sign x then y else x.

(** [Math.min(...values)] and [Math.max(...values)]. *)
Definition Math_min_all (values : list number) : number :=
  fold_left Math_min values infinity.
Definition Math_max_all (values : list number) : number :=
  fold_left Math_max values neg_infinity.

(** Truthiness of a number: [0], [-0] and [NaN] are falsy. *)
Definition truthy (x : number) : bool :=
  negb (PrimFloat.is_zero x || PrimFloat.is_nan x).

(** [arr.reduce((acc, x) => f(acc, x), init)]. *)
Definition reduce {A B} (f : B -> A -> B) (init : B) (arr : list A) : B :=
  fold_left f arr init.

(** [arr.reduce((acc, x, i) => f(acc, x, i), init)], the callback also
    receiving the index. *)
Fixpoint reduce_from {A B} (f : B -> A -> nat -> B) (i : nat) (acc : B)
    (arr : list A) : B :=
  match arr with
  | [] => acc
  | x :: rest => reduce_from f (S i) (f acc x i) rest
  end.

Definition reducei {A B} (f : B -> A -> nat -> B) (init : B) (arr : list A) : B :=
  reduce_from f 0%nat init arr.

(** [arr[i]] on an array of numbers: out of range it is [undefined],
    which arithmetic turns into [NaN]. *)
Definition index (arr : list number) (i : nat) : number := nth i arr nan.

End JS.

Import JS.

(** ** Data model ([src/lib/earthdata-api.ts]) *)

Inductive Quality := good | fair | poor.
Inductive Risk := low | medium | high.
Inductive Trend := increasing | decreasing | stable.
Inductive Intensity := light | moderate | heavy | extreme.

Definition Risk_eqb (a b : Risk) : bool :=
  match a, b with
  | low, low | medium, medium | high, high => true
  | _, _ => false
  end.

(** [[minLat, minLon, maxLat, maxLon]], indices 0 to 3 of the tuple. *)
Record BoundingBox := {
  minLat : number; minLon : number; maxLat : number; maxLon : number }.

Record OceanDataPoint := {
  timestamp : string;
  latitude : number;
  longitude : number;
  value : number;
  unit : string;
  quality : Quality;
  source : string }.

Record SSTData := {
  sst_point :> OceanDataPoint;
  depth : option number;
  anomaly : option number }.

Record SeaLevelData := {
  sea_level_point :> OceanDataPoint;
  sea_level_anomaly : option number;
  sea_level_trend : option number }.

Record ChlorophyllData := {
  chlorophyll_point :> OceanDataPoint;
  concentration : number;
  bloomRisk : Risk }.

Record WindData := {
  wind_point :> OceanDataPoint;
  direction : number;
  speed : number;
  gust : option number }.

Record RainfallData := {
  rainfall_point :> OceanDataPoint;
  intensity : Intensity;
  accumulation : number;
  duration : number }.

Record TimeRange := { start : string; end_ : string }.
Record SpatialCoverage := { boundingBox : BoundingBox; resolution : string }.
Record DataQuality := { completeness : number; accuracy : number }.

Record Metadata := {
  totalCount : nat;
  timeRange : TimeRange;
  spatialCoverage : SpatialCoverage;
  dataQuality : DataQuality }.

Record EarthdataResponse (T : Type) := {
  data : list T;
  metadata : Metadata;
  error : option string }.

Arguments data {T} _.
Arguments metadata {T} _.
Arguments error {T} _.

(** ** The summary object built by [useOceanographicSummary] *)

Module Trended.
Record t := { value : number; unit : string; risk : Risk; trend : Trend }.
End Trended.

Module Chl.
Record t := { value : number; unit : string; risk : Risk; bloomRisk : Risk }.
End Chl.

Module Wind.
Record t := { speed : number; unit : string; risk : Risk; direction : number }.
End Wind.

Module Rain.
Record t := { total : number; unit : string; risk : Risk; intensity : Intensity }.
End Rain.

Record Center := { lat : number; lng : number }.
Record Location := { loc_boundingBox : BoundingBox; center : Center }.

Record Parameters := {
  seaSurfaceTemperature : Trended.t;
  seaLevel : Trended.t;
  chlorophyll : Chl.t;
  wind : Wind.t;
  rainfall : Rain.t }.

Record SummaryQuality := {
  q_sst : DataQuality;
  q_seaLevel : DataQuality;
  q_chlorophyll : DataQuality;
  q_wind : DataQuality;
  q_rainfall : DataQuality }.

Record OceanographicSummary := {
  summary_timestamp : string;
  location : Location;
  parameters : Parameters;
  overallRisk : Risk;
  summary_dataQuality : SummaryQuality }.

(** ** Per-parameter reduction (the body of the [summary] memo) *)

(** [sstData.data.reduce((sum, point) => sum + point.value, 0) / sstData.data.length] *)
Definition sstAvg (sstData : EarthdataResponse SSTData) : number :=
  reduce (fun sum (point : SSTData) => sum + value point) 0 (data sstData)
  / of_nat (length (data sstData)).

Definition seaLevelAvg (seaLevelData : EarthdataResponse SeaLevelData) : number :=
  reduce (fun sum (point : SeaLevelData) => sum + value point) 0 (data seaLevelData)
  / of_nat (length (data seaLevelData)).

Definition chlorophyllAvg (chlorophyllData : EarthdataResponse ChlorophyllData) : number :=
  reduce (fun sum (point : ChlorophyllData) => sum + value point) 0 (data chlorophyllData)
  / of_nat (length (data chlorophyllData)).

(** [windData.data.reduce((sum, point) => sum + point.speed, 0) / windData.data.length] *)
Definition windAvg (windData : EarthdataResponse WindData) : number :=
  reduce (fun sum (point : WindData) => sum + speed point) 0 (data windData)
  / of_nat (length (data windData)).

(** [rainfallData.data.reduce((sum, point) => sum + point.accumulation, 0)] *)
Definition rainfallTotal (rainfallData : EarthdataResponse RainfallData) : number :=
  reduce (fun sum (point : RainfallData) => sum + accumulation point) 0 (data rainfallData).

(** Risk levels: nested conditionals on [>]. *)
Definition sstRisk (sstAvg : number) : Risk :=
  if gt sstAvg 30 then high else if gt sstAvg 28 then medium else low.

Definition seaLevelRisk (seaLevelAvg : number) : Risk :=
  if gt (Math_abs seaLevelAvg) 0.5 then high
  else if gt (Math_abs seaLevelAvg) 0.3 then medium else low.

Definition chlorophyllRisk (chlorophyllAvg : number) : Risk :=
  if gt chlorophyllAvg 1.0 then high else if gt chlorophyllAvg 0.5 then medium else low.

Definition windRisk (windAvg : number) : Risk :=
  if gt windAvg 15 then high else if gt windAvg 10 then medium else low.

Definition rainfallRisk (rainfallTotal : number) : Risk :=
  if gt rainfallTotal 50 then high else if gt rainfallTotal 25 then medium else low.

(** [d.length > 1 ? (d[d.length - 1].value - d[0].value) > 0 ? 'increasing'
    : 'decreasing' : 'stable']. An array has more than one element exactly
    when it is [first :: _ :: _]; its element at [length - 1] is then
    [last d first]. *)
Definition trendOf {T : Type} (val : T -> number) (d : list T) : Trend :=
  match d with
  | first :: _ :: _ =>
      if gt (val (last d first) - val first) 0 then increasing else decreasing
  | _ => stable
  end.

(** [[r1, ..., r5].filter(risk => risk === 'high').length > 2 ? 'high'
    : [...].filter(risk => risk === 'high').length > 0 ? 'medium' : 'low'] *)
Definition overallRiskOf (risks : list Risk) : Risk :=
  if (2 <? length (filter (fun risk => Risk_eqb risk high) risks))%nat then high
  else if (0 <? length (filter (fun risk => Risk_eqb risk high) risks))%nat then medium
  else low.

(** [x || 0] on a number. *)
Definition or_zero (x : number) : number := if truthy x then x else 0.

(** The [summary] memo of [useOceanographicSummary]. A query result is
    [undefined] until the query has resolved ([None]); a resolved response
    always carries a [data] array, and an array, even an empty one, is
    truthy, so [!sstData?.data] holds only of an undefined response. [now]
    is [new Date().toISOString()]. *)
Definition summary (now : string) (defaultBbox : BoundingBox)
    (sstData : option (EarthdataResponse SSTData))
    (seaLevelData : option (EarthdataResponse SeaLevelData))
    (chlorophyllData : option (EarthdataResponse ChlorophyllData))
    (windData : option (EarthdataResponse WindData))
    (rainfallData : option (EarthdataResponse RainfallData))
    : option OceanographicSummary :=
  match sstData, seaLevelData, chlorophyllData, windData, rainfallData with
  | Some sstData, Some seaLevelData, Some chlorophyllData, Some windData,
    Some rainfallData =>
      let sstRisk := sstRisk (sstAvg sstData) in
      let seaLevelRisk := seaLevelRisk (seaLevelAvg seaLevelData) in
      let chlorophyllRisk := chlorophyllRisk (chlorophyllAvg chlorophyllData) in
      let windRisk := windRisk (windAvg windData) in
      let rainfallRisk := rainfallRisk (rainfallTotal rainfallData) in
      Some {|
        summary_timestamp := now;
        location := {|
          loc_boundingBox := defaultBbox;
          center := {|
            lat := (minLat defaultBbox + maxLat defaultBbox) / 2;
            lng := (minLon defaultBbox + maxLon defaultBbox) / 2 |} |};
        parameters := {|
          seaSurfaceTemperature := {|
            Trended.value := Math_round (sstAvg sstData * 100) / 100;
            Trended.unit := "°C";
            Trended.risk := sstRisk;
            Trended.trend := trendOf (fun p : SSTData => value p) (data sstData) |};
          seaLevel := {|
            Trended.value := Math_round (seaLevelAvg seaLevelData * 1000) / 1000;
            Trended.unit := "m";
            Trended.risk := seaLevelRisk;
            Trended.trend :=
              trendOf (fun p : SeaLevelData => value p) (data seaLevelData) |};
          chlorophyll := {|
            Chl.value := Math_round (chlorophyllAvg chlorophyllData * 1000) / 1000;
            Chl.unit := "mg/m³";
            Chl.risk := chlorophyllRisk;
            Chl.bloomRisk :=
              match data chlorophyllData with
              | p :: _ => bloomRisk p
              | [] => low
              end |};
          wind := {|
            Wind.speed := Math_round (windAvg windData * 10) / 10;
            Wind.unit := "m/s";
            Wind.risk := windRisk;
            Wind.direction :=
              match data windData with
              | p :: _ => or_zero (direction p)
              | [] => 0
              end |};
          rainfall := {|
            Rain.total := Math_round (rainfallTotal rainfallData * 100) / 100;
            Rain.unit := "mm";
            Rain.risk := rainfallRisk;
            Rain.intensity :=
              match data rainfallData with
              | p :: _ => intensity p
              | [] => light
              end |} |};
        overallRisk :=
          overallRiskOf [sstRisk; seaLevelRisk; chlorophyllRisk; windRisk; rainfallRisk];
        summary_dataQuality := {|
          q_sst := dataQuality (metadata sstData);
          q_seaLevel := dataQuality (metadata seaLevelData);
          q_chlorophyll := dataQuality (metadata chlorophyllData);
          q_wind := dataQuality (metadata windData);
          q_rainfall := dataQuality (metadata rainfallData) |} |}
  | _, _, _, _, _ => None
  end.

(** ** Threat assessment ([useCoastalThreatAssessment]) *)

Module ThreatLevel.
Inductive t := low | medium | high | critical.
End ThreatLevel.

Record ThreatAssessment := {
  threatScore : number;
  threatLevel : ThreatLevel.t;
  threatFactors : list string;
  recommendations : list string;
  assessment_timestamp : string;
  assessment_location : Location;
  assessment_parameters : Parameters }.

(** The three mutable locals [threatScore], [threatFactors] and
    [recommendations] of the memo, threaded as a state. *)
Record ThreatState := {
  st_threatScore : number;
  st_threatFactors : list string;
  st_recommendations : list string }.

(** [if (risk === 'high') { threatScore += delta; threatFactors.push(factor);
    recommendations.push(recommendation); }] *)
Definition assessParameter (risk : Risk) (delta : number)
    (factor recommendation : string) (st : ThreatState) : ThreatState :=
  if Risk_eqb risk high then
    {| st_threatScore := st_threatScore st + delta;
       st_threatFactors := st_threatFactors st ++ [factor];
       st_recommendations := st_recommendations st ++ [recommendation] |}
  else st.

(** [if (threatScore >= 80) 'critical'; else if (threatScore >= 60) 'high';
    else if (threatScore >= 30) 'medium'], starting from ['low']. *)
Definition threatLevelOf (threatScore : number) : ThreatLevel.t :=
  if ge threatScore 80 then ThreatLevel.critical
  else if ge threatScore 60 then ThreatLevel.high
  else if ge threatScore 30 then ThreatLevel.medium
  else ThreatLevel.low.

Definition assessAll (p : Parameters) : ThreatState :=
  let st := {| st_threatScore := 0; st_threatFactors := []; st_recommendations := [] |} in
  let st := assessParameter (Trended.risk (seaSurfaceTemperature p)) 25
              "Elevated sea surface temperature"
              "Monitor for coral bleaching and marine heat waves" st in
  let st := assessParameter (Trended.risk (seaLevel p)) 30
              "Abnormal sea level variations"
              "Prepare for potential coastal flooding" st in
  let st := assessParameter (Chl.risk (chlorophyll p)) 20
              "High chlorophyll concentration"
              "Monitor for harmful algal blooms" st in
  let st := assessParameter (Wind.risk (wind p)) 15
              "High wind speeds"
              "Prepare for storm conditions" st in
  let st := assessParameter (Rain.risk (rainfall p)) 20
              "Heavy rainfall"
              "Monitor for runoff and water quality issues" st in
  st.

(** The [threatAssessment] memo: [null] when there is no summary. *)
Definition threatAssessment (oceanSummary : option OceanographicSummary)
    : option ThreatAssessment :=
  match oceanSummary with
  | None => None
  | Some oceanSummary =>
      let st := assessAll (parameters oceanSummary) in
      Some {|
        threatScore := st_threatScore st;
        threatLevel := threatLevelOf (st_threatScore st);
        threatFactors := st_threatFactors st;
        recommendations := st_recommendations st;
        assessment_timestamp := summary_timestamp oceanSummary;
        assessment_location := location oceanSummary;
        assessment_parameters := parameters oceanSummary |}
  end.

(** ** Historical trends ([useHistoricalTrends]) *)

Module Param.
Inductive t := sst | seaLevel | chlorophyll | wind | rainfall.
End Param.

(** The element type of the response that the [switch] selects. *)
Definition pointType (parameter : Param.t) : Type :=
  match parameter with
  | Param.sst => SSTData
  | Param.seaLevel => SeaLevelData
  | Param.chlorophyll => ChlorophyllData
  | Param.wind => WindData
  | Param.rainfall => RainfallData
  end.

Definition basePoint (parameter : Param.t) : pointType parameter -> OceanDataPoint :=
  match parameter with
  | Param.sst => sst_point
  | Param.seaLevel => sea_level_point
  | Param.chlorophyll => chlorophyll_point
  | Param.wind => wind_point
  | Param.rainfall => rainfall_point
  end.

(** [parameter === 'wind' ? point.speed : point.value] *)
Definition seriesValue (parameter : Param.t) : pointType parameter -> number :=
  match parameter with
  | Param.wind => fun point => speed point
  | Param.sst => fun point => value point
  | Param.seaLevel => fun point => value point
  | Param.chlorophyll => fun point => value point
  | Param.rainfall => fun point => value point
  end.

(** The [switch (parameter)] that picks one of the five query results. *)
Definition selectData (parameter : Param.t)
    (sstData : option (EarthdataResponse SSTData))
    (seaLevelData : option (EarthdataResponse SeaLevelData))
    (chlorophyllData : option (EarthdataResponse ChlorophyllData))
    (windData : option (EarthdataResponse WindData))
    (rainfallData : option (EarthdataResponse RainfallData))
    : option (EarthdataResponse (pointType parameter)) :=
  match parameter with
  | Param.sst => sstData
  | Param.seaLevel => seaLevelData
  | Param.chlorophyll => chlorophyllData
  | Param.wind => windData
  | Param.rainfall => rainfallData
  end.

Record Statistics := {
  min : number;
  max : number;
  average : number;
  stat_trend : Trend;
  slope : number;
  dataPoints : nat }.

Record TrendResult (T : Type) := {
  trend_parameter : Param.t;
  trend_timeRange : TimeRange;
  statistics : Statistics;
  trend_data : list T;
  trend_metadata : Metadata }.

Arguments trend_parameter {T} _.
Arguments trend_timeRange {T} _.
Arguments statistics {T} _.
Arguments trend_data {T} _.
Arguments trend_metadata {T} _.

(** "Simple linear regression for trend": the five locals [n], [sumX],
    [sumY], [sumXY], [sumXX] and the quotient [slope]. *)
Definition regressionSlope (timestamps values : list number) : number :=
  let n := of_nat (length values) in
  let sumX := reduce (fun sum t => sum + t) 0 timestamps in
  let sumY := reduce (fun sum v => sum + v) 0 values in
  let sumXY := reducei (fun sum t i => sum + t * index values i) 0 timestamps in
  let sumXX := reduce (fun sum t => sum + t * t) 0 timestamps in
  (n * sumXY - sumX * sumY) / (n * sumXX - sumX * sumX).

(** [slope > 0.001 ? 'increasing' : slope < -0.001 ? 'decreasing' : 'stable'] *)
Definition slopeTrend (slope : number) : Trend :=
  if gt slope 0.001 then increasing
  else if slope <? -0.001 then decreasing
  else stable.

Section HistoricalTrends.

(** [new Date(s).getTime()]: milliseconds since the epoch, [NaN] for a
    string that is not a date. *)
Variable getTime : string -> number.

(** The [trends] memo. [startDate] and [endDate] are the ISO strings the
    hook computes from the clock and [days]. *)
Definition trends (parameter : Param.t) (startDate endDate : string)
    (sstData : option (EarthdataResponse SSTData))
    (seaLevelData : option (EarthdataResponse SeaLevelData))
    (chlorophyllData : option (EarthdataResponse ChlorophyllData))
    (windData : option (EarthdataResponse WindData))
    (rainfallData : option (EarthdataResponse RainfallData))
    : option (TrendResult (pointType parameter)) :=
  match selectData parameter sstData seaLevelData chlorophyllData windData
          rainfallData with
  | None => None
  | Some d =>
      if (length (data d) =? 0)%nat then None
      else
        let values := map (seriesValue parameter) (data d) in
        let timestamps :=
          map (fun point => getTime (timestamp (basePoint parameter point))) (data d) in
        let n := length values in
        let slope := regressionSlope timestamps values in
        let trend := slopeTrend slope in
        Some {|
          trend_parameter := parameter;
          trend_timeRange := {| start := startDate; end_ := endDate |};
          statistics := {|
            min := Math_min_all values;
            max := Math_max_all values;
            average := reduce (fun sum v => sum + v) 0 values / of_nat n;
            stat_trend := trend;
            slope := Math_round (slope * 1000000) / 1000000;
            dataPoints := n |};
          trend_data := data d;
          trend_metadata := metadata d |}
  end.

End HistoricalTrends.

(** ** Fallback data of the oceanographic card ([generateDynamicFallbackData]) *)

Record Range := { range_min : number; range_max : number }.

(** An entry of the [baseData] table; the last five fields are the ones
    only some entries have. *)
Record BaseEntry := {
  baseValue : number;
  base_unit : string;
  base_risk : Risk;
  base_trend : Trend;
  base_quality : number;
  range : Range;
  base_anomaly : option number;
  base_trendValue : option number;
  base_bloomRisk : option Risk;
  base_direction : option number;
  base_intensity : option Intensity }.

(** [baseData[param]] for the five keys of the table; any other key the
    component can pass has no entry. *)
Definition baseData (param : string) : option BaseEntry :=
  if (param =? "sst")%string then
    Some {| baseValue := 28.5; base_unit := "°C"; base_risk := low;
            base_trend := stable; base_quality := 0.85;
            range := {| range_min := 25; range_max := 32 |};
            base_anomaly := Some 0.5; base_trendValue := None;
            base_bloomRisk := None; base_direction := None;
            base_intensity := None |}
  else if (param =? "seaLevel")%string then
    Some {| baseValue := 0.12; base_unit := "m"; base_risk := low;
            base_trend := stable; base_quality := 0.90;
            range := {| range_min := -0.2; range_max := 0.3 |};
            base_anomaly := None; base_trendValue := Some 0.003;
            base_bloomRisk := None; base_direction := None;
            base_intensity := None |}
  else if (param =? "chlorophyll")%string then
    Some {| baseValue := 0.8; base_unit := "mg/m³"; base_risk := low;
            base_trend := stable; base_quality := 0.75;
            range := {| range_min := 0.1; range_max := 2.0 |};
            base_anomaly := None; base_trendValue := None;
            base_bloomRisk := Some low; base_direction := None;
            base_intensity := None |}
  else if (param =? "wind")%string then
    Some {| baseValue := 12.5; base_unit := "m/s"; base_risk := low;
            base_trend := stable; base_quality := 0.88;
            range := {| range_min := 5; range_max := 25 |};
            base_anomaly := None; base_trendValue := None;
            base_bloomRisk := None; base_direction := Some 180;
            base_intensity := None |}
  else if (param =? "rainfall")%string then
    Some {| baseValue := 2.1; base_unit := "mm"; base_risk := low;
            base_trend := stable; base_quality := 0.82;
            range := {| range_min := 0; range_max := 10 |};
            base_anomaly := None; base_trendValue := None;
            base_bloomRisk := None; base_direction := None;
            base_intensity := Some light |}
  else None.

Record FallbackData := {
  fb_value : number;
  fb_unit : string;
  fb_risk : Risk;
  fb_trend : Trend;
  fb_quality : number;
  fb_anomaly : option number;
  fb_trendValue : option number;
  fb_bloomRisk : option Risk;
  fb_direction : option number;
  fb_intensity : option Intensity }.

(** [Math.max(data.range.min, Math.min(data.range.max, data.baseValue *
    (0.9 + random * 0.2)))], [random] being the draw of [Math.random()]. *)
Definition clampedValue (data : BaseEntry) (random : number) : number :=
  let randomFactor := 0.9 + random * 0.2 in
  let randomValue := baseValue data * randomFactor in
  Math_max (range_min (range data)) (Math_min (range_max (range data)) randomValue).

(** "Dynamic risk assessment based on value": four successive [if]s over
    a local that starts as ['low']. *)
Definition dynamicRisk (param : string) (clampedValue : number) : Risk :=
  let dynamicRisk := low in
  let dynamicRisk :=
    if (param =? "sst")%string && gt clampedValue 30 then medium else dynamicRisk in
  let dynamicRisk :=
    if (param =? "wind")%string && gt clampedValue 20 then medium else dynamicRisk in
  let dynamicRisk :=
    if (param =? "rainfall")%string && gt clampedValue 5 then medium else dynamicRisk in
  let dynamicRisk :=
    if (param =? "chlorophyll")%string && gt clampedValue 1.5 then medium
    else dynamicRisk in
  dynamicRisk.

(** [cond && { key: v }] spread into the result: the key is there only
    when [cond] holds. *)
Definition spreadWhen {A} (cond : bool) (v : option A) : option A :=
  if cond then v else None.

(** [random1] and [random2] are the two successive draws of [Math.random()]. *)
Definition generateDynamicFallbackData (param : string) (random1 random2 : number)
    : option FallbackData :=
  match baseData param with
  | None => None
  | Some data =>
      let clampedValue := clampedValue data random1 in
      let dynamicRisk := dynamicRisk param clampedValue in
      let qualityVariation := 0.05 in
      let dynamicQuality :=
        Math_max 0.7
          (Math_min 0.95 (base_quality data + (random2 - 0.5) * qualityVariation)) in
      Some {|
        fb_value := Math_round (clampedValue * 100) / 100;
        fb_unit := base_unit data;
        fb_risk := dynamicRisk;
        fb_trend := base_trend data;
        fb_quality := dynamicQuality;
        fb_anomaly := spreadWhen (param =? "sst")%string (base_anomaly data);
        fb_trendValue := spreadWhen (param =? "seaLevel")%string (base_trendValue data);
        fb_bloomRisk := spreadWhen (param =? "chlorophyll")%string (base_bloomRisk data);
        fb_direction := spreadWhen (param =? "wind")%string (base_direction data);
        fb_intensity := spreadWhen (param =? "rainfall")%string (base_intensity data) |}
  end.

(** The reducer's risk level for the parameter a card shows: the five
    [...Risk] conditionals of [useOceanographicSummary], by key. *)
Definition reducerRisk (param : string) (v : number) : option Risk :=
  if (param =? "sst")%string then Some (sstRisk v)
  else if (param =? "seaLevel")%string then Some (seaLevelRisk v)
  else if (param =? "chlorophyll")%string then Some (chlorophyllRisk v)
  else if (param =? "wind")%string then Some (windRisk v)
  else if (param =? "rainfall")%string then Some (rainfallRisk v)
  else None.

(** ** The data provider ([EarthdataAPIService]) *)

Record EarthdataDataset := {
  id : string;
  name : string;
  description : string;
  variables : list string;
  temporalResolution : string;
  spatialResolution : string;
  lastUpdated : string }.

(** A JavaScript [Map] with string keys: entries in insertion order, [set]
    overwriting the value of a key that is already there. *)
Module JSMap.

Definition t (V : Type) := list (string * V).

Definition empty {V} : t V := [].

Fixpoint set {V} (k : string) (v : V) (m : t V) : t V :=
  match m with
  | [] => [(k, v)]
  | (k', v') :: rest =>
      if (k' =? k)%string then (k, v) :: rest else (k', v') :: set k v rest
  end.

Fixpoint get {V} (k : string) (m : t V) : option V :=
  match m with
  | [] => None
  | (k', v) :: rest => if (k' =? k)%string then Some v else get k rest
  end.

Definition values {V} (m : t V) : list V := map snd m.

End JSMap.

(** What a [throw] carries: an [Error] with its message, or any other value. *)
Inductive Thrown := ErrorObject (message : string) | OtherValue.

(** How a call ends: it returns, or it throws. For an [async] method these
    are the promise being fulfilled, or rejected. *)
Inductive Completion (A : Type) := Return (a : A) | Throw (e : Thrown).

Arguments Return {A} _.
Arguments Throw {A} _.

Record Params := {
  startDate : string;
  endDate : string;
  params_boundingBox : option BoundingBox;
  dataset : option string }.

(** [s || dflt] on an optional string: [undefined] and [''] are falsy. *)
Definition or_string (s : option string) (dflt : string) : string :=
  match s with
  | Some s => if (s =? EmptyString)%string then dflt else s
  | None => dflt
  end.

Definition bbox (a b c d : number) : BoundingBox :=
  {| minLat := a; minLon := b; maxLat := c; maxLon := d |}.

(** [now] is [new Date().toISOString()]. *)
Definition initializeDatasets (now : string) : JSMap.t EarthdataDataset :=
  let datasets := JSMap.empty in
  let datasets := JSMap.set "MUR_SST"
    {| id := "MUR_SST"; name := "MUR Sea Surface Temperature";
       description := "Multi-scale Ultra-high Resolution Sea Surface Temperature";
       variables := ["sst"; "sst_anomaly"]%string;
       temporalResolution := "daily"; spatialResolution := "1km";
       lastUpdated := now |} datasets in
  let datasets := JSMap.set "GHRSST_L4"
    {| id := "GHRSST_L4"; name := "GHRSST Level 4 SST";
       description := "Group for High Resolution Sea Surface Temperature Level 4";
       variables := ["sst"; "quality"]%string;
       temporalResolution := "daily"; spatialResolution := "5km";
       lastUpdated := now |} datasets in
  let datasets := JSMap.set "AVISO_SLA"
    {| id := "AVISO_SLA"; name := "AVISO Sea Level Anomaly";
       description :=
         "Archiving, Validation and Interpretation of Satellite Oceanographic data";
       variables := ["sla"; "adt"; "ugos"; "vgos"]%string;
       temporalResolution := "daily"; spatialResolution := "0.25°";
       lastUpdated := now |} datasets in
  let datasets := JSMap.set "JASON_SLA"
    {| id := "JASON_SLA"; name := "Jason Sea Level Anomaly";
       description := "Jason satellite altimetry sea level data";
       variables := ["sla"; "wind_speed"; "wave_height"]%string;
       temporalResolution := "10-day"; spatialResolution := "0.2°";
       lastUpdated := now |} datasets in
  let datasets := JSMap.set "OCEANCOLOR_CHL"
    {| id := "OCEANCOLOR_CHL"; name := "Ocean Color Chlorophyll";
       description := "NASA Ocean Color chlorophyll-a concentration";
       variables := ["chlor_a"; "chlor_a_anom"; "quality"]%string;
       temporalResolution := "8-day"; spatialResolution := "4km";
       lastUpdated := now |} datasets in
  let datasets := JSMap.set "VIIRS_CHL"
    {| id := "VIIRS_CHL"; name := "VIIRS Chlorophyll";
       description := "Visible Infrared Imaging Radiometer Suite chlorophyll data";
       variables := ["chlor_a"; "nflh"; "quality"]%string;
       temporalResolution := "daily"; spatialResolution := "750m";
       lastUpdated := now |} datasets in
  let datasets := JSMap.set "ASCAT_WIND"
    {| id := "ASCAT_WIND"; name := "ASCAT Wind";
       description := "Advanced Scatterometer wind vector data";
       variables := ["wind_speed"; "wind_direction"; "quality"]%string;
       temporalResolution := "daily"; spatialResolution := "25km";
       lastUpdated := now |} datasets in
  let datasets := JSMap.set "CCMP_WIND"
    {| id := "CCMP_WIND"; name := "CCMP Wind";
       description := "Cross-Calibrated Multi-Platform wind data";
       variables := ["uwnd"; "vwnd"; "wind_speed"; "quality"]%string;
       temporalResolution := "6-hourly"; spatialResolution := "0.25°";
       lastUpdated := now |} datasets in
  let datasets := JSMap.set "IMERG_RAIN"
    {| id := "IMERG_RAIN"; name := "IMERG Rainfall";
       description := "Integrated Multi-satellitE Retrievals for GPM rainfall";
       variables := ["precipitation"; "precipitation_quality"; "latent_heat"]%string;
       temporalResolution := "30-minute"; spatialResolution := "0.1°";
       lastUpdated := now |} datasets in
  let datasets := JSMap.set "TRMM_RAIN"
    {| id := "TRMM_RAIN"; name := "TRMM Rainfall";
       description := "Tropical Rainfall Measuring Mission precipitation data";
       variables := ["precipitation"; "precipitation_quality"; "latent_heat"]%string;
       temporalResolution := "3-hourly"; spatialResolution := "0.25°";
       lastUpdated := now |} datasets in
  datasets.

(** The object of the [catch] branch. *)
Definition failureResponse {T} (params : Params) (e : Thrown) : EarthdataResponse T :=
  {| data := [];
     metadata := {|
       totalCount := 0;
       timeRange := {| start := startDate params; end_ := endDate params |};
       spatialCoverage := {| boundingBox := bbox 0 0 0 0; resolution := "unknown" |};
       dataQuality := {| completeness := 0; accuracy := 0 |} |};
     error := Some match e with
                   | ErrorObject message => message
                   | OtherValue => "Unknown error"%string
                   end |}.

(** The five [get...Data] methods have one body, up to the default dataset
    id, the generator called and the two quality constants:
    the lookup and its [throw] come first, outside the [try]. *)
Definition getData {T} (defaultId : string)
    (generateMockData : Params -> Completion (list T))
    (completeness accuracy : number)
    (datasets : JSMap.t EarthdataDataset) (params : Params)
    : Completion (EarthdataResponse T) :=
  let dataset := or_string (dataset params) defaultId in
  match JSMap.get dataset datasets with
  | None => Throw (ErrorObject ("Dataset " ++ dataset ++ " not found")%string)
  | Some datasetInfo =>
      match generateMockData params with
      | Return mockData =>
          Return {|
            data := mockData;
            metadata := {|
              totalCount := length mockData;
              timeRange := {| start := startDate params; end_ := endDate params |};
              spatialCoverage := {|
                boundingBox :=
                  match params_boundingBox params with
                  | Some b => b
                  | None => bbox (-90) (-180) 90 180
                  end;
                resolution := spatialResolution datasetInfo |};
              dataQuality := {| completeness := completeness; accuracy := accuracy |} |};
            error := None |}
      | Throw e => Return (failureResponse params e)
      end
  end.

Section Provider.

(** The five private generators. They draw from [Math.random] and the
    clock, so they are taken as given; each returns its array or throws. *)
Variable generateMockSSTData : Params -> Completion (list SSTData).
Variable generateMockSeaLevelData : Params -> Completion (list SeaLevelData).
Variable generateMockChlorophyllData : Params -> Completion (list ChlorophyllData).
Variable generateMockWindData : Params -> Completion (list WindData).
Variable generateMockRainfallData : Params -> Completion (list RainfallData).

Definition getSSTData := getData "MUR_SST" generateMockSSTData 0.95 0.92.
Definition getSeaLevelData := getData "AVISO_SLA" generateMockSeaLevelData 0.88 0.89.
Definition getChlorophyllData :=
  getData "OCEANCOLOR_CHL" generateMockChlorophyllData 0.82 0.85.
Definition getWindData := getData "ASCAT_WIND" generateMockWindData 0.91 0.87.
Definition getRainfallData := getData "IMERG_RAIN" generateMockRainfallData 0.94 0.90.

End Provider.

(** ** Specification-side definitions

    The quantities the specification names, written after its words; the
    theorems below compare them with what the code computes. *)

(** A sum taken from left to right, starting from [0]. *)
Fixpoint sumFrom (acc : number) (xs : list number) : number :=
  match xs with
  | [] => acc
  | x :: rest => sumFrom (acc + x) rest
  end.

Definition sumOf (xs : list number) : number := sumFrom 0 xs.

(** "Arithmetic mean": the sum of the values over their count. *)
Definition arithmeticMean (xs : list number) : number :=
  sumOf xs / of_nat (length xs).

(** "slope = (n·Σxy − Σx·Σy) / (n·Σx² − (Σx)²)" over the (x, y) pairs. *)
Definition leastSquaresSlope (pts : list (number * number)) : number :=
  let n := of_nat (length pts) in
  let Sx := sumOf (map fst pts) in
  let Sy := sumOf (map snd pts) in
  let Sxy := sumOf (map (fun p => fst p * snd p) pts) in
  let Sxx := sumOf (map (fun p => fst p * fst p) pts) in
  (n * Sxy - Sx * Sy) / (n * Sxx - Sx * Sx).

(** The observation series of a kind, as "(timestamp in milliseconds,
    scalar value) pairs": the series is that of the kind asked for, the
    scalar is the wind's speed and every other kind's value, and there is
    none while the kind's response is undefined. *)
Definition observationPairs (getTime : string -> number) (kind : Param.t)
    (sstData : option (EarthdataResponse SSTData))
    (seaLevelData : option (EarthdataResponse SeaLevelData))
    (chlorophyllData : option (EarthdataResponse ChlorophyllData))
    (windData : option (EarthdataResponse WindData))
    (rainfallData : option (EarthdataResponse RainfallData))
    : option (list (number * number)) :=
  match kind with
  | Param.sst =>
      option_map
        (fun d => map (fun p : SSTData =>
                         (getTime (timestamp (sst_point p)), value (sst_point p)))
                    (data d)) sstData
  | Param.seaLevel =>
      option_map
        (fun d => map (fun p : SeaLevelData =>
                         (getTime (timestamp (sea_level_point p)),
                          value (sea_level_point p)))
                    (data d)) seaLevelData
  | Param.chlorophyll =>
      option_map
        (fun d => map (fun p : ChlorophyllData =>
                         (getTime (timestamp (chlorophyll_point p)),
                          value (chlorophyll_point p)))
                    (data d)) chlorophyllData
  | Param.wind =>
      option_map
        (fun d => map (fun p : WindData =>
                         (getTime (timestamp (wind_point p)), speed p))
                    (data d)) windData
  | Param.rainfall =>
      option_map
        (fun d => map (fun p : RainfallData =>
                         (getTime (timestamp (rainfall_point p)),
                          value (rainfall_point p)))
                    (data d)) rainfallData
  end.

(** The five parameter kinds, in "the fixed evaluation order SST, sea
    level, chlorophyll, wind, rainfall". *)
Module Kind.
Inductive t := SST | SeaLevel | Chlorophyll | Wind | Rainfall.
End Kind.

Definition evaluationOrder : list Kind.t :=
  [Kind.SST; Kind.SeaLevel; Kind.Chlorophyll; Kind.Wind; Kind.Rainfall].

Definition riskOf (p : Parameters) (k : Kind.t) : Risk :=
  match k with
  | Kind.SST => Trended.risk (seaSurfaceTemperature p)
  | Kind.SeaLevel => Trended.risk (seaLevel p)
  | Kind.Chlorophyll => Chl.risk (chlorophyll p)
  | Kind.Wind => Wind.risk (wind p)
  | Kind.Rainfall => Rain.risk (rainfall p)
  end.

(** The scoring table: score delta, factor text, recommendation. *)
Definition scoreDelta (k : Kind.t) : number :=
  match k with
  | Kind.SST => 25
  | Kind.SeaLevel => 30
  | Kind.Chlorophyll => 20
  | Kind.Wind => 15
  | Kind.Rainfall => 20
  end.

Definition factorText (k : Kind.t) : string :=
  match k with
  | Kind.SST => "Elevated sea surface temperature"
  | Kind.SeaLevel => "Abnormal sea level variations"
  | Kind.Chlorophyll => "High chlorophyll concentration"
  | Kind.Wind => "High wind speeds"
  | Kind.Rainfall => "Heavy rainfall"
  end.

Definition recommendationText (k : Kind.t) : string :=
  match k with
  | Kind.SST => "Monitor for coral bleaching and marine heat waves"
  | Kind.SeaLevel => "Prepare for potential coastal flooding"
  | Kind.Chlorophyll => "Monitor for harmful algal blooms"
  | Kind.Wind => "Prepare for storm conditions"
  | Kind.Rainfall => "Monitor for runoff and water quality issues"
  end.

(** The delta one parameter contributes: its table entry if its risk is
    high, nothing otherwise. *)
Definition deltaOf (p : Parameters) (k : Kind.t) : number :=
  if Risk_eqb (riskOf p k) high then scoreDelta k else 0.

(** The kinds whose risk is high, in evaluation order. *)
Definition highKinds (p : Parameters) : list Kind.t :=
  filter (fun k => Risk_eqb (riskOf p k) high) evaluationOrder.

(** "Count how many of the five per-parameter risk tiers equal high". *)
Definition highCount (p : Parameters) : nat := length (highKinds p).

(** ">2 high ⇒ overall high; 1–2 high ⇒ medium; 0 ⇒ low". *)
Definition overallByCount (c : nat) : Risk :=
  match c with
  | 0 => low
  | 1 | 2 => medium
  | _ => high
  end.

(** The fallback generator's rule, by key: the threshold above which the
    risk is medium; a key without a threshold is always low. *)
Definition fallbackThreshold (param : string) : option number :=
  if (param =? "sst")%string then Some 30
  else if (param =? "wind")%string then Some 20
  else if (param =? "rainfall")%string then Some 5
  else if (param =? "chlorophyll")%string then Some 1.5
  else None.

Definition fallbackRule (param : string) (v : number) : Risk :=
  match fallbackThreshold param with
  | Some threshold => if gt v threshold then medium else low
  | None => low
  end.

(** ** Sample data for the concrete instances *)

Definition samplePoint (v : number) : OceanDataPoint :=
  {| timestamp := "2024-01-01T00:00:00.000Z"; latitude := 18; longitude := 72;
     value := v; unit := "u"; quality := good; source := "sample" |}.

Definition sstPoint (v : number) : SSTData :=
  {| sst_point := samplePoint v; depth := Some 0; anomaly := Some 0 |}.

Definition seaLevelPoint (v : number) : SeaLevelData :=
  {| sea_level_point := samplePoint v; sea_level_anomaly := Some 0;
     sea_level_trend := Some 0.003 |}.

Definition chlorophyllPoint (v : number) : ChlorophyllData :=
  {| chlorophyll_point := samplePoint v; concentration := v; bloomRisk := low |}.

Definition windPoint (v : number) : WindData :=
  {| wind_point := samplePoint v; direction := 180; speed := v; gust := None |}.

Definition rainfallPoint (v : number) : RainfallData :=
  {| rainfall_point := samplePoint v; intensity := light; accumulation := v;
     duration := 3 |}.

Definition sampleParams : Params :=
  {| startDate := "2024-01-01T00:00:00.000Z"; endDate := "2024-01-02T00:00:00.000Z";
     params_boundingBox := Some (bbox 18 72 20 75); dataset := None |}.

(** A successful response holding the given points. *)
Definition response {T} (points : list T) : EarthdataResponse T :=
  {| data := points;
     metadata := {|
       totalCount := length points;
       timeRange := {| start := startDate sampleParams; end_ := endDate sampleParams |};
       spatialCoverage := {| boundingBox := bbox 18 72 20 75; resolution := "1km" |};
       dataQuality := {| completeness := 0.95; accuracy := 0.92 |} |};
     error := None |}.

Definition sampleNow : string := "2024-01-02T00:00:00.000Z".

(** A generator that returns one reading, and one that throws. *)
Definition oneReading {T} (point : T) : Params -> Completion (list T) :=
  fun _ => Return [point].

Definition failing {T} (message : string) : Params -> Completion (list T) :=
  fun _ => Throw (ErrorObject message).

Definition paramsFor (datasetId : option string) : Params :=
  {| startDate := startDate sampleParams; endDate := endDate sampleParams;
     params_boundingBox := params_boundingBox sampleParams; dataset := datasetId |}.

(** A clock reading for the two sample instants, a day apart. *)
Definition sampleGetTime (s : string) : number :=
  if (s =? "2024-01-01T00:00:00.000Z")%string then 1704067200000
  else if (s =? "2024-01-02T00:00:00.000Z")%string then 1704153600000
  else nan.

Definition windPointAt (instant : string) (v : number) : WindData :=
  {| wind_point :=
       {| timestamp := instant; latitude := 18; longitude := 72; value := v;
          unit := "m/s"; quality := good; source := "ASCAT_WIND" |};
     direction := 180; speed := v; gust := None |}.

(** A wind reading whose [value] and [speed] differ. *)
Definition windReading (instant : string) (v s : number) : WindData :=
  {| wind_point :=
       {| timestamp := instant; latitude := 18; longitude := 72; value := v;
          unit := "m/s"; quality := good; source := "ASCAT_WIND" |};
     direction := 180; speed := s; gust := None |}.

(** The summary of given SST readings, the four other responses holding
    one calm reading each. *)
Definition summaryOfSST (readings : list SSTData) : option OceanographicSummary :=
  summary sampleNow (bbox 18 72 20 75)
    (Some (response readings))
    (Some (response [seaLevelPoint 0.1]))
    (Some (response [chlorophyllPoint 0.2]))
    (Some (response [windPoint 5]))
    (Some (response [rainfallPoint 1])).

(** A parameter block with the five given risks. *)
Definition parametersWith (r1 r2 r3 r4 r5 : Risk) : Parameters :=
  {| seaSurfaceTemperature :=
       {| Trended.value := 0; Trended.unit := "°C"; Trended.risk := r1;
          Trended.trend := stable |};
     seaLevel :=
       {| Trended.value := 0; Trended.unit := "m"; Trended.risk := r2;
          Trended.trend := stable |};
     chlorophyll :=
       {| Chl.value := 0; Chl.unit := "mg/m³"; Chl.risk := r3; Chl.bloomRisk := low |};
     wind := {| Wind.speed := 0; Wind.unit := "m/s"; Wind.risk := r4; Wind.direction := 0 |};
     rainfall :=
       {| Rain.total := 0; Rain.unit := "mm"; Rain.risk := r5; Rain.intensity := light |} |}.

Definition summaryWith (r1 r2 r3 r4 r5 : Risk) : OceanographicSummary :=
  {| summary_timestamp := sampleNow;
     location := {| loc_boundingBox := bbox 18 72 20 75;
                    center := {| lat := 19; lng := 73.5 |} |};
     parameters := parametersWith r1 r2 r3 r4 r5;
     overallRisk := overallRiskOf [r1; r2; r3; r4; r5];
     summary_dataQuality :=
       let q := {| completeness := 0.95; accuracy := 0.92 |} in
       {| q_sst := q; q_seaLevel := q; q_chlorophyll := q; q_wind := q; q_rainfall := q |} |}.

(** ** The mock generators ([generateMock...Data]) *)

(** What the generators take from the JavaScript runtime. A [Date] holds an
    integral number of milliseconds or is invalid ([None]); [setDate] and
    [setHours] work in the local time zone, so the two steps are taken as
    given, and so are the parsing and the printing of dates, [Math.sin],
    and the successive draws of [Math.random]. *)
Record Runtime := {
  Date_parse : string -> option Z;
  plusDays : Z -> Z -> option Z;
  plusHours : Z -> Z -> option Z;
  toISOString : Z -> string;
  Math_sin : number -> number;
  Math_random : nat -> number }.

Definition Math_PI : number := 3.141592653589793.

(** The array built so far and the number of draws made so far. *)
Record GenState (T : Type) := { out : list T; draws : nat }.

Arguments out {T} _.
Arguments draws {T} _.

(** [data.push(point)] after [used] further draws. *)
Definition push {T : Type} (point : T) (used : nat) (st : GenState T) : GenState T :=
  {| out := out st ++ [point]; draws := draws st + used |}.

(** [for (let x = start; x <= stop; x += step) body]: at most [fuel]
    iterations are run, [None] when they do not suffice. *)
Fixpoint forNumber {S : Type} (fuel : nat) (x stop step : number)
    (body : number -> S -> option S) (st : S) : option S :=
  match fuel with
  | O => None
  | Datatypes.S fuel' =>
      if x <=? stop then
        match body x st with
        | Some st' => forNumber fuel' (x + step) stop step body st'
        | None => None
        end
      else Some st
  end.

(** [for (let d = new Date(startDate); d <= endDate; d.set...(...)) body]:
    a comparison with an invalid date is false. *)
Fixpoint forDate {S : Type} (fuel : nat) (d endDate : option Z)
    (next : Z -> option Z) (body : Z -> S -> option S) (st : S) : option S :=
  match fuel with
  | O => None
  | Datatypes.S fuel' =>
      match d, endDate with
      | Some t, Some e =>
          if (t <=? e)%Z then
            match body t st with
            | Some st' => forDate fuel' (next t) endDate next body st'
            | None => None
            end
          else Some st
      | _, _ => Some st
      end
  end.

(** The three nested loops every generator has: dates, then latitudes,
    then longitudes of [params.boundingBox || [18, 72, 20, 75]]. *)
Definition sweep {T : Type} (rt : Runtime) (fuel : nat) (params : Params)
    (next : Z -> option Z) (step : number)
    (sample : Z -> number -> number -> GenState T -> GenState T)
    : option (list T) :=
  let startDate := Date_parse rt (startDate params) in
  let endDate := Date_parse rt (endDate params) in
  let box :=
    match params_boundingBox params with
    | Some b => b
    | None => bbox 18 72 20 75
    end in
  option_map out
    (forDate fuel startDate endDate next
       (fun t st =>
          forNumber fuel (minLat box) (maxLat box) step
            (fun lat st =>
               forNumber fuel (minLon box) (maxLon box) step
                 (fun lon st => Some (sample t lat lon st)) st) st)
       {| out := []; draws := 0 |}).

Definition sstSample (rt : Runtime) (t : Z) (lat lon : number)
    (st : GenState SSTData) : GenState SSTData :=
  let k := draws st in
  let baseTemp :=
    25 + Math_sin rt ((of_Z t / (365 * 24 * 60 * 60 * 1000)) * 2 * Math_PI) * 5 in
  let temp := baseTemp + (Math_random rt k - 0.5) * 2 in
  push {| sst_point := {|
            timestamp := toISOString rt t;
            latitude := lat;
            longitude := lon;
            value := Math_round (temp * 100) / 100;
            unit := "°C";
            quality := if gt (Math_random rt (k + 1)) 0.1 then good else fair;
            source := "MUR_SST" |};
          depth := Some 0;
          anomaly := Some (Math_round ((temp - baseTemp) * 100) / 100) |} 2 st.

Definition generateMockSSTData (rt : Runtime) (fuel : nat) (params : Params)
    : option (list SSTData) :=
  sweep rt fuel params (plusDays rt 1) 0.1 (sstSample rt).

Definition seaLevelSample (rt : Runtime) (t : Z) (lat lon : number)
    (st : GenState SeaLevelData) : GenState SeaLevelData :=
  let k := draws st in
  let baseLevel :=
    0.5 + Math_sin rt ((of_Z t / (12.4 * 60 * 60 * 1000)) * 2 * Math_PI) * 0.3 in
  let level := baseLevel + (Math_random rt k - 0.5) * 0.1 in
  push {| sea_level_point := {|
            timestamp := toISOString rt t;
            latitude := lat;
            longitude := lon;
            value := Math_round (level * 1000) / 1000;
            unit := "m";
            quality := if gt (Math_random rt (k + 1)) 0.15 then good else fair;
            source := "AVISO_SLA" |};
          sea_level_anomaly := Some (Math_round ((level - baseLevel) * 1000) / 1000);
          sea_level_trend := Some 0.003 |} 2 st.

Definition generateMockSeaLevelData (rt : Runtime) (fuel : nat) (params : Params)
    : option (list SeaLevelData) :=
  sweep rt fuel params (plusDays rt 1) 0.25 (seaLevelSample rt).

Definition chlorophyllSample (rt : Runtime) (t : Z) (lat lon : number)
    (st : GenState ChlorophyllData) : GenState ChlorophyllData :=
  let k := draws st in
  let baseChl :=
    0.5 + Math_sin rt ((of_Z t / (365 * 24 * 60 * 60 * 1000)) * 2 * Math_PI) * 0.3 in
  let chl := Math_max 0.01 (baseChl + (Math_random rt k - 0.5) * 0.2) in
  push {| chlorophyll_point := {|
            timestamp := toISOString rt t;
            latitude := lat;
            longitude := lon;
            value := Math_round (chl * 1000) / 1000;
            unit := "mg/m³";
            quality := if gt (Math_random rt (k + 1)) 0.2 then good else fair;
            source := "OCEANCOLOR_CHL" |};
          concentration := Math_round (chl * 1000) / 1000;
          bloomRisk :=
            if gt chl 1.0 then high else if gt chl 0.5 then medium else low |} 2 st.

Definition generateMockChlorophyllData (rt : Runtime) (fuel : nat) (params : Params)
    : option (list ChlorophyllData) :=
  sweep rt fuel params (plusDays rt 8) 0.04 (chlorophyllSample rt).

Definition windSample (rt : Runtime) (t : Z) (lat lon : number)
    (st : GenState WindData) : GenState WindData :=
  let k := draws st in
  let baseSpeed :=
    8 + Math_sin rt ((of_Z t / (24 * 60 * 60 * 1000)) * 2 * Math_PI) * 3 in
  let speed := Math_max 0.5 (baseSpeed + (Math_random rt k - 0.5) * 4) in
  let direction := Math_random rt (k + 1) * 360 in
  push {| wind_point := {|
            timestamp := toISOString rt t;
            latitude := lat;
            longitude := lon;
            value := Math_round (speed * 10) / 10;
            unit := "m/s";
            quality := if gt (Math_random rt (k + 2)) 0.1 then good else fair;
            source := "ASCAT_WIND" |};
          direction := Math_round direction;
          speed := Math_round (speed * 10) / 10;
          gust := Some (Math_round ((speed + Math_random rt (k + 3) * 5) * 10) / 10) |}
    4 st.

Definition generateMockWindData (rt : Runtime) (fuel : nat) (params : Params)
    : option (list WindData) :=
  sweep rt fuel params (plusDays rt 1) 0.25 (windSample rt).

(** [Math.random() > 0.7 ? Math.random() * 50 : 0] makes one draw or two. *)
Definition rainfallSample (rt : Runtime) (t : Z) (lat lon : number)
    (st : GenState RainfallData) : GenState RainfallData :=
  let k := draws st in
  let wet := gt (Math_random rt k) 0.7 in
  let rainfall := if wet then Math_random rt (k + 1) * 50 else 0 in
  let k := if wet then (k + 2)%nat else (k + 1)%nat in
  let intensity :=
    if gt rainfall 30 then heavy
    else if gt rainfall 15 then moderate
    else if gt rainfall 5 then light
    else light in
  push {| rainfall_point := {|
            timestamp := toISOString rt t;
            latitude := lat;
            longitude := lon;
            value := Math_round (rainfall * 100) / 100;
            unit := "mm";
            quality := if gt (Math_random rt k) 0.1 then good else fair;
            source := "IMERG_RAIN" |};
          intensity := intensity;
          accumulation := Math_round (rainfall * 100) / 100;
          duration := 3 |}
    (if wet then 3 else 2) st.

Definition generateMockRainfallData (rt : Runtime) (fuel : nat) (params : Params)
    : option (list RainfallData) :=
  sweep rt fuel params (plusHours rt 3) 0.1 (rainfallSample rt).

(** ** Strings: [includes] and [toUpperCase] *)

Module JSString.

(** [s.includes(sub)]: [sub] occurs in [s]. *)
Fixpoint includes (s sub : string) : bool :=
  String.prefix sub s ||
  match s with
  | EmptyString => false
  | String _ rest => includes rest sub
  end.

(** [toUpperCase] on the letters a to z; the strings it is applied to here
    are the five parameter keys. *)
Definition upperAscii (c : Ascii.ascii) : Ascii.ascii :=
  let n := Ascii.nat_of_ascii c in
  if ((97 <=? n) && (n <=? 122))%nat then Ascii.ascii_of_nat (n - 32) else c.

Fixpoint toUpperCase (s : string) : string :=
  match s with
  | EmptyString => EmptyString
  | String c rest => String (upperAscii c) (toUpperCase rest)
  end.

End JSString.

(** ** The other methods of the service *)

(** [Array.from(this.datasets.values())] *)
Definition getAvailableDatasets (datasets : JSMap.t EarthdataDataset)
    : list EarthdataDataset :=
  JSMap.values datasets.

(** [this.datasets.get(datasetId) || null] *)
Definition getDatasetInfo (datasets : JSMap.t EarthdataDataset) (datasetId : string)
    : option EarthdataDataset :=
  JSMap.get datasetId datasets.

Record QualityMetrics := {
  metric_completeness : number;
  metric_accuracy : number;
  metric_timeliness : number;
  metric_spatialCoverage : number }.

(** The [if ... else if ...] chain assigns into [baseMetrics]; the first
    tag the id includes decides. *)
Definition getDataQualityMetrics (datasets : JSMap.t EarthdataDataset)
    (datasetId : string) : Completion QualityMetrics :=
  match JSMap.get datasetId datasets with
  | None => Throw (ErrorObject ("Dataset " ++ datasetId ++ " not found")%string)
  | Some _ =>
      let baseMetrics :=
        {| metric_completeness := 0.9; metric_accuracy := 0.85;
           metric_timeliness := 0.95; metric_spatialCoverage := 0.88 |} in
      Return
        (if JSString.includes datasetId "SST" then
           {| metric_completeness := metric_completeness baseMetrics;
              metric_accuracy := 0.92;
              metric_timeliness := 0.98;
              metric_spatialCoverage := metric_spatialCoverage baseMetrics |}
         else if JSString.includes datasetId "CHL" then
           {| metric_completeness := 0.85;
              metric_accuracy := 0.82;
              metric_timeliness := metric_timeliness baseMetrics;
              metric_spatialCoverage := metric_spatialCoverage baseMetrics |}
         else if JSString.includes datasetId "WIND" then
           {| metric_completeness := metric_completeness baseMetrics;
              metric_accuracy := 0.87;
              metric_timeliness := metric_timeliness baseMetrics;
              metric_spatialCoverage := 0.92 |}
         else if JSString.includes datasetId "RAIN" then
           {| metric_completeness := metric_completeness baseMetrics;
              metric_accuracy := 0.90;
              metric_timeliness := 0.99;
              metric_spatialCoverage := metric_spatialCoverage baseMetrics |}
         else baseMetrics)
  end.

Record TemporalCoverage := {
  coverage_startDate : string;
  coverage_endDate : string;
  coverage_temporalResolution : string;
  updateFrequency : string }.

(** [fiveYearsAgo] is [new Date(now.getFullYear() - 5, 0, 1).toISOString()]
    and [now] is [now.toISOString()]. *)
Definition getTemporalCoverage (fiveYearsAgo now : string)
    (datasets : JSMap.t EarthdataDataset) (datasetId : string)
    : Completion TemporalCoverage :=
  match JSMap.get datasetId datasets with
  | None => Throw (ErrorObject ("Dataset " ++ datasetId ++ " not found")%string)
  | Some dataset =>
      Return {| coverage_startDate := fiveYearsAgo;
                coverage_endDate := now;
                coverage_temporalResolution := temporalResolution dataset;
                updateFrequency := temporalResolution dataset |}
  end.

(** ** What the hooks return besides the memo *)

(** [a || b] on two optional strings: [undefined] and [''] are falsy. *)
Definition or_else (a b : option string) : option string :=
  match a with
  | Some s => if (s =? EmptyString)%string then b else a
  | None => b
  end.

(** [x?.error] *)
Definition errorOf {T} (response : option (EarthdataResponse T)) : option string :=
  match response with
  | Some r => error r
  | None => None
  end.

(** [sstData?.error || seaLevelData?.error || chlorophyllData?.error ||
    windData?.error || rainfallData?.error], the [error] that
    [useOceanographicSummary] returns. *)
Definition summaryError
    (sstData : option (EarthdataResponse SSTData))
    (seaLevelData : option (EarthdataResponse SeaLevelData))
    (chlorophyllData : option (EarthdataResponse ChlorophyllData))
    (windData : option (EarthdataResponse WindData))
    (rainfallData : option (EarthdataResponse RainfallData)) : option string :=
  or_else (or_else (or_else (or_else (errorOf sstData) (errorOf seaLevelData))
                      (errorOf chlorophyllData)) (errorOf windData))
    (errorOf rainfallData).

(** ** The explorer page *)

(** The five values of the [selectedParameter] state. *)
Definition paramKey (parameter : Param.t) : string :=
  match parameter with
  | Param.sst => "sst"
  | Param.seaLevel => "seaLevel"
  | Param.chlorophyll => "chlorophyll"
  | Param.wind => "wind"
  | Param.rainfall => "rainfall"
  end.

(** [getDefaultDataset]: a [switch] on the parameter string. *)
Definition getDefaultDataset (parameter : string) : string :=
  if (parameter =? "sst")%string then "MUR_SST"
  else if (parameter =? "seaLevel")%string then "AVISO_SLA"
  else if (parameter =? "chlorophyll")%string then "OCEANCOLOR_CHL"
  else if (parameter =? "wind")%string then "ASCAT_WIND"
  else if (parameter =? "rainfall")%string then "IMERG_RAIN"
  else EmptyString.

(** The options of the dataset selector:
    [datasets.filter(d => d.id.includes(selectedParameter.toUpperCase()))]. *)
Definition datasetOptions (datasets : list EarthdataDataset)
    (selectedParameter : Param.t) : list EarthdataDataset :=
  filter (fun d => JSString.includes (id d)
                     (JSString.toUpperCase (paramKey selectedParameter)))
    datasets.

(** ** The summary hook over the service *)

(** The [data] of a query once its promise has settled: the response when
    it was fulfilled, [undefined] when it was rejected. *)
Definition queryData {R : Type} (settled : Completion R) : option R :=
  match settled with
  | Return r => Some r
  | Throw _ => None
  end.

(** The parameters [useOceanographicSummary] passes to one of its five
    queries. *)
Definition hookParams (startDate endDate : string) (defaultBbox : BoundingBox)
    (datasetId : string) : Params :=
  {| startDate := startDate; endDate := endDate;
     params_boundingBox := Some defaultBbox; dataset := Some datasetId |}.

Section SummaryHook.

Variable generateMockSSTData : Params -> Completion (list SSTData).
Variable generateMockSeaLevelData : Params -> Completion (list SeaLevelData).
Variable generateMockChlorophyllData : Params -> Completion (list ChlorophyllData).
Variable generateMockWindData : Params -> Completion (list WindData).
Variable generateMockRainfallData : Params -> Completion (list RainfallData).

(** The service instance, [now] being the instant it was created at. *)
Variable created : string.

(** [startDate] and [endDate] are the ISO strings of the last 24 hours,
    [now] that of the memo's [new Date()]. *)
Variables (startDate endDate now : string).

Variable boundingBox : option BoundingBox.

Definition defaultBbox : BoundingBox :=
  match boundingBox with
  | Some b => b
  | None => bbox 18 72 20 75
  end.

Definition sstQuery : option (EarthdataResponse SSTData) :=
  queryData (getSSTData generateMockSSTData (initializeDatasets created)
               (hookParams startDate endDate defaultBbox "MUR_SST")).

Definition seaLevelQuery : option (EarthdataResponse SeaLevelData) :=
  queryData (getSeaLevelData generateMockSeaLevelData (initializeDatasets created)
               (hookParams startDate endDate defaultBbox "AVISO_SLA")).

Definition chlorophyllQuery : option (EarthdataResponse ChlorophyllData) :=
  queryData (getChlorophyllData generateMockChlorophyllData
               (initializeDatasets created)
               (hookParams startDate endDate defaultBbox "OCEANCOLOR_CHL")).

Definition windQuery : option (EarthdataResponse WindData) :=
  queryData (getWindData generateMockWindData (initializeDatasets created)
               (hookParams startDate endDate defaultBbox "ASCAT_WIND")).

Definition rainfallQuery : option (EarthdataResponse RainfallData) :=
  queryData (getRainfallData generateMockRainfallData (initializeDatasets created)
               (hookParams startDate endDate defaultBbox "IMERG_RAIN")).

(** The [data] and the [error] that [useOceanographicSummary] returns once
    its five queries have settled. *)
Definition settledSummary : option OceanographicSummary :=
  summary now defaultBbox sstQuery seaLevelQuery chlorophyllQuery windQuery
    rainfallQuery.

Definition settledError : option string :=
  summaryError sstQuery seaLevelQuery chlorophyllQuery windQuery rainfallQuery.

(** The [data] that [useCoastalThreatAssessment] returns then. *)
Definition settledAssessment : option ThreatAssessment :=
  threatAssessment settledSummary.

End SummaryHook.

(** ** Statements about the service *)

(** The ten ids [initializeDatasets] registers, in order. *)
Definition registryIds : list string :=
  ["MUR_SST"; "GHRSST_L4"; "AVISO_SLA"; "JASON_SLA"; "OCEANCOLOR_CHL"; "VIIRS_CHL";
   "ASCAT_WIND"; "CCMP_WIND"; "IMERG_RAIN"; "TRMM_RAIN"]%string.

(** How a fetch of [datasetId] ends, given what its generator did: it
    throws exactly the not-found error of an id that is not registered;
    what it returns has a count that is the length of its data, the
    generator's array and no error when the generator returned, and no data,
    an error and zeroed quality when the generator threw. *)
Definition fetchOutcome {T : Type} (datasets : JSMap.t EarthdataDataset)
    (datasetId : string) (generated : Completion (list T))
    (result : Completion (EarthdataResponse T)) : Prop :=
  match result with
  | Throw e =>
      JSMap.get datasetId datasets = None /\
      e = ErrorObject ("Dataset " ++ datasetId ++ " not found")%string
  | Return r =>
      JSMap.get datasetId datasets <> None /\
      totalCount (metadata r) = length (data r) /\
      match generated with
      | Return d => data r = d /\ error r = None
      | Throw _ =>
          data r = [] /\ error r <> None /\
          dataQuality (metadata r) = {| completeness := 0; accuracy := 0 |}
      end
  end.

(** A number lies between two bounds. *)
Definition between (lo hi x : number) : Prop :=
  (lo <=? x) = true /\ (x <=? hi) = true.

(** ** Statements about the generators *)

(** The box a generator sweeps: [params.boundingBox || [18, 72, 20, 75]]. *)
Definition sweptBox (params : Params) : BoundingBox :=
  match params_boundingBox params with
  | Some b => b
  | None => bbox 18 72 20 75
  end.

(** The date loop has nothing to run: a date is invalid, or the start is
    after the end. *)
Definition noDates (rt : Runtime) (params : Params) : Prop :=
  match Date_parse rt (startDate params), Date_parse rt (endDate params) with
  | Some s, Some e => (e < s)%Z
  | _, _ => True
  end.

(** Stepping a date forward moves it forward. *)
Definition stepsForward (rt : Runtime) : Prop :=
  (forall n t t', (0 < n)%Z -> plusDays rt n t = Some t' -> (t < t')%Z) /\
  (forall n t t', (0 < n)%Z -> plusHours rt n t = Some t' -> (t < t')%Z).

(** What holds of every point a generator makes, whatever its kind: it
    carries the generator's own source id, its quality is never poor, its
    coordinates are not beyond the maxima of the box, and its timestamp
    prints an instant that is not after the end date. *)
Definition madeWithin (rt : Runtime) (params : Params) (sourceId : string)
    (p : OceanDataPoint) : Prop :=
  source p = sourceId /\
  quality p <> poor /\
  (latitude p <=? maxLat (sweptBox params)) = true /\
  (longitude p <=? maxLon (sweptBox params)) = true /\
  exists t e,
    timestamp p = toISOString rt t /\
    Date_parse rt (endDate params) = Some e /\ (t <= e)%Z.

(** A runtime for the concrete instances: two instants a day apart, days
    of 86400000 ms, every draw 0.5; its sine is a stand-in, the properties
    below holding for every function. *)
Definition sampleRuntime : Runtime :=
  {| Date_parse := fun s =>
       if (s =? "2024-01-01T00:00:00.000Z")%string then Some 1704067200000%Z
       else if (s =? "2024-01-02T00:00:00.000Z")%string then Some 1704153600000%Z
       else None;
     plusDays := fun n t => Some (t + n * 86400000)%Z;
     plusHours := fun n t => Some (t + n * 3600000)%Z;
     toISOString := fun t =>
       if (t =? 1704067200000)%Z then "2024-01-01T00:00:00.000Z"%string
       else if (t =? 1704153600000)%Z then "2024-01-02T00:00:00.000Z"%string
       else "later"%string;
     Math_sin := fun _ => 0;
     Math_random := fun _ => 0.5 |}.

(** A request over the two sample instants for the given box. *)
Definition paramsOver (box : BoundingBox) : Params :=
  {| startDate := "2024-01-01T00:00:00.000Z"; endDate := "2024-01-02T00:00:00.000Z";
     params_boundingBox := Some box; dataset := None |}.

(** ** The card over the summary ([getParameterData], [getQualityColor]) *)

Record ParameterData := {
  pd_value : number;
  pd_unit : string;
  pd_risk : Risk;
  pd_trend : Trend;
  pd_quality : number }.

(** [getParameterData]: [null] without a summary, otherwise the [switch]
    on the card's parameter; chlorophyll, wind and rainfall have no trend in
    the summary and show ['stable']. *)
Definition getParameterData (oceanSummary : option OceanographicSummary)
    (parameter : string) : option ParameterData :=
  match oceanSummary with
  | None => None
  | Some oceanSummary =>
      if (parameter =? "sst")%string then
        Some {| pd_value := Trended.value (seaSurfaceTemperature (parameters oceanSummary));
                pd_unit := Trended.unit (seaSurfaceTemperature (parameters oceanSummary));
                pd_risk := Trended.risk (seaSurfaceTemperature (parameters oceanSummary));
                pd_trend := Trended.trend (seaSurfaceTemperature (parameters oceanSummary));
                pd_quality := accuracy (q_sst (summary_dataQuality oceanSummary)) |}
      else if (parameter =? "seaLevel")%string then
        Some {| pd_value := Trended.value (seaLevel (parameters oceanSummary));
                pd_unit := Trended.unit (seaLevel (parameters oceanSummary));
                pd_risk := Trended.risk (seaLevel (parameters oceanSummary));
                pd_trend := Trended.trend (seaLevel (parameters oceanSummary));
                pd_quality := accuracy (q_seaLevel (summary_dataQuality oceanSummary)) |}
      else if (parameter =? "chlorophyll")%string then
        Some {| pd_value := Chl.value (chlorophyll (parameters oceanSummary));
                pd_unit := Chl.unit (chlorophyll (parameters oceanSummary));
                pd_risk := Chl.risk (chlorophyll (parameters oceanSummary));
                pd_trend := stable;
                pd_quality := accuracy (q_chlorophyll (summary_dataQuality oceanSummary)) |}
      else if (parameter =? "wind")%string then
        Some {| pd_value := Wind.speed (wind (parameters oceanSummary));
                pd_unit := Wind.unit (wind (parameters oceanSummary));
                pd_risk := Wind.risk (wind (parameters oceanSummary));
                pd_trend := stable;
                pd_quality := accuracy (q_wind (summary_dataQuality oceanSummary)) |}
      else if (parameter =? "rainfall")%string then
        Some {| pd_value := Rain.total (rainfall (parameters oceanSummary));
                pd_unit := Rain.unit (rainfall (parameters oceanSummary));
                pd_risk := Rain.risk (rainfall (parameters oceanSummary));
                pd_trend := stable;
                pd_quality := accuracy (q_rainfall (summary_dataQuality oceanSummary)) |}
      else None
  end.

(** [if (quality >= 0.9) ...; if (quality >= 0.8) ...; return 'text-red-600'] *)
Definition getQualityColor (quality : number) : string :=
  if ge quality 0.9 then "text-green-600"
  else if ge quality 0.8 then "text-yellow-600"
  else "text-red-600".

(** ** Statements about the tiers and the card *)

(** The order of the three risk levels, low below medium below high. *)
Definition riskRank (r : Risk) : nat :=
  match r with
  | low => 0
  | medium => 1
  | high => 2
  end.

(** The number the reducer rates for a parameter: the mean of the series,
    and the sum for rainfall. *)
Definition reducedValue (parameter : Param.t)
    (sstData : EarthdataResponse SSTData)
    (seaLevelData : EarthdataResponse SeaLevelData)
    (chlorophyllData : EarthdataResponse ChlorophyllData)
    (windData : EarthdataResponse WindData)
    (rainfallData : EarthdataResponse RainfallData) : number :=
  match parameter with
  | Param.sst => sstAvg sstData
  | Param.seaLevel => seaLevelAvg seaLevelData
  | Param.chlorophyll => chlorophyllAvg chlorophyllData
  | Param.wind => windAvg windData
  | Param.rainfall => rainfallTotal rainfallData
  end.

(** The accuracy of the response a parameter is read from. *)
Definition responseAccuracy (parameter : Param.t)
    (sstData : EarthdataResponse SSTData)
    (seaLevelData : EarthdataResponse SeaLevelData)
    (chlorophyllData : EarthdataResponse ChlorophyllData)
    (windData : EarthdataResponse WindData)
    (rainfallData : EarthdataResponse RainfallData) : number :=
  match parameter with
  | Param.sst => accuracy (dataQuality (metadata sstData))
  | Param.seaLevel => accuracy (dataQuality (metadata seaLevelData))
  | Param.chlorophyll => accuracy (dataQuality (metadata chlorophyllData))
  | Param.wind => accuracy (dataQuality (metadata windData))
  | Param.rainfall => accuracy (dataQuality (metadata rainfallData))
  end.

(** Whether a call returned. *)
Definition returned {T : Type} (c : Completion T) : bool :=
  match c with
  | Return _ => true
  | Throw _ => false
  end.

(** Whether the generator behind a parameter's query of the summary hook
    returned. *)
Definition generated (parameter : Param.t)
    (generateMockSSTData : Params -> Completion (list SSTData))
    (generateMockSeaLevelData : Params -> Completion (list SeaLevelData))
    (generateMockChlorophyllData : Params -> Completion (list ChlorophyllData))
    (generateMockWindData : Params -> Completion (list WindData))
    (generateMockRainfallData : Params -> Completion (list RainfallData))
    (startDate endDate : string) (box : BoundingBox) : bool :=
  match parameter with
  | Param.sst =>
      returned (generateMockSSTData (hookParams startDate endDate box "MUR_SST"))
  | Param.seaLevel =>
      returned (generateMockSeaLevelData (hookParams startDate endDate box "AVISO_SLA"))
  | Param.chlorophyll =>
      returned (generateMockChlorophyllData
                  (hookParams startDate endDate box "OCEANCOLOR_CHL"))
  | Param.wind =>
      returned (generateMockWindData (hookParams startDate endDate box "ASCAT_WIND"))
  | Param.rainfall =>
      returned (generateMockRainfallData (hookParams startDate endDate box "IMERG_RAIN"))
  end.

(** ** The prediction card ([DynamicPredictionCard]) *)

(** The string literals of the three unions. *)
Definition Trend_name (t : Trend) : string :=
  match t with
  | increasing => "increasing"
  | decreasing => "decreasing"
  | stable => "stable"
  end.

Definition Risk_name (r : Risk) : string :=
  match r with
  | low => "low"
  | medium => "medium"
  | high => "high"
  end.

Definition Intensity_name (i : Intensity) : string :=
  match i with
  | light => "light"
  | moderate => "moderate"
  | heavy => "heavy"
  | extreme => "extreme"
  end.

(** [a === b] on the card's parameter. *)
Definition Param_is (a b : Param.t) : bool :=
  match a, b with
  | Param.sst, Param.sst | Param.seaLevel, Param.seaLevel
  | Param.chlorophyll, Param.chlorophyll | Param.wind, Param.wind
  | Param.rainfall, Param.rainfall => true
  | _, _ => false
  end.

Module PredictionCard.

(** The values the card passes as [additional: any]: [undefined] (the
    summary's SST block has no [anomaly]), a number, or a string. *)
Inductive Any := Undefined | Num (n : number) | Str (s : string).

(** [`${n}suffix`] or a plain text; the number is kept, not printed. *)
Inductive Prediction := Quantity (n : number) (suffix : string) | Text (s : string).

Record PredictionData := {
  prediction : Prediction;
  confidence : number;
  timeframe : string;
  riskLevel : Risk;
  details : string }.

(** The [details] object: [details[param][intensity]], [None] for a key
    the parameter's entry does not have. *)
Definition detailsTable (param : Param.t) (intensity : string) : option string :=
  match param with
  | Param.sst =>
      if (intensity =? "normal")%string then
        Some "Temperature within normal seasonal range"%string
      else if (intensity =? "elevated")%string then
        Some "Above-average temperatures detected"%string
      else if (intensity =? "high")%string then
        Some "Elevated temperatures may impact marine life"%string
      else None
  | Param.seaLevel =>
      if (intensity =? "stable")%string then Some "Sea level remains stable"%string
      else if (intensity =? "rising")%string then
        Some "Gradual sea level rise continuing"%string
      else if (intensity =? "high")%string then
        Some "Elevated sea levels may cause coastal flooding"%string
      else None
  | Param.chlorophyll =>
      if (intensity =? "low")%string then
        Some "Normal chlorophyll levels maintained"%string
      else if (intensity =? "medium")%string then
        Some "Moderate algal activity detected"%string
      else if (intensity =? "high")%string then
        Some "High algal bloom risk - monitor water quality"%string
      else None
  | Param.wind =>
      if (intensity =? "calm")%string then Some "Calm wind conditions expected"%string
      else if (intensity =? "moderate")%string then
        Some "Moderate wind speeds forecast"%string
      else if (intensity =? "strong")%string then
        Some "Strong winds may affect marine operations"%string
      else None
  | Param.rainfall =>
      if (intensity =? "minimal")%string then
        Some "Minimal precipitation expected"%string
      else if (intensity =? "moderate")%string then
        Some "Moderate rainfall forecast"%string
      else if (intensity =? "heavy")%string then
        Some "Heavy rainfall may cause runoff issues"%string
      else None
  end.

Section Details.

(** [Number(s)], the number a string is compared as. *)
Variable StringToNumber : string -> number.

(** [additional > y]: [undefined] compares as [NaN]. *)
Definition any_gt (additional : Any) (y : number) : bool :=
  match additional with
  | Undefined => gt nan y
  | Num n => gt n y
  | Str s => gt (StringToNumber s) y
  end.

(** [additional === s] *)
Definition any_is (additional : Any) (s : string) : bool :=
  match additional with
  | Str s' => (s' =? s)%string
  | _ => false
  end.

(** Five successive [if]s over a local that starts as ['normal'], then the
    lookup with its [|| 'Normal conditions expected']. *)
Definition generatePredictionDetails (param : Param.t) (value : number)
    (additional : Any) : string :=
  let intensity := "normal"%string in
  let intensity :=
    if Param_is param Param.sst && gt value 30 then "high"%string else intensity in
  let intensity :=
    if Param_is param Param.wind && gt value 20 then "strong"%string else intensity in
  let intensity :=
    if Param_is param Param.rainfall && gt value 5 then "heavy"%string else intensity in
  let intensity :=
    if Param_is param Param.chlorophyll && any_is additional "high" then "high"%string
    else intensity in
  let intensity :=
    if Param_is param Param.seaLevel && any_gt additional 0.2 then "high"%string
    else intensity in
  or_string (detailsTable param intensity) "Normal conditions expected".

(** [getParameterData] of the prediction card. *)
Definition getParameterData (oceanSummary : option OceanographicSummary)
    (parameter : Param.t) : option PredictionData :=
  match oceanSummary with
  | None => None
  | Some oceanSummary =>
      let p := parameters oceanSummary in
      let q := summary_dataQuality oceanSummary in
      match parameter with
      | Param.sst =>
          Some {| prediction := Quantity (Trended.value (seaSurfaceTemperature p)) "Â°C";
                  confidence := Math_round (accuracy (q_sst q) * 100);
                  timeframe := "Next 6 hours";
                  riskLevel := Trended.risk (seaSurfaceTemperature p);
                  details :=
                    generatePredictionDetails Param.sst
                      (Trended.value (seaSurfaceTemperature p)) Undefined |}
      | Param.seaLevel =>
          Some {| prediction := Quantity (Trended.value (seaLevel p)) " m";
                  confidence := Math_round (accuracy (q_seaLevel q) * 100);
                  timeframe := "Next 12 hours";
                  riskLevel := Trended.risk (seaLevel p);
                  details :=
                    generatePredictionDetails Param.seaLevel
                      (Trended.value (seaLevel p))
                      (Str (Trend_name (Trended.trend (seaLevel p)))) |}
      | Param.chlorophyll =>
          Some {| prediction :=
                    if Risk_eqb (Chl.bloomRisk (chlorophyll p)) high
                    then Text "High bloom risk" else Text "Normal levels";
                  confidence := Math_round (accuracy (q_chlorophyll q) * 100);
                  timeframe := "Next 48 hours";
                  riskLevel := Chl.risk (chlorophyll p);
                  details :=
                    generatePredictionDetails Param.chlorophyll
                      (Chl.value (chlorophyll p))
                      (Str (Risk_name (Chl.bloomRisk (chlorophyll p)))) |}
      | Param.wind =>
          Some {| prediction := Quantity (Wind.speed (wind p)) " m/s";
                  confidence := Math_round (accuracy (q_wind q) * 100);
                  timeframe := "Next 24 hours";
                  riskLevel := Wind.risk (wind p);
                  details :=
                    generatePredictionDetails Param.wind (Wind.speed (wind p))
                      (Num (Wind.direction (wind p))) |}
      | Param.rainfall =>
          Some {| prediction := Quantity (Rain.total (rainfall p)) " mm";
                  confidence := Math_round (accuracy (q_rainfall q) * 100);
                  timeframe := "Next 12 hours";
                  riskLevel := Rain.risk (rainfall p);
                  details :=
                    generatePredictionDetails Param.rainfall (Rain.total (rainfall p))
                      (Str (Intensity_name (Rain.intensity (rainfall p)))) |}
      end
  end.

End Details.

End PredictionCard.

(** ** The prediction timeline ([PredictionTimeline]) *)

Module Timeline.

(** ['7d' | '14d' | '30d'] *)
Inductive Timeframe := d7 | d14 | d30.

Record TimelineDataPoint := {
  date : string;
  value : number;
  unit : string;
  confidence : number;
  risk : Risk;
  trend : Trend;
  anomaly : option number;
  prediction : string }.

Record BaseValue := { base : number; base_unit : string; range : Range }.

Definition baseValues (selectedParameter : Param.t) : BaseValue :=
  match selectedParameter with
  | Param.sst =>
      {| base := 28.5; base_unit := "°C";
         range := {| range_min := 25; range_max := 32 |} |}
  | Param.seaLevel =>
      {| base := 0.12; base_unit := "m";
         range := {| range_min := -0.2; range_max := 0.3 |} |}
  | Param.chlorophyll =>
      {| base := 0.8; base_unit := "mg/m³";
         range := {| range_min := 0.1; range_max := 2.0 |} |}
  | Param.wind =>
      {| base := 12.5; base_unit := "m/s";
         range := {| range_min := 5; range_max := 25 |} |}
  | Param.rainfall =>
      {| base := 2.1; base_unit := "mm";
         range := {| range_min := 0; range_max := 10 |} |}
  end.

(** [selectedTimeframe === '7d' ? 7 : selectedTimeframe === '14d' ? 14 : 30] *)
Definition days (selectedTimeframe : Timeframe) : nat :=
  match selectedTimeframe with
  | d7 => 7
  | d14 => 14
  | d30 => 30
  end.

(** The [predictions] object: [predictions[param][intensity]]. *)
Definition predictions (param : Param.t) (intensity : string) : option string :=
  match param with
  | Param.sst =>
      if (intensity =? "low")%string then
        Some "Normal temperature range maintained"%string
      else if (intensity =? "medium")%string then
        Some "Slight temperature increase expected"%string
      else if (intensity =? "high")%string then
        Some "Above-average temperatures predicted"%string
      else None
  | Param.seaLevel =>
      if (intensity =? "low")%string then Some "Stable sea level conditions"%string
      else if (intensity =? "medium")%string then
        Some "Gradual sea level rise continuing"%string
      else if (intensity =? "high")%string then
        Some "Accelerated sea level rise expected"%string
      else None
  | Param.chlorophyll =>
      if (intensity =? "low")%string then Some "Normal chlorophyll levels"%string
      else if (intensity =? "medium")%string then Some "Moderate algal activity"%string
      else if (intensity =? "high")%string then Some "High algal bloom risk"%string
      else None
  | Param.wind =>
      if (intensity =? "low")%string then Some "Calm wind conditions"%string
      else if (intensity =? "medium")%string then Some "Moderate wind speeds"%string
      else if (intensity =? "high")%string then Some "Strong winds expected"%string
      else None
  | Param.rainfall =>
      if (intensity =? "low")%string then Some "Minimal precipitation"%string
      else if (intensity =? "medium")%string then
        Some "Moderate rainfall expected"%string
      else if (intensity =? "high")%string then Some "Heavy rainfall predicted"%string
      else None
  end.

(** [dayOffset < 3 ? 'low' : dayOffset < 7 ? 'medium' : 'high'], then the
    lookup with its [|| 'Normal conditions expected']; [value] and [trend]
    are not used. *)
Definition generatePrediction (param : Param.t) (value : number) (trend : Trend)
    (dayOffset : number) : string :=
  let intensity :=
    if dayOffset <? 3 then "low"%string
    else if dayOffset <? 7 then "medium"%string else "high"%string in
  or_string (predictions param intensity) "Normal conditions expected".

(** [s.split('T')[0]]: what comes before the first [T] (character 84). *)
Fixpoint beforeT (s : string) : string :=
  match s with
  | EmptyString => EmptyString
  | String c rest =>
      if Ascii.eqb c (Ascii.ascii_of_nat 84) then EmptyString
      else String c (beforeT rest)
  end.

Section Generate.

Variable rt : Runtime.

(** [new Date()], in milliseconds. *)
Variable currentDate : Z.

Variable selectedParameter : Param.t.
Variable selectedTimeframe : Timeframe.

(** The [if ... else if ...] chain on the parameter that sets [variation]
    and [trend]. *)
Definition variation (i : number) : number :=
  match selectedParameter with
  | Param.sst => Math_sin rt (i * 0.9) * 2 + (i * 0.1)
  | Param.seaLevel => Math_sin rt (i * 1.4) * 0.1 + (i * 0.002)
  | Param.chlorophyll => Math_sin rt (i * 0.7) * 0.5 + (i * 0.05)
  | Param.wind => Math_sin rt (i * 1.2) * 5 + (i * 0.3)
  | Param.rainfall => Math_sin rt (i * 0.8) * 3 + (i * 0.2)
  end.

Definition trendAt (i : number) : Trend :=
  match selectedParameter with
  | Param.sst => if gt i 3 then increasing else stable
  | Param.seaLevel => increasing
  | Param.chlorophyll => if gt i 5 then increasing else stable
  | Param.wind => if gt i 2 then decreasing else stable
  | Param.rainfall => if gt i 4 then increasing else stable
  end.

(** [Math.max(base.range.min, Math.min(base.range.max, base.base + variation))] *)
Definition valueAt (i : number) : number :=
  let b := baseValues selectedParameter in
  Math_max (range_min (range b)) (Math_min (range_max (range b)) (base b + variation i)).

(** [Math.max(70, Math.min(95, 90 - (i * 2) + (Math.random() - 0.5) * 10))],
    with the draw of iteration [k]. *)
Definition confidenceAt (k : nat) : number :=
  let i := of_nat k in
  Math_max 70 (Math_min 95 (90 - (i * 2) + (Math_random rt k - 0.5) * 10)).

(** Five successive [if]s over a local that starts as ['low']. *)
Definition riskAt (i : number) : Risk :=
  let value := valueAt i in
  let risk := low in
  let risk :=
    if Param_is selectedParameter Param.sst && gt value 30 then medium else risk in
  let risk :=
    if Param_is selectedParameter Param.wind && gt value 20 then medium else risk in
  let risk :=
    if Param_is selectedParameter Param.rainfall && gt value 5 then medium else risk in
  let risk :=
    if Param_is selectedParameter Param.chlorophyll && gt value 1.5 then medium
    else risk in
  let risk :=
    if gt i (of_nat (days selectedTimeframe) * 0.7) then medium else risk in
  risk.

(** The object pushed in iteration [k], given the printed date. *)
Definition pointAt (k : nat) (isoDate : string) : TimelineDataPoint :=
  let i := of_nat k in
  let b := baseValues selectedParameter in
  {| date := beforeT isoDate;
     value := Math_round (valueAt i * 100) / 100;
     unit := base_unit b;
     confidence := Math_round (confidenceAt k);
     risk := riskAt i;
     trend := trendAt i;
     anomaly :=
       if Param_is selectedParameter Param.sst then Some (valueAt i - base b) else None;
     prediction := generatePrediction selectedParameter (valueAt i) (trendAt i) i |}.

(** One iteration: [date.setDate(date.getDate() + i)] on a copy of the
    current date, and [toISOString], which throws on an invalid date. *)
Definition iteration (k : nat) : Completion TimelineDataPoint :=
  match plusDays rt (Z.of_nat k) currentDate with
  | Some t => Return (pointAt k (toISOString rt t))
  | None => Throw (ErrorObject "Invalid time value")
  end.

(** [for (let i = 0; i < days; i++) { ...; data.push(...) }] over the
    counters [ks], stopping at the first iteration that throws. *)
Fixpoint loop (ks : list nat) (data : list TimelineDataPoint)
    : Completion (list TimelineDataPoint) :=
  match ks with
  | [] => Return data
  | k :: rest =>
      match iteration k with
      | Return point => loop rest (data ++ [point])
      | Throw e => Throw e
      end
  end.

(** [generateTimelineData]: empty without a summary. *)
Definition generateTimelineData (oceanSummary : option OceanographicSummary)
    : Completion (list TimelineDataPoint) :=
  match oceanSummary with
  | None => Return []
  | Some _ => loop (seq 0 (days selectedTimeframe)) []
  end.

End Generate.

(** The first day that is more than 0.7 of the way: [i > days * 0.7]. *)
Definition firstFarDay (selectedTimeframe : Timeframe) : nat :=
  match selectedTimeframe with
  | d7 => 5
  | d14 => 10
  | d30 => 22
  end.

(** The band of a day offset. *)
Definition band (k : nat) : string :=
  if (k <? 3)%nat then "low" else if (k <? 7)%nat then "medium" else "high".

End Timeline.

(** The order of the four threat levels. *)
Definition levelRank (l : ThreatLevel.t) : nat :=
  match l with
  | ThreatLevel.low => 0
  | ThreatLevel.medium => 1
  | ThreatLevel.high => 2
  | ThreatLevel.critical => 3
  end.

(** * Properties *)

(** ** Order and subtraction of doubles

    Facts about the IEEE 754 operations of the kernel, read off their
    specification ([SpecFloat]): what the comparisons of the code mean. *)

Module DoubleFacts.

Local Open Scope Z_scope.

Lemma pow2_split (d : Z) : 1 <= d -> 2 ^ d = 2 * 2 ^ (d - 1).
Proof.
  intros H. replace d with (Z.succ (d - 1)) at 1 by lia.
  apply Z.pow_succ_r. lia.
Qed.

Lemma digits2_pos_bounds (m : positive) :
  2 ^ (Zpos (digits2_pos m) - 1) <= Zpos m < 2 ^ Zpos (digits2_pos m).
Proof.
  induction m as [p IH | p IH |]; cbn [digits2_pos].
  - rewrite Pos2Z.inj_succ.
    replace (Z.succ (Zpos (digits2_pos p)) - 1) with (Zpos (digits2_pos p)) by lia.
    rewrite (pow2_split (Z.succ (Zpos (digits2_pos p)))) by lia.
    replace (Z.succ (Zpos (digits2_pos p)) - 1) with (Zpos (digits2_pos p)) by lia.
    rewrite (pow2_split (Zpos (digits2_pos p))) in * by lia. lia.
  - rewrite Pos2Z.inj_succ.
    replace (Z.succ (Zpos (digits2_pos p)) - 1) with (Zpos (digits2_pos p)) by lia.
    rewrite (pow2_split (Z.succ (Zpos (digits2_pos p)))) by lia.
    replace (Z.succ (Zpos (digits2_pos p)) - 1) with (Zpos (digits2_pos p)) by lia.
    rewrite (pow2_split (Zpos (digits2_pos p))) in * by lia. lia.
  - cbn. lia.
Qed.

Lemma iter_xO_value (m d : positive) :
  Zpos (Pos.iter xO m d) = Zpos m * 2 ^ Zpos d.
Proof.
  induction d as [| d IH] using Pos.peano_ind.
  - cbn. lia.
  - rewrite Pos.iter_succ, Pos2Z.inj_succ, Z.pow_succ_r by lia.
    rewrite Pos2Z.inj_xO, IH. lia.
Qed.

Lemma shl_align_value (mx : positive) (ex ez : Z) :
  ez <= ex -> Zpos (fst (shl_align mx ex ez)) = Zpos mx * 2 ^ (ex - ez).
Proof.
  intros H. unfold shl_align.
  destruct (ez - ex) as [| p | p] eqn:E; cbn [fst].
  - replace (ex - ez) with 0 by lia. cbn. lia.
  - lia.
  - rewrite iter_xO_value. replace (ex - ez) with (Zpos p) by lia. reflexivity.
Qed.

(** Shifting right by fewer bits than the mantissa has leaves a positive
    mantissa. *)
Lemma iter_shr_1_positive (p : positive) :
  forall (q : positive) (r s : bool),
    Zpos p < Zpos (digits2_pos q) ->
    exists q' r' s',
      iter_pos shr_1 p (Build_shr_record (Zpos q) r s) = Build_shr_record (Zpos q') r' s' /\
      Zpos (digits2_pos q') = Zpos (digits2_pos q) - Zpos p.
Proof.
  assert (step : forall (q : positive) (r s : bool),
             1 < Zpos (digits2_pos q) ->
             exists q' r' s',
               shr_1 (Build_shr_record (Zpos q) r s) = Build_shr_record (Zpos q') r' s' /\
               Zpos (digits2_pos q') = Zpos (digits2_pos q) - 1).
  { intros [q | q |] r s H; cbn [digits2_pos] in *.
    - exists q, true, (r || s)%bool. split; [reflexivity | lia].
    - exists q, false, (r || s)%bool. split; [reflexivity | lia].
    - lia. }
  induction p as [p IH | p IH |]; intros q r s H; cbn [iter_pos].
  - destruct (step q r s) as (q0 & r0 & s0 & E0 & D0); [lia |].
    rewrite E0.
    destruct (IH q0 r0 s0) as (q1 & r1 & s1 & E1 & D1); [lia |].
    rewrite E1.
    destruct (IH q1 r1 s1) as (q2 & r2 & s2 & E2 & D2); [lia |].
    exists q2, r2, s2. split; [exact E2 | lia].
  - destruct (IH q r s) as (q1 & r1 & s1 & E1 & D1); [lia |].
    rewrite E1.
    destruct (IH q1 r1 s1) as (q2 & r2 & s2 & E2 & D2); [lia |].
    exists q2, r2, s2. split; [exact E2 | lia].
  - destruct (step q r s) as (q0 & r0 & s0 & E0 & D0); [lia |].
    exists q0, r0, s0. split; [exact E0 | lia].
Qed.

Lemma shr_fexp_positive (q : positive) (e : Z) (l : SpecFloat.location) :
  -1074 <= e ->
  exists q' r' s' e',
    shr_fexp prec emax (Zpos q) e l = (Build_shr_record (Zpos q') r' s', e') /\
    -1074 <= e'.
Proof.
  intros He. unfold shr_fexp, shr, fexp, emin, prec, emax, Zdigits2.
  assert (Hrec : exists r s, shr_record_of_loc (Zpos q) l = Build_shr_record (Zpos q) r s).
  { destruct l as [| []]; cbn; eauto. }
  destruct Hrec as (r & s & ->).
  destruct (Z.max (Zpos (digits2_pos q) + e - 53) (3 - 1024 - 53) - e) as [| p | p] eqn:En.
  - exists q, r, s, e. split; [reflexivity | exact He].
  - destruct (iter_shr_1_positive p q r s) as (q' & r' & s' & E & _); [lia |].
    rewrite E. exists q', r', s', (e + Zpos p). split; [reflexivity | lia].
  - exists q, r, s, e. split; [reflexivity | exact He].
Qed.

Lemma round_nearest_even_positive (q : positive) (l : SpecFloat.location) :
  exists q', round_nearest_even (Zpos q) l = Zpos q'.
Proof.
  destruct l as [| []]; cbn [round_nearest_even];
    try destruct (Z.even (Zpos q)); eexists; cbn; reflexivity.
Qed.

(** Rounding a non-zero magnitude at an exponent that is not below [emin]
    never gives zero or NaN. *)
Lemma binary_round_aux_nonzero (sx : bool) (q : positive) (e : Z) (l : SpecFloat.location) :
  -1074 <= e ->
  (exists m e', binary_round_aux prec emax sx (Zpos q) e l = S754_finite sx m e') \/
  binary_round_aux prec emax sx (Zpos q) e l = S754_infinity sx.
Proof.
  intros He. unfold binary_round_aux.
  destruct (shr_fexp_positive q e l He) as (q1 & r1 & s1 & e1 & -> & He1).
  cbn [shr_m].
  destruct (round_nearest_even_positive q1
              (loc_of_shr_record (Build_shr_record (Zpos q1) r1 s1))) as (q2 & ->).
  destruct (shr_fexp_positive q2 e1 loc_Exact He1) as (q3 & r3 & s3 & e3 & -> & He3).
  cbn [shr_m].
  destruct (e3 <=? emax - prec); [left; eauto | right; reflexivity].
Qed.

Lemma binary_round_nonzero (sx : bool) (q : positive) (e : Z) :
  -1074 <= e ->
  (exists m e', binary_round prec emax sx q e = S754_finite sx m e') \/
  binary_round prec emax sx q e = S754_infinity sx.
Proof.
  intros He. unfold binary_round, shl_align.
  destruct (fexp prec emax (Zpos (digits2_pos q) + e) - e) eqn:En;
    apply binary_round_aux_nonzero; try exact He.
  unfold fexp, emin, prec, emax. lia.
Qed.

(** The sign of a rounded integer is the integer's. *)
Lemma binary_normalize_positive (d e : Z) :
  -1074 <= e ->
  SFltb (S754_zero false) (binary_normalize prec emax d e false) = (0 <? d).
Proof.
  intros He. destruct d as [| p | p]; cbn [binary_normalize].
  - reflexivity.
  - destruct (binary_round_nonzero false p e He) as [(m & e' & ->) | ->]; reflexivity.
  - destruct (binary_round_nonzero true p e He) as [(m & e' & ->) | ->]; reflexivity.
Qed.

Lemma bounded_facts (m : positive) (e : Z) :
  bounded prec emax m e = true ->
  -1074 <= e /\ Zpos (digits2_pos m) <= 53 /\
  (-1074 < e -> Zpos (digits2_pos m) = 53).
Proof.
  unfold bounded, canonical_mantissa, fexp, emin, prec, emax.
  intros H. apply andb_true_iff in H. destruct H as [H _].
  apply Z.eqb_eq in H. lia.
Qed.

(** A full-width mantissa at a higher exponent exceeds any mantissa at a
    lower one. *)
Lemma scaled_dominates (mx my : positive) (k : Z) :
  1 <= k ->
  Zpos (digits2_pos mx) = 53 ->
  Zpos (digits2_pos my) <= 53 ->
  Zpos my < Zpos mx * 2 ^ k.
Proof.
  intros Hk Hx Hy.
  pose proof (digits2_pos_bounds mx) as [Bx _]. rewrite Hx in Bx.
  pose proof (digits2_pos_bounds my) as [_ By].
  assert (By' : 2 ^ Zpos (digits2_pos my) <= 2 ^ 53)
    by (apply Z.pow_le_mono_r; lia).
  rewrite (pow2_split k Hk).
  assert (Ht : 0 < 2 ^ (k - 1)) by (apply Z.pow_pos_nonneg; lia).
  rewrite (pow2_split 53) in By' by lia.
  change (53 - 1) with 52 in *.
  revert Bx By By' Ht. generalize (2 ^ 52) (2 ^ (k - 1)) (2 ^ Zpos (digits2_pos my)).
  intros P t Q Bx By By' Ht. nia.
Qed.

(** On two finite doubles, [y < x] is the sign of the aligned integer
    difference that [x - y] rounds. *)
Lemma finite_ltb_is_sign_of_difference (sx sy : bool) (mx my : positive) (ex ey : Z) :
  bounded prec emax mx ex = true ->
  bounded prec emax my ey = true ->
  SFltb (S754_finite sy my ey) (S754_finite sx mx ex)
  = (0 <? cond_Zopp sx (Zpos (fst (shl_align mx ex (Z.min ex ey))))
          - cond_Zopp sy (Zpos (fst (shl_align my ey (Z.min ex ey))))).
Proof.
  intros Bx By.
  destruct (bounded_facts mx ex Bx) as (Ex & Dx & Fx).
  destruct (bounded_facts my ey By) as (Ey & Dy & Fy).
  rewrite !shl_align_value by lia.
  unfold SFltb, SFcompare.
  assert (Px : 0 < Zpos mx * 2 ^ (ex - Z.min ex ey))
    by (apply Z.mul_pos_pos; [lia | apply Z.pow_pos_nonneg; lia]).
  assert (Py : 0 < Zpos my * 2 ^ (ey - Z.min ex ey))
    by (apply Z.mul_pos_pos; [lia | apply Z.pow_pos_nonneg; lia]).
  destruct sx, sy; cbn [cond_Zopp].
  - (* both negative *)
    destruct (Z.compare_spec ey ex) as [E | L | G].
    + subst ey. rewrite Z.min_id, Z.sub_diag in *. cbn [Z.pow] in *.
      rewrite Pos.compare_cont_spec. cbn [Pos.switch_Eq].
      change (Pos.compare my mx) with (Z.compare (Zpos my) (Zpos mx)).
      destruct (Z.compare_spec (Zpos my) (Zpos mx)); cbn [CompOpp]; symmetry;
        [apply Z.ltb_ge | apply Z.ltb_ge | apply Z.ltb_lt]; lia.
    + rewrite Z.min_r, Z.sub_diag in * by lia. cbn [Z.pow] in *.
      pose proof (scaled_dominates mx my (ex - ey) ltac:(lia) ltac:(lia) Dy).
      symmetry. apply Z.ltb_ge. lia.
    + rewrite Z.min_l, Z.sub_diag in * by lia. cbn [Z.pow] in *.
      pose proof (scaled_dominates my mx (ey - ex) ltac:(lia) ltac:(lia) Dx).
      symmetry. apply Z.ltb_lt. lia.
  - (* x negative, y positive *)
    symmetry. apply Z.ltb_ge. lia.
  - (* x positive, y negative *)
    symmetry. apply Z.ltb_lt. lia.
  - (* both positive *)
    destruct (Z.compare_spec ey ex) as [E | L | G].
    + subst ey. rewrite Z.min_id, Z.sub_diag in *. cbn [Z.pow] in *.
      rewrite Pos.compare_cont_spec. cbn [Pos.switch_Eq].
      change (Pos.compare my mx) with (Z.compare (Zpos my) (Zpos mx)).
      destruct (Z.compare_spec (Zpos my) (Zpos mx)); symmetry;
        [apply Z.ltb_ge | apply Z.ltb_lt | apply Z.ltb_ge]; lia.
    + rewrite Z.min_r, Z.sub_diag in * by lia. cbn [Z.pow] in *.
      pose proof (scaled_dominates mx my (ex - ey) ltac:(lia) ltac:(lia) Dy).
      symmetry. apply Z.ltb_lt. lia.
    + rewrite Z.min_l, Z.sub_diag in * by lia. cbn [Z.pow] in *.
      pose proof (scaled_dominates my mx (ey - ex) ltac:(lia) ltac:(lia) Dx).
      symmetry. apply Z.ltb_ge. lia.
Qed.

(** [x - y > 0] exactly when [x > y], on the specification of doubles. *)
Lemma SFsub_positive_iff (x y : spec_float) :
  valid_binary x = true -> valid_binary y = true ->
  SFltb (S754_zero false) (SF64sub x y) = SFltb y x.
Proof.
  intros Vx Vy. unfold SF64sub.
  destruct x as [sx | sx | | sx mx ex], y as [sy | sy | | sy my ey];
    try (destruct sx; reflexivity);
    try (destruct sy; reflexivity);
    try (destruct sx, sy; reflexivity);
    try reflexivity.
  cbn [valid_binary] in Vx, Vy. unfold SFsub.
  rewrite binary_normalize_positive.
  - symmetry. apply finite_ltb_is_sign_of_difference; assumption.
  - destruct (bounded_facts mx ex Vx) as (Ex & _).
    destruct (bounded_facts my ey Vy) as (Ey & _). lia.
Qed.

(** [x - y > 0] exactly when [x > y], on doubles. *)
Lemma sub_positive_iff (x y : float) : (0 <? x - y)%float = (y <? x)%float.
Proof.
  rewrite !ltb_spec, sub_spec.
  change (Prim2SF 0) with (S754_zero false).
  apply SFsub_positive_iff; apply Prim2SF_valid.
Qed.

(** [<] is asymmetric. *)
Lemma SFltb_asym (x y : spec_float) : SFltb x y = true -> SFltb y x = false.
Proof.
  unfold SFltb, SFcompare.
  destruct x as [sx | sx | | sx mx ex], y as [sy | sy | | sy my ey];
    try (destruct sx; try destruct sy; intros H; solve [reflexivity | discriminate H]);
    try (destruct sy; intros H; solve [reflexivity | discriminate H]);
    try (intros H; solve [reflexivity | discriminate H]).
  rewrite (Z.compare_antisym ex ey).
  pose proof (Pos.compare_cont_antisym mx my Eq) as A. cbn [CompOpp] in A.
  rewrite <- A. clear A.
  destruct sx, sy; destruct (Z.compare ex ey); cbn [CompOpp];
    try destruct (Pos.compare_cont Eq mx my); cbn [CompOpp];
    intros H; solve [reflexivity | discriminate H].
Qed.

Lemma ltb_asym (x y : float) : (x <? y)%float = true -> (y <? x)%float = false.
Proof. rewrite !ltb_spec. apply SFltb_asym. Qed.

End DoubleFacts.

(** ** Rounding *)

(** [Math.round] on some doubles: ties go up, and the rounding to two
    decimals of the summary. *)
Example Math_round_samples :
  JS.Math_round 2.5 = 3 /\ JS.Math_round (-2.5) = (-2) /\
  JS.Math_round 2.4 = 2 /\ JS.Math_round 0.49999999999999994 = 0 /\
  JS.Math_round (28.126 * 100) / 100 = 28.13 /\
  JS.Math_round (0 / 0) = nan /\ JS.of_nat 3 = 3.
Proof. vm_compute. repeat split. Qed.

(** ** Arrays and sums *)

Lemma reduce_sumFrom {T : Type} (f : T -> number) (l : list T) (acc : number) :
  fold_left (fun sum point => sum + f point) l acc = sumFrom acc (map f l).
Proof.
  revert acc. induction l as [| p l IH]; intro acc; simpl.
  - reflexivity.
  - apply IH.
Qed.

Lemma reduce_sum {T : Type} (f : T -> number) (l : list T) :
  reduce (fun sum point => sum + f point) 0 l = sumOf (map f l).
Proof. unfold reduce, sumOf. apply reduce_sumFrom. Qed.

(** ** The reducer's representative values *)

(** C6. The value each parameter is reduced to: the arithmetic mean of the
    [value] field for SST, sea level and chlorophyll, the arithmetic mean
    of the [speed] field for wind, and the sum of the [accumulation] field,
    not divided by the count, for rainfall. The risk levels of the summary
    are taken from these values; the figures the summary shows are these
    values rounded to 2, 3, 3, 1 and 2 decimals. *)
Theorem reducer_values_are_means_and_rainfall_sum :
  forall (sstData : EarthdataResponse SSTData)
         (seaLevelData : EarthdataResponse SeaLevelData)
         (chlorophyllData : EarthdataResponse ChlorophyllData)
         (windData : EarthdataResponse WindData)
         (rainfallData : EarthdataResponse RainfallData),
    sstAvg sstData = arithmeticMean (map (fun p : SSTData => value p) (data sstData)) /\
    seaLevelAvg seaLevelData
      = arithmeticMean (map (fun p : SeaLevelData => value p) (data seaLevelData)) /\
    chlorophyllAvg chlorophyllData
      = arithmeticMean (map (fun p : ChlorophyllData => value p) (data chlorophyllData)) /\
    windAvg windData = arithmeticMean (map speed (data windData)) /\
    rainfallTotal rainfallData = sumOf (map accumulation (data rainfallData)) /\
    forall now box,
    exists s,
      summary now box (Some sstData) (Some seaLevelData) (Some chlorophyllData)
        (Some windData) (Some rainfallData) = Some s /\
      Trended.risk (seaSurfaceTemperature (parameters s)) = sstRisk (sstAvg sstData) /\
      Trended.risk (seaLevel (parameters s)) = seaLevelRisk (seaLevelAvg seaLevelData) /\
      Chl.risk (chlorophyll (parameters s))
        = chlorophyllRisk (chlorophyllAvg chlorophyllData) /\
      Wind.risk (wind (parameters s)) = windRisk (windAvg windData) /\
      Rain.risk (rainfall (parameters s)) = rainfallRisk (rainfallTotal rainfallData) /\
      Trended.value (seaSurfaceTemperature (parameters s))
        = Math_round (sstAvg sstData * 100) / 100 /\
      Trended.value (seaLevel (parameters s))
        = Math_round (seaLevelAvg seaLevelData * 1000) / 1000 /\
      Chl.value (chlorophyll (parameters s))
        = Math_round (chlorophyllAvg chlorophyllData * 1000) / 1000 /\
      Wind.speed (wind (parameters s)) = Math_round (windAvg windData * 10) / 10 /\
      Rain.total (rainfall (parameters s))
        = Math_round (rainfallTotal rainfallData * 100) / 100.
Proof.
  intros sstData seaLevelData chlorophyllData windData rainfallData.
  unfold sstAvg, seaLevelAvg, chlorophyllAvg, windAvg, rainfallTotal, arithmeticMean.
  rewrite !reduce_sum, !length_map.
  repeat split.
  intros now box. eexists. split; [reflexivity |].
  cbn [parameters seaSurfaceTemperature seaLevel chlorophyll wind rainfall
       Trended.risk Trended.value Chl.risk Chl.value Wind.risk Wind.speed
       Rain.risk Rain.total].
  unfold sstAvg, seaLevelAvg, chlorophyllAvg, windAvg, rainfallTotal.
  rewrite !reduce_sum.
  repeat split.
Qed.

(** ** Threat assessment *)

(** C7. The threat score is the sum of the five per-parameter deltas, each
    its table entry when that parameter's risk is high and nothing
    otherwise; the factor and recommendation lists hold the entries of the
    high-risk parameters, in the order SST, sea level, chlorophyll, wind,
    rainfall. With SST, sea level and wind high and the two others low the
    score is 25 + 30 + 15 = 70. *)
Theorem threat_score_is_sum_of_deltas :
  (forall s : OceanographicSummary,
     exists a,
       threatAssessment (Some s) = Some a /\
       threatScore a
         = deltaOf (parameters s) Kind.SST + deltaOf (parameters s) Kind.SeaLevel
           + deltaOf (parameters s) Kind.Chlorophyll + deltaOf (parameters s) Kind.Wind
           + deltaOf (parameters s) Kind.Rainfall /\
       threatScore a = sumOf (map scoreDelta (highKinds (parameters s))) /\
       threatFactors a = map factorText (highKinds (parameters s)) /\
       recommendations a = map recommendationText (highKinds (parameters s))) /\
  (exists a,
     threatAssessment (Some (summaryWith high high low high low)) = Some a /\
     threatScore a = 70 /\
     threatFactors a
       = ["Elevated sea surface temperature"; "Abnormal sea level variations";
          "High wind speeds"]%string).
Proof.
  split.
  - intros [ts loc [[v1 u1 r1 t1] [v2 u2 r2 t2] [v3 u3 r3 b3] [v4 u4 r4 d4]
                    [v5 u5 r5 i5]] ov q].
    eexists. split; [reflexivity |].
    destruct r1, r2, r3, r4, r5; vm_compute; repeat split.
  - eexists. split; [reflexivity |]. vm_compute. repeat split.
Qed.

(** C8. The threat level is read off the score by descending first-match
    thresholds: at least 80 is critical, otherwise at least 60 is high,
    otherwise at least 30 is medium, otherwise low. The score is not
    clamped: five high risks score 110, which is critical. No high risk
    scores 0, which is low, with empty factor and recommendation lists. *)
Theorem threat_level_by_descending_thresholds :
  (forall s : OceanographicSummary,
     exists a,
       threatAssessment (Some s) = Some a /\
       threatLevel a = threatLevelOf (threatScore a)) /\
  (forall threatScore : number,
     (ge threatScore 80 = true -> threatLevelOf threatScore = ThreatLevel.critical) /\
     (ge threatScore 80 = false -> ge threatScore 60 = true ->
      threatLevelOf threatScore = ThreatLevel.high) /\
     (ge threatScore 80 = false -> ge threatScore 60 = false ->
      ge threatScore 30 = true -> threatLevelOf threatScore = ThreatLevel.medium) /\
     (ge threatScore 80 = false -> ge threatScore 60 = false ->
      ge threatScore 30 = false -> threatLevelOf threatScore = ThreatLevel.low)) /\
  (forall s : OceanographicSummary,
     (forall k, riskOf (parameters s) k = high) ->
     exists a,
       threatAssessment (Some s) = Some a /\
       threatScore a = 110 /\ threatLevel a = ThreatLevel.critical) /\
  (forall s : OceanographicSummary,
     (forall k, riskOf (parameters s) k <> high) ->
     exists a,
       threatAssessment (Some s) = Some a /\
       threatScore a = 0 /\ threatLevel a = ThreatLevel.low /\
       threatFactors a = [] /\ recommendations a = []) /\
  threatLevelOf 110 = ThreatLevel.critical /\
  threatLevelOf 80 = ThreatLevel.critical /\
  threatLevelOf 70 = ThreatLevel.high /\
  threatLevelOf 60 = ThreatLevel.high /\
  threatLevelOf 30 = ThreatLevel.medium /\
  threatLevelOf 25 = ThreatLevel.low /\
  threatLevelOf 0 = ThreatLevel.low.
Proof.
  split; [| split; [| split; [| split]]].
  - intros s. eexists. split; reflexivity.
  - intros x. unfold threatLevelOf.
    repeat split; intros; repeat match goal with H : _ = _ |- _ => rewrite H end;
      reflexivity.
  - intros [ts loc [[v1 u1 r1 t1] [v2 u2 r2 t2] [v3 u3 r3 b3] [v4 u4 r4 d4]
                    [v5 u5 r5 i5]] ov q] Hall.
    pose proof (Hall Kind.SST) as H1. pose proof (Hall Kind.SeaLevel) as H2.
    pose proof (Hall Kind.Chlorophyll) as H3. pose proof (Hall Kind.Wind) as H4.
    pose proof (Hall Kind.Rainfall) as H5.
    cbn in H1, H2, H3, H4, H5. subst.
    eexists. split; [reflexivity |]. vm_compute. split; reflexivity.
  - intros [ts loc [[v1 u1 r1 t1] [v2 u2 r2 t2] [v3 u3 r3 b3] [v4 u4 r4 d4]
                    [v5 u5 r5 i5]] ov q] Hnone.
    pose proof (Hnone Kind.SST) as H1. pose proof (Hnone Kind.SeaLevel) as H2.
    pose proof (Hnone Kind.Chlorophyll) as H3. pose proof (Hnone Kind.Wind) as H4.
    pose proof (Hnone Kind.Rainfall) as H5.
    cbn in H1, H2, H3, H4, H5.
    eexists. split; [reflexivity |].
    destruct r1; try congruence; destruct r2; try congruence;
      destruct r3; try congruence; destruct r4; try congruence;
      destruct r5; try congruence; vm_compute; repeat split.
  - vm_compute. repeat split.
Qed.

(** ** Overall risk *)

Lemma overallRiskOf_by_count (r1 r2 r3 r4 r5 : Risk) :
  overallRiskOf [r1; r2; r3; r4; r5]
  = overallByCount (highCount (parametersWith r1 r2 r3 r4 r5)).
Proof. destruct r1, r2, r3, r4, r5; reflexivity. Qed.

Lemma highCount_le_5 (p : Parameters) : (highCount p <= 5)%nat.
Proof.
  unfold highCount, highKinds.
  etransitivity; [apply filter_length_le |]. apply le_n.
Qed.

(** C9. The overall risk of a summary that was built is a function of how
    many of its five per-parameter risks are high: more than 2 (that is 3,
    4 or 5) gives high, 1 or 2 gives medium, 0 gives low. *)
Theorem overall_risk_by_high_count :
  forall now box sstData seaLevelData chlorophyllData windData rainfallData s,
    summary now box sstData seaLevelData chlorophyllData windData rainfallData
      = Some s ->
    overallRisk s = overallByCount (highCount (parameters s)) /\
    (highCount (parameters s) <= 5)%nat /\
    ((2 < highCount (parameters s))%nat -> overallRisk s = high) /\
    (highCount (parameters s) = 1%nat \/ highCount (parameters s) = 2%nat ->
     overallRisk s = medium) /\
    (highCount (parameters s) = 0%nat -> overallRisk s = low).
Proof.
  intros now box [a |] [b |] [c |] [d |] [e |] s Hs; try discriminate.
  assert (Hc : overallRisk s = overallByCount (highCount (parameters s))).
  { injection Hs as <-.
    cbn [overallRisk parameters].
    rewrite overallRiskOf_by_count. reflexivity. }
  split; [exact Hc |]. split; [apply highCount_le_5 |].
  rewrite Hc.
  destruct (highCount (parameters s)) as [| [| [| n]]]; cbn;
    repeat split; intros; try reflexivity; try lia.
  all: destruct H; discriminate.
Qed.

Lemma overall_risk_by_high_count_witness :
  exists s,
    summaryOfSST [sstPoint 31] = Some s /\
    highCount (parameters s) = 1%nat /\
    overallRisk s = overallByCount (highCount (parameters s)) /\
    (highCount (parameters s) <= 5)%nat /\
    ((2 < highCount (parameters s))%nat -> overallRisk s = high) /\
    (highCount (parameters s) = 1%nat \/ highCount (parameters s) = 2%nat ->
     overallRisk s = medium) /\
    (highCount (parameters s) = 0%nat -> overallRisk s = low).
Proof.
  eexists. split; [reflexivity |]. split; [reflexivity |].
  apply (overall_risk_by_high_count sampleNow (bbox 18 72 20 75)
           (Some (response [sstPoint 31]))
           (Some (response [seaLevelPoint 0.1]))
           (Some (response [chlorophyllPoint 0.2]))
           (Some (response [windPoint 5]))
           (Some (response [rainfallPoint 1]))).
  reflexivity.
Defined.

(** ** Empty observation arrays *)

(** The summary is withheld only when a response is undefined: five
    responses that are there always give a summary, whatever their arrays
    hold. *)
Lemma summary_of_five_responses_is_some :
  forall now box a b c d e,
    summary now box (Some a) (Some b) (Some c) (Some d) (Some e) <> None.
Proof. intros now box a b c d e. discriminate. Qed.

(** C1. What the code does when the SST response is the provider's own
    failure object (its [data] is the empty array) and the four other
    responses hold one reading each: a summary is produced, its SST value is
    [NaN] (0 divided by 0 observations), its SST risk low and its SST trend
    stable. With five empty arrays the same happens for every averaged
    parameter, the rainfall total being 0. The SST value is [NaN] whenever
    the SST array is empty, whatever the other four responses hold. *)
Theorem summary_of_empty_sst_response_has_nan_value :
  (exists s,
     summary sampleNow (bbox 18 72 20 75)
       (Some (failureResponse sampleParams (ErrorObject "generator failed")))
       (Some (response [seaLevelPoint 0.1]))
       (Some (response [chlorophyllPoint 0.2]))
       (Some (response [windPoint 5]))
       (Some (response [rainfallPoint 1])) = Some s /\
     Trended.value (seaSurfaceTemperature (parameters s)) = nan /\
     Trended.risk (seaSurfaceTemperature (parameters s)) = low /\
     Trended.trend (seaSurfaceTemperature (parameters s)) = stable /\
     overallRisk s = low) /\
  (exists s,
     summary sampleNow (bbox 18 72 20 75)
       (Some (response [])) (Some (response [])) (Some (response []))
       (Some (response [])) (Some (response [])) = Some s /\
     Trended.value (seaSurfaceTemperature (parameters s)) = nan /\
     Trended.value (seaLevel (parameters s)) = nan /\
     Chl.value (chlorophyll (parameters s)) = nan /\
     Wind.speed (wind (parameters s)) = nan /\
     Rain.total (rainfall (parameters s)) = 0) /\
  (forall now box meta err seaLevelData chlorophyllData windData rainfallData,
   exists s,
     summary now box (Some {| data := []; metadata := meta; error := err |})
       (Some seaLevelData) (Some chlorophyllData) (Some windData)
       (Some rainfallData) = Some s /\
     Trended.value (seaSurfaceTemperature (parameters s)) = nan /\
     Trended.risk (seaSurfaceTemperature (parameters s)) = low /\
     Trended.trend (seaSurfaceTemperature (parameters s)) = stable).
Proof.
  split; [| split].
  - eexists. split; [reflexivity |]. vm_compute. repeat split.
  - eexists. split; [reflexivity |]. vm_compute. repeat split.
  - intros now box meta err b c d e. eexists. split; [reflexivity |].
    cbn [parameters seaSurfaceTemperature Trended.value Trended.risk Trended.trend].
    vm_compute. repeat split.
Qed.

(** ** Risk levels at the boundaries *)

(** C2. What the code does at the SST boundaries: a mean of exactly 28.0
    is low (28 > 28 is false), a mean of exactly 30.0 is medium, 30.01 is
    high, and so is every value that is greater than 30; medium is the
    values above 28 that are not above 30. *)
Theorem sst_risk_at_exactly_28_is_low :
  sstRisk 28.0 = low /\
  sstRisk 30.0 = medium /\
  sstRisk 30.01 = high /\
  (forall x : number, gt x 30 = true -> sstRisk x = high) /\
  (forall x : number,
     sstRisk x = medium <-> gt x 28 = true /\ gt x 30 = false) /\
  (exists s,
     summaryOfSST [sstPoint 28.0] = Some s /\
     sstAvg (response [sstPoint 28.0]) = 28.0 /\
     Trended.risk (seaSurfaceTemperature (parameters s)) = low) /\
  (exists s,
     summaryOfSST [sstPoint 27.5; sstPoint 28.5] = Some s /\
     sstAvg (response [sstPoint 27.5; sstPoint 28.5]) = 28.0 /\
     Trended.risk (seaSurfaceTemperature (parameters s)) = low).
Proof.
  split; [reflexivity |]. split; [reflexivity |]. split; [reflexivity |].
  split; [| split; [| split]].
  - intros x Hx. unfold sstRisk. rewrite Hx. reflexivity.
  - intros x. unfold sstRisk.
    destruct (gt x 30), (gt x 28); split; intros H; try discriminate H;
      try (destruct H; discriminate); auto.
  - eexists. split; [reflexivity |]. vm_compute. split; reflexivity.
  - eexists. split; [reflexivity |]. vm_compute. split; reflexivity.
Qed.

(** ** Fallback data *)

Lemma dynamicRisk_by_key (param : string) (v : number) :
  dynamicRisk param v = fallbackRule param v.
Proof.
  unfold dynamicRisk, fallbackRule, fallbackThreshold.
  destruct (String.eqb_spec param "sst") as [-> | _];
    [cbn; destruct (gt v 30); reflexivity |].
  destruct (String.eqb_spec param "wind") as [-> | _];
    [cbn; destruct (gt v 20); reflexivity |].
  destruct (String.eqb_spec param "rainfall") as [-> | _];
    [cbn; destruct (gt v 5); reflexivity |].
  destruct (String.eqb_spec param "chlorophyll") as [-> | _];
    [cbn; destruct (gt v 1.5); reflexivity |].
  reflexivity.
Qed.

(** C4, as the code has it. The fallback generator derives the risk from
    the clamped value by a rule of its own: medium when SST is above 30,
    wind above 20, rainfall above 5 or chlorophyll above 1.5, and low
    otherwise (always low for sea level); it never reports high. *)
Theorem fallback_risk_follows_its_own_rule :
  forall param random1 random2 f,
    generateDynamicFallbackData param random1 random2 = Some f ->
    exists entry,
      baseData param = Some entry /\
      fb_risk f = fallbackRule param (clampedValue entry random1) /\
      fb_risk f <> high /\
      fb_value f = Math_round (clampedValue entry random1 * 100) / 100.
Proof.
  intros param random1 random2 f H.
  unfold generateDynamicFallbackData in H.
  destruct (baseData param) as [entry |]; [| discriminate].
  injection H as <-. exists entry. cbn [fb_risk fb_value].
  rewrite dynamicRisk_by_key.
  repeat split.
  unfold fallbackRule.
  destruct (fallbackThreshold param) as [threshold |]; [| discriminate].
  destruct (gt (clampedValue entry random1) threshold); discriminate.
Qed.

Lemma fallback_risk_follows_its_own_rule_witness :
  exists f entry,
    generateDynamicFallbackData "sst" 0.9 0.5 = Some f /\
    baseData "sst" = Some entry /\
    fb_risk f = fallbackRule "sst" (clampedValue entry 0.9) /\
    fb_risk f <> high /\
    fb_value f = Math_round (clampedValue entry 0.9 * 100) / 100.
Proof.
  eexists.
  destruct (fallback_risk_follows_its_own_rule "sst" 0.9 0.5 _ eq_refl)
    as [entry H].
  exists entry. split; [reflexivity | exact H].
Defined.

(** C4 as stated fails. With the draw 0.5 the SST fallback value is the
    base value 28.5: the fallback reports low where the reducer's rule
    says medium. With the draw 0.9 the value is above 30: the fallback
    reports medium where the reducer's rule says high. *)
Lemma fallback_risk_differs_from_reducer_risk :
  (exists f entry,
     generateDynamicFallbackData "sst" 0.5 0.5 = Some f /\
     baseData "sst" = Some entry /\
     clampedValue entry 0.5 = 28.5 /\
     fb_risk f = low /\
     reducerRisk "sst" (clampedValue entry 0.5) = Some medium) /\
  (exists f entry,
     generateDynamicFallbackData "sst" 0.9 0.5 = Some f /\
     baseData "sst" = Some entry /\
     gt (clampedValue entry 0.9) 30 = true /\
     fb_risk f = medium /\
     reducerRisk "sst" (clampedValue entry 0.9) = Some high).
Proof.
  split; do 2 eexists; (split; [reflexivity |]); (split; [reflexivity |]);
    vm_compute; repeat split.
Qed.

(** ** The provider on an unknown dataset id *)

Lemma or_string_supplied (id dflt : string) :
  id <> EmptyString -> or_string (Some id) dflt = id.
Proof.
  intros Hid. unfold or_string.
  destruct (String.eqb_spec id EmptyString) as [E | _]; [contradiction | reflexivity].
Qed.

Lemma getData_unknown {T : Type} (defaultId : string)
    (generateMockData : Params -> Completion (list T)) (completeness accuracy : number)
    (datasets : JSMap.t EarthdataDataset) (params : Params) (id : string) :
  dataset params = Some id -> id <> EmptyString -> JSMap.get id datasets = None ->
  getData defaultId generateMockData completeness accuracy datasets params
  = Throw (ErrorObject ("Dataset " ++ id ++ " not found")%string).
Proof.
  intros Hd Hid Hget. unfold getData.
  rewrite Hd, (or_string_supplied id defaultId Hid), Hget. reflexivity.
Qed.

Lemma getData_generator_throws {T : Type} (defaultId : string)
    (generateMockData : Params -> Completion (list T)) (completeness accuracy : number)
    (datasets : JSMap.t EarthdataDataset) (params : Params) (e : Thrown) :
  JSMap.get (or_string (dataset params) defaultId) datasets <> None ->
  generateMockData params = Throw e ->
  getData defaultId generateMockData completeness accuracy datasets params
  = Return (failureResponse params e).
Proof.
  intros Hget Hgen. unfold getData.
  destruct (JSMap.get (or_string (dataset params) defaultId) datasets);
    [| contradiction].
  rewrite Hgen. reflexivity.
Qed.

(** C3, as the code has it. A fetch whose dataset id is supplied (a
    non-empty string) but is not in the registry throws
    [Error("Dataset <id> not found")], for each of the five methods: the
    lookup and its [throw] come before the [try], so the caller gets the
    exception (a rejected promise) and no response object. *)
Theorem unknown_dataset_throws :
  forall (generateMockSSTData : Params -> Completion (list SSTData))
         (generateMockSeaLevelData : Params -> Completion (list SeaLevelData))
         (generateMockChlorophyllData : Params -> Completion (list ChlorophyllData))
         (generateMockWindData : Params -> Completion (list WindData))
         (generateMockRainfallData : Params -> Completion (list RainfallData))
         (datasets : JSMap.t EarthdataDataset) (params : Params) (id : string),
    dataset params = Some id ->
    id <> EmptyString ->
    JSMap.get id datasets = None ->
    let e := ErrorObject ("Dataset " ++ id ++ " not found")%string in
    getSSTData generateMockSSTData datasets params = Throw e /\
    getSeaLevelData generateMockSeaLevelData datasets params = Throw e /\
    getChlorophyllData generateMockChlorophyllData datasets params = Throw e /\
    getWindData generateMockWindData datasets params = Throw e /\
    getRainfallData generateMockRainfallData datasets params = Throw e.
Proof.
  intros g1 g2 g3 g4 g5 datasets params id Hd Hid Hget e. subst e.
  unfold getSSTData, getSeaLevelData, getChlorophyllData, getWindData, getRainfallData.
  repeat split; apply getData_unknown; assumption.
Qed.

Lemma unknown_dataset_throws_witness :
  let e := ErrorObject "Dataset NO_SUCH_DATASET not found" in
  JSMap.get "NO_SUCH_DATASET" (initializeDatasets sampleNow) = None /\
  getSSTData (oneReading (sstPoint 27)) (initializeDatasets sampleNow)
    (paramsFor (Some "NO_SUCH_DATASET"%string)) = Throw e /\
  getSeaLevelData (oneReading (seaLevelPoint 0.1)) (initializeDatasets sampleNow)
    (paramsFor (Some "NO_SUCH_DATASET"%string)) = Throw e /\
  getChlorophyllData (oneReading (chlorophyllPoint 0.2)) (initializeDatasets sampleNow)
    (paramsFor (Some "NO_SUCH_DATASET"%string)) = Throw e /\
  getWindData (oneReading (windPoint 5)) (initializeDatasets sampleNow)
    (paramsFor (Some "NO_SUCH_DATASET"%string)) = Throw e /\
  getRainfallData (oneReading (rainfallPoint 1)) (initializeDatasets sampleNow)
    (paramsFor (Some "NO_SUCH_DATASET"%string)) = Throw e.
Proof.
  split; [reflexivity |].
  apply (unknown_dataset_throws (oneReading (sstPoint 27))
           (oneReading (seaLevelPoint 0.1)) (oneReading (chlorophyllPoint 0.2))
           (oneReading (windPoint 5)) (oneReading (rainfallPoint 1))
           (initializeDatasets sampleNow) (paramsFor (Some "NO_SUCH_DATASET"%string))
           "NO_SUCH_DATASET").
  - reflexivity.
  - discriminate.
  - reflexivity.
Defined.

(** The failure object is returned, by each of the five methods, when the
    dataset is known and the generator throws. *)
Lemma generator_failure_is_returned :
  forall (generateMockSSTData : Params -> Completion (list SSTData))
         (datasets : JSMap.t EarthdataDataset) (params : Params) (e : Thrown),
    JSMap.get (or_string (dataset params) "MUR_SST") datasets <> None ->
    generateMockSSTData params = Throw e ->
    exists r,
      getSSTData generateMockSSTData datasets params = Return r /\
      data r = [] /\
      totalCount (metadata r) = 0%nat /\
      dataQuality (metadata r) = {| completeness := 0; accuracy := 0 |} /\
      error r = Some match e with
                     | ErrorObject message => message
                     | OtherValue => "Unknown error"%string
                     end.
Proof.
  intros g datasets params e Hget Hgen.
  exists (failureResponse params e). split.
  - apply getData_generator_throws; assumption.
  - repeat split.
Qed.

(** C3 as stated fails: on the registry of the service, a fetch of the
    dataset id "NO_SUCH_DATASET" does not return a response at all, it
    throws; the failure object is what comes back for a known dataset
    whose generator throws. *)
Lemma unknown_dataset_is_thrown_not_returned :
  getSSTData (oneReading (sstPoint 27)) (initializeDatasets sampleNow)
    (paramsFor (Some "NO_SUCH_DATASET"%string))
  = Throw (ErrorObject "Dataset NO_SUCH_DATASET not found") /\
  (forall r : EarthdataResponse SSTData,
     getSSTData (oneReading (sstPoint 27)) (initializeDatasets sampleNow)
       (paramsFor (Some "NO_SUCH_DATASET"%string)) <> Return r) /\
  getSSTData (failing "generator failed") (initializeDatasets sampleNow)
    (paramsFor (Some "MUR_SST"%string))
  = Return (failureResponse (paramsFor (Some "MUR_SST"%string))
              (ErrorObject "generator failed")).
Proof.
  split; [reflexivity |]. split; [| reflexivity].
  intros r. discriminate.
Qed.

(** ** Order of doubles *)

(** A number below a negative finite constant is not above a positive one. *)
Lemma below_negative_not_above_positive (x c1 c2 : number) :
  match Prim2SF c1 with S754_finite true _ _ => True | _ => False end ->
  match Prim2SF c2 with S754_finite false _ _ => True | _ => False end ->
  (x <? c1) = true -> (c2 <? x) = false.
Proof.
  rewrite !ltb_spec.
  destruct (Prim2SF c1) as [s1 | s1 | | [|] m1 e1]; try contradiction.
  destruct (Prim2SF c2) as [s2 | s2 | | [|] m2 e2]; try contradiction.
  intros _ _.
  destruct (Prim2SF x) as [s | s | | s m e]; try destruct s; cbn;
    intros H; solve [reflexivity | discriminate H].
Qed.

Lemma slope_below_not_above (slope : number) :
  (slope <? -0.001) = true -> gt slope 0.001 = false.
Proof.
  unfold gt.
  apply below_negative_not_above_positive; vm_compute; exact I.
Qed.

(** ** Historical trends *)

Lemma reduce_id_sumFrom (l : list number) (acc : number) :
  fold_left (fun sum t => sum + t) l acc = sumFrom acc l.
Proof.
  revert acc. induction l as [| x l IH]; intro acc; simpl; [reflexivity | apply IH].
Qed.

Lemma reduce_from_products (pts : list (number * number)) :
  forall (pre : list number) (acc : number),
    reduce_from (fun sum t i => sum + t * index (pre ++ map snd pts) i)
      (length pre) acc (map fst pts)
    = sumFrom acc (map (fun p => fst p * snd p) pts).
Proof.
  induction pts as [| [x y] pts IH]; intros pre acc; simpl.
  - reflexivity.
  - replace (index (pre ++ y :: map snd pts) (length pre)) with y
      by (unfold index; rewrite nth_middle; reflexivity).
    specialize (IH (pre ++ [y]) (acc + x * y)).
    rewrite <- app_assoc, length_app, Nat.add_1_r in IH. simpl in IH.
    exact IH.
Qed.

(** The regression of the code, indexing [values] by position, is the
    closed form over the (timestamp, value) pairs. *)
Lemma regressionSlope_closed_form (pts : list (number * number)) :
  regressionSlope (map fst pts) (map snd pts) = leastSquaresSlope pts.
Proof.
  unfold regressionSlope, leastSquaresSlope, reduce, reducei, sumOf.
  rewrite length_map, !reduce_id_sumFrom.
  pose proof (reduce_from_products pts [] 0) as Hxy. cbn [app length] in Hxy.
  rewrite Hxy.
  rewrite (reduce_sumFrom (fun t => t * t) (map fst pts) 0), map_map.
  reflexivity.
Qed.

Lemma slopeTrend_cases (slope : number) :
  (slopeTrend slope = increasing <-> gt slope 0.001 = true) /\
  (slopeTrend slope = decreasing <-> (slope <? -0.001) = true) /\
  (slopeTrend slope = stable
   <-> gt slope 0.001 = false /\ (slope <? -0.001) = false).
Proof.
  unfold slopeTrend.
  destruct (slope <? -0.001) eqn:Hlt.
  - rewrite (slope_below_not_above slope Hlt).
    repeat split; intros; try discriminate; try reflexivity.
    destruct H; discriminate.
  - destruct (gt slope 0.001); repeat split; intros; try discriminate;
      try reflexivity; destruct H; discriminate.
Qed.

(** The (timestamp in milliseconds, scalar value) pairs of a series. *)
Lemma series_pairs (getTime : string -> number) (parameter : Param.t)
    (points : list (pointType parameter)) :
  let pts := map (fun point => (getTime (timestamp (basePoint parameter point)),
                                seriesValue parameter point)) points in
  map (fun point => getTime (timestamp (basePoint parameter point))) points = map fst pts /\
  map (seriesValue parameter) points = map snd pts.
Proof. cbn zeta. rewrite !map_map. split; reflexivity. Qed.

Lemma trends_of_undefined_response (getTime : string -> number)
    (parameter : Param.t) (startDate endDate : string)
    sstData seaLevelData chlorophyllData windData rainfallData :
  selectData parameter sstData seaLevelData chlorophyllData windData rainfallData
    = None ->
  trends getTime parameter startDate endDate sstData seaLevelData chlorophyllData
    windData rainfallData = None.
Proof. intros H. unfold trends. rewrite H. reflexivity. Qed.

(** On the response the [switch] selects, in the terms of the code. *)
Lemma trends_of_selected_series :
  forall (getTime : string -> number) (parameter : Param.t)
         (startDate endDate : string)
         sstData seaLevelData chlorophyllData windData rainfallData
         (d : EarthdataResponse (pointType parameter)),
    selectData parameter sstData seaLevelData chlorophyllData windData rainfallData
      = Some d ->
    let result :=
      trends getTime parameter startDate endDate sstData seaLevelData
        chlorophyllData windData rainfallData in
    let pts :=
      map (fun point => (getTime (timestamp (basePoint parameter point)),
                         seriesValue parameter point)) (data d) in
    (data d = [] -> result = None) /\
    (data d <> [] ->
     exists r,
       result = Some r /\
       regressionSlope (map fst pts) (map snd pts) = leastSquaresSlope pts /\
       (stat_trend (statistics r) = increasing
        <-> gt (leastSquaresSlope pts) 0.001 = true) /\
       (stat_trend (statistics r) = decreasing
        <-> (leastSquaresSlope pts <? -0.001) = true) /\
       (stat_trend (statistics r) = stable
        <-> gt (leastSquaresSlope pts) 0.001 = false /\
            (leastSquaresSlope pts <? -0.001) = false) /\
       slope (statistics r)
         = Math_round (leastSquaresSlope pts * 1000000) / 1000000 /\
       dataPoints (statistics r) = length (data d)).
Proof.
  intros getTime parameter startDate endDate a b c w rn d Hsel result pts.
  subst result. unfold trends. rewrite Hsel.
  split.
  - intros ->. reflexivity.
  - intros Hne.
    destruct (data d) as [| p0 rest] eqn:Hd; [contradiction |].
    cbn [length Nat.eqb].
    eexists. split; [reflexivity |].
    cbn [statistics stat_trend slope dataPoints].
    destruct (series_pairs getTime parameter (p0 :: rest)) as [Ht Hv].
    fold pts in Ht, Hv.
    rewrite Ht, Hv, regressionSlope_closed_form.
    destruct (slopeTrend_cases (leastSquaresSlope pts)) as (Hi & Hdec & Hst).
    split; [reflexivity |]. split; [exact Hi |]. split; [exact Hdec |].
    split; [exact Hst |]. split; [reflexivity |].
    rewrite <- Hv, length_map. reflexivity.
Qed.

(** C10. For every kind and every five query results, with the series
    taken from the response of that kind as (timestamp in milliseconds,
    scalar) pairs, the scalar being [speed] for wind and [value] otherwise:
    while that response is undefined, or when its series is empty, the
    analyzer returns none; otherwise it returns a result for that kind whose
    trend is classified from the least-squares slope
    (n·Σxy − Σx·Σy) / (n·Σx² − (Σx)²) over the pairs: increasing iff
    slope > 0.001, decreasing iff slope < −0.001, stable otherwise. The
    slope the result reports is that slope rounded to 6 decimals, and its
    number of data points is the number of pairs. *)
Theorem trend_slope_is_least_squares :
  forall (getTime : string -> number) (parameter : Param.t)
         (startDate endDate : string)
         sstData seaLevelData chlorophyllData windData rainfallData,
    let result :=
      trends getTime parameter startDate endDate sstData seaLevelData
        chlorophyllData windData rainfallData in
    match observationPairs getTime parameter sstData seaLevelData chlorophyllData
            windData rainfallData with
    | None | Some [] => result = None
    | Some pts =>
        exists r,
          result = Some r /\
          trend_parameter r = parameter /\
          regressionSlope (map fst pts) (map snd pts) = leastSquaresSlope pts /\
          (stat_trend (statistics r) = increasing
           <-> gt (leastSquaresSlope pts) 0.001 = true) /\
          (stat_trend (statistics r) = decreasing
           <-> (leastSquaresSlope pts <? -0.001) = true) /\
          (stat_trend (statistics r) = stable
           <-> gt (leastSquaresSlope pts) 0.001 = false /\
               (leastSquaresSlope pts <? -0.001) = false) /\
          slope (statistics r)
            = Math_round (leastSquaresSlope pts * 1000000) / 1000000 /\
          dataPoints (statistics r) = length pts
    end.
Proof.
  intros getTime parameter startDate endDate a b c w rn. cbn zeta.
  destruct parameter; cbn [observationPairs];
    match goal with
    | |- context [option_map _ ?o] => destruct o as [[series md ed] |]
    end;
    cbn [option_map data]; try reflexivity;
    match goal with
    | |- context [trends ?g ?k ?s ?e ?a ?b ?c ?w ?rn] =>
        pose proof (trends_of_selected_series g k s e a b c w rn _ eq_refl) as H;
        cbn [data] in H; cbn zeta in H
    end;
    destruct H as [Hempty Hsome];
    (destruct series as [| p0 rest]; cbn [map];
     [ apply Hempty; reflexivity |]);
    destruct (Hsome ltac:(discriminate)) as (r & Hr & Hreg & Hi & Hdec & Hst & Hsl & Hn);
    exists r;
    (split; [exact Hr |]);
    (split;
     [ unfold trends in Hr; cbn [selectData data length Nat.eqb] in Hr;
       injection Hr as <-; reflexivity |]);
    (split; [exact Hreg |]); (split; [exact Hi |]); (split; [exact Hdec |]);
    (split; [exact Hst |]); (split; [exact Hsl |]);
    rewrite Hn; cbn [length]; rewrite !length_map; reflexivity.
Qed.

Lemma trend_slope_is_least_squares_witness :
  let series :=
    response [windReading "2024-01-01T00:00:00.000Z" 1 5;
              windReading "2024-01-02T00:00:00.000Z" 1 172805] in
  exists r,
    trends sampleGetTime Param.wind "2024-01-01T00:00:00.000Z"
      "2024-01-02T00:00:00.000Z" None None None (Some series) None = Some r /\
    trend_parameter r = Param.wind /\
    stat_trend (statistics r) = increasing /\
    slope (statistics r) = 0.002 /\
    dataPoints (statistics r) = 2%nat.
Proof.
  intros series.
  pose proof (trend_slope_is_least_squares sampleGetTime Param.wind
                "2024-01-01T00:00:00.000Z" "2024-01-02T00:00:00.000Z"
                None None None (Some series) None) as H.
  hnf in H.
  destruct H as (r & Hr & Hp & _ & Hi & _ & _ & Hsl & Hn).
  exists r. split; [exact Hr |]. split; [exact Hp |].
  split; [apply Hi; vm_compute; reflexivity |].
  split; [rewrite Hsl; vm_compute; reflexivity | exact Hn].
Defined.

(** ** The trend of the summary *)

Lemma nth_error_last {T : Type} (d : list T) (dflt : T) :
  d <> [] -> nth_error d (length d - 1) = Some (last d dflt).
Proof.
  induction d as [| x d IH]; intros Hne; [contradiction |].
  destruct d as [| y d]; [reflexivity |].
  specialize (IH ltac:(discriminate)).
  replace (length (x :: y :: d) - 1)%nat with (S (length d)) by (cbn; lia).
  replace (length (y :: d) - 1)%nat with (length d) in IH by (cbn; lia).
  exact IH.
Qed.

(** The comparison the code makes, [(last - first) > 0], is [last > first]. *)
Lemma trendOf_long {T : Type} (val : T -> number) (first second : T) (rest : list T) :
  trendOf val (first :: second :: rest)
  = if val first <? val (last (first :: second :: rest) first)
    then increasing else decreasing.
Proof.
  unfold trendOf, gt. rewrite DoubleFacts.sub_positive_iff. reflexivity.
Qed.

(** C5, as the code has it. With fewer than 2 observations the trend is
    stable. With 2 or more it is increasing when the last observation's
    value is strictly greater than the first's, and decreasing when it is
    strictly less; it is increasing only in that case. This is the trend
    the summary reports for SST and for sea level. *)
Theorem trend_compares_last_with_first :
  (forall (T : Type) (val : T -> number) (d : list T),
     ((length d < 2)%nat -> trendOf val d = stable) /\
     (forall first lst : T,
        (2 <= length d)%nat ->
        nth_error d 0 = Some first ->
        nth_error d (length d - 1) = Some lst ->
        ((val first <? val lst) = true -> trendOf val d = increasing) /\
        ((val lst <? val first) = true -> trendOf val d = decreasing)) /\
     (trendOf val d = increasing ->
      exists first lst : T,
        (2 <= length d)%nat /\
        nth_error d 0 = Some first /\
        nth_error d (length d - 1) = Some lst /\
        (val first <? val lst) = true)) /\
  (forall now box sstData seaLevelData chlorophyllData windData rainfallData,
     exists s,
       summary now box (Some sstData) (Some seaLevelData) (Some chlorophyllData)
         (Some windData) (Some rainfallData) = Some s /\
       Trended.trend (seaSurfaceTemperature (parameters s))
         = trendOf (fun p : SSTData => value p) (data sstData) /\
       Trended.trend (seaLevel (parameters s))
         = trendOf (fun p : SeaLevelData => value p) (data seaLevelData)).
Proof.
  split.
  - intros T val d.
    destruct d as [| first [| second rest]].
    + split; [intros _; reflexivity |].
      split; [intros f l H; cbn in H; lia | intros H; discriminate H].
    + split; [intros _; reflexivity |].
      split; [intros f l H; cbn in H; lia | intros H; discriminate H].
    + pose proof (nth_error_last (first :: second :: rest) first ltac:(discriminate))
        as Hlast.
      rewrite trendOf_long.
      set (L := last (first :: second :: rest) first) in *. clearbody L.
      split; [cbn; intros; lia |]. split.
      * intros f l _ Hf Hl. cbn [nth_error] in Hf.
        injection Hf as <-. rewrite Hlast in Hl. injection Hl as <-.
        split; intros H.
        -- rewrite H. reflexivity.
        -- rewrite (DoubleFacts.ltb_asym _ _ H). reflexivity.
      * intros H. exists first, L.
        split; [cbn; lia |]. split; [reflexivity |]. split; [exact Hlast |].
        destruct (val first <? val L); [reflexivity | discriminate H].
  - intros now box a b c w rn. eexists. split; [reflexivity |].
    split; reflexivity.
Qed.

(** C5 as stated fails. Three SST readings whose last value equals the
    first (27, 29, 27) are reported decreasing, not stable; and two
    readings (27, 28) are reported increasing, not stable. *)
Lemma equal_first_and_last_is_reported_decreasing :
  (exists s,
     summaryOfSST [sstPoint 27; sstPoint 29; sstPoint 27] = Some s /\
     Trended.trend (seaSurfaceTemperature (parameters s)) = decreasing) /\
  (exists s,
     summaryOfSST [sstPoint 27; sstPoint 28] = Some s /\
     Trended.trend (seaSurfaceTemperature (parameters s)) = increasing).
Proof.
  split; eexists; (split; [reflexivity |]); vm_compute; reflexivity.
Qed.

(** * Further properties *)

(** ** Threat level and the number of high risks *)

(** X1. The threat level is critical exactly when at least four of the five
    parameters are at high risk, and low exactly when none is, or when the
    only one is not the sea level; the two lists have one entry per high
    risk, and the score is 0 exactly when they are empty. *)
Theorem threat_level_by_number_of_high_risks :
  forall s : OceanographicSummary,
  exists a,
    threatAssessment (Some s) = Some a /\
    (threatLevel a = ThreatLevel.critical <-> (4 <= highCount (parameters s))%nat) /\
    (threatLevel a = ThreatLevel.low
     <-> highCount (parameters s) = 0%nat \/
         (highCount (parameters s) = 1%nat /\
          Trended.risk (seaLevel (parameters s)) <> high)) /\
    length (threatFactors a) = highCount (parameters s) /\
    length (recommendations a) = highCount (parameters s) /\
    (threatScore a = 0 <-> threatFactors a = []) /\
    ge 110 (threatScore a) = true.
Proof.
  intros [ts loc [[v1 u1 r1 t1] [v2 u2 r2 t2] [v3 u3 r3 b3] [v4 u4 r4 d4]
                  [v5 u5 r5 i5]] ov q].
  eexists. split; [reflexivity |].
  destruct r1, r2, r3, r4, r5; vm_compute;
    repeat split; intros; try discriminate; try lia; try reflexivity;
    try (left; reflexivity); try (right; split; [reflexivity | discriminate]);
    repeat match goal with
           | H : _ \/ _ |- _ => destruct H
           | H : _ /\ _ |- _ => destruct H
           end; try discriminate; try lia; try congruence.
Qed.

(** X2. For a summary the aggregator built and its assessment: the overall
    risk is low exactly when the threat score is 0, and an overall risk of
    high (three or more high risks) never comes with a threat level of low,
    though it may come with medium (wind, chlorophyll and rainfall high
    score 55). *)
Theorem overall_risk_and_threat_level :
  forall now box sstData seaLevelData chlorophyllData windData rainfallData s,
    summary now box sstData seaLevelData chlorophyllData windData rainfallData
      = Some s ->
    exists a,
      threatAssessment (Some s) = Some a /\
      (overallRisk s = low <-> threatScore a = 0) /\
      (overallRisk s = high -> threatLevel a <> ThreatLevel.low) /\
      (overallRisk s = high -> ge (threatScore a) 55 = true) /\
      (threatLevel a = ThreatLevel.critical -> overallRisk s = high).
Proof.
  intros now box [a |] [b |] [c |] [d |] [e |] s Hs; try discriminate.
  injection Hs as <-.
  eexists. split; [reflexivity |].
  cbn [overallRisk parameters].
  generalize (sstRisk (sstAvg a)) (seaLevelRisk (seaLevelAvg b))
    (chlorophyllRisk (chlorophyllAvg c)) (windRisk (windAvg d))
    (rainfallRisk (rainfallTotal e)).
  intros r1 r2 r3 r4 r5.
  destruct r1, r2, r3, r4, r5; vm_compute;
    repeat split; intros; try discriminate; try reflexivity.
Qed.

Lemma overall_risk_and_threat_level_witness :
  exists s,
    summary sampleNow (bbox 18 72 20 75)
      (Some (response [sstPoint 27]))
      (Some (response [seaLevelPoint 0.1]))
      (Some (response [chlorophyllPoint 1.2]))
      (Some (response [windPoint 16]))
      (Some (response [rainfallPoint 60])) = Some s /\
    exists a,
      threatAssessment (Some s) = Some a /\
      (overallRisk s = low <-> threatScore a = 0) /\
      (overallRisk s = high -> threatLevel a <> ThreatLevel.low) /\
      (overallRisk s = high -> ge (threatScore a) 55 = true) /\
      (threatLevel a = ThreatLevel.critical -> overallRisk s = high).
Proof.
  eexists. split; [reflexivity |].
  apply (overall_risk_and_threat_level sampleNow (bbox 18 72 20 75)
           (Some (response [sstPoint 27]))
           (Some (response [seaLevelPoint 0.1]))
           (Some (response [chlorophyllPoint 1.2]))
           (Some (response [windPoint 16]))
           (Some (response [rainfallPoint 60]))).
  reflexivity.
Defined.

(** The sample of the three lesser risks: overall risk high, score 55,
    threat level medium. *)
Example overall_high_with_threat_medium :
  exists s a,
    summary sampleNow (bbox 18 72 20 75)
      (Some (response [sstPoint 27]))
      (Some (response [seaLevelPoint 0.1]))
      (Some (response [chlorophyllPoint 1.2]))
      (Some (response [windPoint 16]))
      (Some (response [rainfallPoint 60])) = Some s /\
    threatAssessment (Some s) = Some a /\
    overallRisk s = high /\ threatScore a = 55 /\
    threatLevel a = ThreatLevel.medium.
Proof.
  do 2 eexists. split; [reflexivity |]. split; [reflexivity |].
  vm_compute. repeat split.
Qed.

(** ** The registry *)

Lemma get_some_key {V : Type} (key : V -> string) (m : JSMap.t V) :
  Forall (fun kv => key (snd kv) = fst kv) m ->
  forall k v, JSMap.get k m = Some v -> key v = k.
Proof.
  induction 1 as [| [k' v'] m Hkv _ IH]; intros k v Hget; cbn in Hget.
  - discriminate.
  - destruct (String.eqb_spec k' k) as [-> | _].
    + injection Hget as <-. exact Hkv.
    + apply IH. exact Hget.
Qed.

Lemma get_of_entry {V : Type} (m : JSMap.t V) :
  NoDup (map fst m) ->
  forall k v, In (k, v) m -> JSMap.get k m = Some v.
Proof.
  induction m as [| [k' v'] m IH]; intros Hnd k v Hin; [contradiction |].
  cbn [map fst] in Hnd. apply NoDup_cons_iff in Hnd as [Hfresh Hnd].
  cbn. destruct Hin as [E | Hin].
  - injection E as -> ->. rewrite String.eqb_refl. reflexivity.
  - destruct (String.eqb_spec k' k) as [-> | _].
    + exfalso. apply Hfresh. apply (in_map fst) in Hin. exact Hin.
    + apply IH; assumption.
Qed.

Lemma get_none_iff {V : Type} (m : JSMap.t V) (k : string) :
  JSMap.get k m = None <-> ~ In k (map fst m).
Proof.
  induction m as [| [k' v'] m IH]; cbn.
  - split; [intros _ [] | reflexivity].
  - destruct (String.eqb_spec k' k) as [-> | Hne].
    + split; [discriminate | intros H; exfalso; apply H; left; reflexivity].
    + rewrite IH. split.
      * intros H [E | Hin]; [contradiction | exact (H Hin)].
      * intros H Hin. apply H. right. exact Hin.
Qed.

Lemma registry_keys (now : string) :
  map fst (initializeDatasets now) = registryIds.
Proof. reflexivity. Qed.

Lemma registry_keyed_by_id (now : string) :
  Forall (fun kv => id (snd kv) = fst kv) (initializeDatasets now).
Proof. repeat constructor. Qed.

Lemma registryIds_NoDup : NoDup registryIds.
Proof.
  unfold registryIds.
  repeat (apply NoDup_cons; [cbn; intuition discriminate |]).
  apply NoDup_nil.
Qed.

(** X3. The registry holds ten datasets, each stored under its own id:
    listing gives the ten ids in order, a lookup that succeeds returns the
    dataset with the id asked for, every listed dataset is found again by
    looking up its id, and a lookup fails exactly for an id that is not
    one of the ten. *)
Theorem registry_lookup_round_trip :
  forall now : string,
    map id (getAvailableDatasets (initializeDatasets now)) = registryIds /\
    (forall datasetId d,
       getDatasetInfo (initializeDatasets now) datasetId = Some d ->
       id d = datasetId) /\
    (forall d,
       In d (getAvailableDatasets (initializeDatasets now)) ->
       getDatasetInfo (initializeDatasets now) (id d) = Some d) /\
    (forall datasetId,
       getDatasetInfo (initializeDatasets now) datasetId = None
       <-> ~ In datasetId registryIds).
Proof.
  intros now. split; [reflexivity |]. split; [| split].
  - intros datasetId d. unfold getDatasetInfo.
    apply (get_some_key id). apply registry_keyed_by_id.
  - intros d Hin. unfold getDatasetInfo, getAvailableDatasets, JSMap.values in *.
    apply in_map_iff in Hin as [[k v] [E Hin]]. cbn in E. subst v.
    pose proof (registry_keyed_by_id now) as Hkey.
    rewrite Forall_forall in Hkey. specialize (Hkey _ Hin). cbn in Hkey.
    rewrite Hkey. apply get_of_entry; [| exact Hin].
    rewrite registry_keys. apply registryIds_NoDup.
  - intros datasetId. unfold getDatasetInfo.
    rewrite get_none_iff, registry_keys. reflexivity.
Qed.

(** ** How a fetch ends *)

Lemma getData_outcome {T : Type} (defaultId : string)
    (generateMockData : Params -> Completion (list T)) (completeness accuracy : number)
    (datasets : JSMap.t EarthdataDataset) (params : Params) :
  fetchOutcome datasets (or_string (dataset params) defaultId)
    (generateMockData params)
    (getData defaultId generateMockData completeness accuracy datasets params).
Proof.
  unfold fetchOutcome, getData.
  destruct (JSMap.get (or_string (dataset params) defaultId) datasets) as [info |] eqn:Hget.
  - destruct (generateMockData params) as [d | e]; cbn.
    + repeat split. discriminate.
    + repeat split; discriminate.
  - split; reflexivity.
Qed.

(** X4. Each of the five fetch methods ends in one of three ways. It throws
    the not-found error exactly when the id it looks up (the one given, or
    the method's default when none or an empty one is given) is not
    registered. Otherwise it returns a response whose count is the length
    of its data: the generator's array with no error when the generator
    returned, and no data, an error and zeroed quality when it threw. *)
Theorem fetch_ends_in_one_of_three_ways :
  forall (generateMockSSTData : Params -> Completion (list SSTData))
         (generateMockSeaLevelData : Params -> Completion (list SeaLevelData))
         (generateMockChlorophyllData : Params -> Completion (list ChlorophyllData))
         (generateMockWindData : Params -> Completion (list WindData))
         (generateMockRainfallData : Params -> Completion (list RainfallData))
         (datasets : JSMap.t EarthdataDataset) (params : Params),
    fetchOutcome datasets (or_string (dataset params) "MUR_SST")
      (generateMockSSTData params)
      (getSSTData generateMockSSTData datasets params) /\
    fetchOutcome datasets (or_string (dataset params) "AVISO_SLA")
      (generateMockSeaLevelData params)
      (getSeaLevelData generateMockSeaLevelData datasets params) /\
    fetchOutcome datasets (or_string (dataset params) "OCEANCOLOR_CHL")
      (generateMockChlorophyllData params)
      (getChlorophyllData generateMockChlorophyllData datasets params) /\
    fetchOutcome datasets (or_string (dataset params) "ASCAT_WIND")
      (generateMockWindData params)
      (getWindData generateMockWindData datasets params) /\
    fetchOutcome datasets (or_string (dataset params) "IMERG_RAIN")
      (generateMockRainfallData params)
      (getRainfallData generateMockRainfallData datasets params).
Proof.
  intros. repeat split; apply getData_outcome.
Qed.

Lemma getData_registered {T : Type} (defaultId : string)
    (generateMockData : Params -> Completion (list T)) (completeness accuracy : number)
    (now : string) (params : Params) :
  In (or_string (dataset params) defaultId) registryIds ->
  exists r,
    getData defaultId generateMockData completeness accuracy
      (initializeDatasets now) params = Return r.
Proof.
  intros Hin.
  pose proof (getData_outcome defaultId generateMockData completeness accuracy
                (initializeDatasets now) params) as H.
  destruct (getData defaultId generateMockData completeness accuracy
              (initializeDatasets now) params) as [r | e].
  - exists r. reflexivity.
  - destruct H as [Hnone _]. apply get_none_iff in Hnone.
    rewrite registry_keys in Hnone. contradiction.
Qed.

(** X5. On the registry of the service, a fetch never throws when the
    dataset id is left out, is the empty string, or is one of the ten
    registered ids: each of the five methods returns a response. *)
Theorem fetch_of_registered_dataset_returns :
  forall (generateMockSSTData : Params -> Completion (list SSTData))
         (generateMockSeaLevelData : Params -> Completion (list SeaLevelData))
         (generateMockChlorophyllData : Params -> Completion (list ChlorophyllData))
         (generateMockWindData : Params -> Completion (list WindData))
         (generateMockRainfallData : Params -> Completion (list RainfallData))
         (now : string) (params : Params),
    (forall datasetId,
       dataset params = Some datasetId ->
       datasetId = EmptyString \/ In datasetId registryIds) ->
    (exists r, getSSTData generateMockSSTData (initializeDatasets now) params
               = Return r) /\
    (exists r, getSeaLevelData generateMockSeaLevelData (initializeDatasets now) params
               = Return r) /\
    (exists r, getChlorophyllData generateMockChlorophyllData
                 (initializeDatasets now) params = Return r) /\
    (exists r, getWindData generateMockWindData (initializeDatasets now) params
               = Return r) /\
    (exists r, getRainfallData generateMockRainfallData (initializeDatasets now) params
               = Return r).
Proof.
  intros g1 g2 g3 g4 g5 now params Hid.
  assert (Hdef : forall defaultId,
             In defaultId registryIds ->
             In (or_string (dataset params) defaultId) registryIds).
  { intros defaultId Hd. unfold or_string.
    destruct (dataset params) as [s |] eqn:Es; [| exact Hd].
    destruct (String.eqb_spec s EmptyString) as [-> | Hne]; [exact Hd |].
    destruct (Hid s eq_refl) as [-> | Hin]; [contradiction | exact Hin]. }
  unfold getSSTData, getSeaLevelData, getChlorophyllData, getWindData, getRainfallData.
  repeat split; apply getData_registered; apply Hdef; cbn; tauto.
Qed.

Lemma fetch_of_registered_dataset_returns_witness :
  (exists r, getSSTData (oneReading (sstPoint 27)) (initializeDatasets sampleNow)
               (paramsFor (Some "GHRSST_L4"%string)) = Return r) /\
  (exists r, getSeaLevelData (oneReading (seaLevelPoint 0.1))
               (initializeDatasets sampleNow)
               (paramsFor (Some "GHRSST_L4"%string)) = Return r) /\
  (exists r, getChlorophyllData (oneReading (chlorophyllPoint 0.2))
               (initializeDatasets sampleNow)
               (paramsFor (Some "GHRSST_L4"%string)) = Return r) /\
  (exists r, getWindData (oneReading (windPoint 5)) (initializeDatasets sampleNow)
               (paramsFor (Some "GHRSST_L4"%string)) = Return r) /\
  (exists r, getRainfallData (oneReading (rainfallPoint 1))
               (initializeDatasets sampleNow)
               (paramsFor (Some "GHRSST_L4"%string)) = Return r).
Proof.
  apply (fetch_of_registered_dataset_returns (oneReading (sstPoint 27))
           (oneReading (seaLevelPoint 0.1)) (oneReading (chlorophyllPoint 0.2))
           (oneReading (windPoint 5)) (oneReading (rainfallPoint 1))
           sampleNow (paramsFor (Some "GHRSST_L4"%string))).
  intros datasetId H. injection H as <-. right. cbn. tauto.
Defined.

(** ** Quality metrics and temporal coverage *)

(** X6. [getDataQualityMetrics] and [getTemporalCoverage] throw the same
    not-found error as the fetch methods for an id that is not registered.
    For a registered id they return: each of the four metrics lies between
    0.82 and 0.99, and the update frequency reported is the dataset's
    temporal resolution. *)
Theorem metrics_and_coverage_of_dataset :
  forall (fiveYearsAgo now : string) (datasets : JSMap.t EarthdataDataset)
         (datasetId : string),
    (JSMap.get datasetId datasets = None ->
     getDataQualityMetrics datasets datasetId
       = Throw (ErrorObject ("Dataset " ++ datasetId ++ " not found")%string) /\
     getTemporalCoverage fiveYearsAgo now datasets datasetId
       = Throw (ErrorObject ("Dataset " ++ datasetId ++ " not found")%string)) /\
    (forall d,
       JSMap.get datasetId datasets = Some d ->
       exists m c,
         getDataQualityMetrics datasets datasetId = Return m /\
         between 0.82 0.99 (metric_completeness m) /\
         between 0.82 0.99 (metric_accuracy m) /\
         between 0.82 0.99 (metric_timeliness m) /\
         between 0.82 0.99 (metric_spatialCoverage m) /\
         getTemporalCoverage fiveYearsAgo now datasets datasetId = Return c /\
         coverage_temporalResolution c = temporalResolution d /\
         updateFrequency c = temporalResolution d).
Proof.
  intros fiveYearsAgo now datasets datasetId.
  unfold getDataQualityMetrics, getTemporalCoverage. split.
  - intros ->. split; reflexivity.
  - intros d ->. do 2 eexists. split; [reflexivity |].
    unfold between.
    destruct (JSString.includes datasetId "SST");
      [| destruct (JSString.includes datasetId "CHL");
         [| destruct (JSString.includes datasetId "WIND");
            [| destruct (JSString.includes datasetId "RAIN")]]];
      cbn; repeat split.
Qed.

(** ** The generators *)

Lemma forNumber_not_entered {S : Type} (fuel : nat) (x stop step : number)
    (body : number -> S -> option S) (st : S) :
  (x <=? stop) = false ->
  forNumber (Datatypes.S fuel) x stop step body st = Some st.
Proof. intros H. cbn. rewrite H. reflexivity. Qed.

Lemma forNumber_invariant {S : Type} (Inv : S -> Prop) (stop step : number)
    (body : number -> S -> option S) :
  (forall x st st', (x <=? stop) = true -> Inv st -> body x st = Some st' -> Inv st') ->
  forall fuel x st st',
    Inv st -> forNumber fuel x stop step body st = Some st' -> Inv st'.
Proof.
  intros Hbody. induction fuel as [| fuel IH]; intros x st st' Hst Hrun; cbn in Hrun.
  - discriminate.
  - destruct (x <=? stop) eqn:Hx.
    + destruct (body x st) as [st1 |] eqn:Hb; [| discriminate].
      apply (IH (x + step) st1 st'); [| exact Hrun].
      apply (Hbody x st st1); assumption.
    + injection Hrun as <-. exact Hst.
Qed.

Lemma forDate_invariant {S : Type} (Inv : S -> Prop) (endDate : option Z)
    (next : Z -> option Z) (body : Z -> S -> option S) :
  (forall t e st st',
     endDate = Some e -> (t <= e)%Z -> Inv st -> body t st = Some st' -> Inv st') ->
  forall fuel d st st',
    Inv st -> forDate fuel d endDate next body st = Some st' -> Inv st'.
Proof.
  intros Hbody. induction fuel as [| fuel IH]; intros d st st' Hst Hrun; cbn in Hrun.
  - discriminate.
  - destruct d as [t |]; [| injection Hrun as <-; exact Hst].
    destruct endDate as [e |] eqn:He; [| injection Hrun as <-; exact Hst].
    destruct (t <=? e)%Z eqn:Hte.
    + destruct (body t st) as [st1 |] eqn:Hb; [| discriminate].
      apply (IH (next t) st1 st'); [| exact Hrun].
      apply (Hbody t e st st1); try assumption; try reflexivity.
      apply Z.leb_le. exact Hte.
    + injection Hrun as <-. exact Hst.
Qed.

(** A date loop whose body changes nothing ends within the number of
    milliseconds between the two dates. *)
Lemma forDate_idle {S : Type} (next : Z -> option Z) (body : Z -> S -> option S)
    (st : S) (e : Z) :
  (forall t t', next t = Some t' -> (t < t')%Z) ->
  (forall t, body t st = Some st) ->
  forall (n : nat) (d : option Z),
    match d with Some t => (e - t < Z.of_nat n)%Z | None => True end ->
    forDate (Datatypes.S n) d (Some e) next body st = Some st.
Proof.
  intros Hnext Hbody. induction n as [| n IH]; intros d Hd.
  - destruct d as [t |]; [| reflexivity].
    cbn. replace (t <=? e)%Z with false; [reflexivity |].
    symmetry. apply Z.leb_gt. lia.
  - destruct d as [t |]; [| reflexivity].
    cbn [forDate]. destruct (t <=? e)%Z eqn:Hte; [| reflexivity].
    rewrite Hbody. apply IH.
    destruct (next t) as [t' |] eqn:Ht; [| exact I].
    specialize (Hnext _ _ Ht). lia.
Qed.

(** The points a sweep returns all have a property that every sample has
    which is made inside the loops' bounds. *)
Lemma sweep_invariant {T : Type} (P : T -> Prop) (rt : Runtime) (params : Params)
    (next : Z -> option Z) (step : number)
    (sample : Z -> number -> number -> GenState T -> GenState T) :
  (forall t e lat lon st,
     Date_parse rt (endDate params) = Some e -> (t <= e)%Z ->
     (lat <=? maxLat (sweptBox params)) = true ->
     (lon <=? maxLon (sweptBox params)) = true ->
     exists point used, sample t lat lon st = push point used st /\ P point) ->
  forall fuel data,
    sweep rt fuel params next step sample = Some data -> Forall P data.
Proof.
  intros Hsample fuel data Hrun. unfold sweep in Hrun.
  fold (sweptBox params) in Hrun.
  match type of Hrun with
  | option_map _ ?run = _ => destruct run as [st |] eqn:Hloop; [| discriminate]
  end.
  cbn in Hrun. injection Hrun as <-.
  eapply (forDate_invariant (fun st => Forall P (out st))); [| | exact Hloop];
    [| constructor].
  intros t e st0 st1 He Hte Hst0 Hlats.
  eapply (forNumber_invariant (fun st => Forall P (out st))); [| exact Hst0 | exact Hlats].
  intros lat st2 st3 Hlat Hst2 Hlons.
  eapply (forNumber_invariant (fun st => Forall P (out st))); [| exact Hst2 | exact Hlons].
  intros lon st4 st5 Hlon Hst4 Hs. injection Hs as <-.
  destruct (Hsample t e lat lon st4 He Hte Hlat Hlon) as (point & used & -> & Hp).
  cbn [push out]. apply Forall_app. split; [exact Hst4 |].
  constructor; [exact Hp | constructor].
Qed.

(** A sweep over no dates, or over a box whose least latitude is not
    within its greatest, returns the empty array once it has fuel to run. *)
Lemma sweep_of_nothing {T : Type} (rt : Runtime) (params : Params)
    (next : Z -> option Z) (step : number)
    (sample : Z -> number -> number -> GenState T -> GenState T) :
  (forall t t', next t = Some t' -> (t < t')%Z) ->
  (minLat (sweptBox params) <=? maxLat (sweptBox params)) = false \/
  noDates rt params ->
  exists fuel0,
    forall fuel, (fuel0 <= fuel)%nat ->
    sweep rt fuel params next step sample = Some [].
Proof.
  intros Hnext Hcase. unfold sweep. fold (sweptBox params).
  destruct (Date_parse rt (endDate params)) as [e |] eqn:He.
  - destruct (Date_parse rt (startDate params)) as [s |] eqn:Hs.
    + destruct Hcase as [Hlat | Hno].
      * exists (Datatypes.S (Z.to_nat (e - s + 1))).
        intros fuel Hfuel. destruct fuel as [| n]; [lia |].
        rewrite (forDate_idle next _ _ e Hnext); [reflexivity | | cbn; lia].
        intros t. apply forNumber_not_entered. exact Hlat.
      * unfold noDates in Hno. rewrite Hs, He in Hno.
        exists 1%nat. intros fuel Hfuel. destruct fuel as [| n]; [lia |].
        cbn. replace (s <=? e)%Z with false; [reflexivity |].
        symmetry. apply Z.leb_gt. exact Hno.
    + exists 1%nat. intros fuel Hfuel. destruct fuel as [| n]; [lia |]. reflexivity.
  - exists 1%nat. intros fuel Hfuel. destruct fuel as [| n]; [lia |].
    cbn. destruct (Date_parse rt (startDate params)); reflexivity.
Qed.

(** X7. Over no dates (a date that does not parse, or a start after the
    end), or over a box whose least latitude is not within its greatest, each
    of the five generators returns the empty array: every run with enough
    fuel does. *)
Theorem generators_return_nothing :
  forall (rt : Runtime) (params : Params),
    stepsForward rt ->
    (minLat (sweptBox params) <=? maxLat (sweptBox params)) = false \/
    noDates rt params ->
    exists fuel0,
      forall fuel, (fuel0 <= fuel)%nat ->
      generateMockSSTData rt fuel params = Some [] /\
      generateMockSeaLevelData rt fuel params = Some [] /\
      generateMockChlorophyllData rt fuel params = Some [] /\
      generateMockWindData rt fuel params = Some [] /\
      generateMockRainfallData rt fuel params = Some [].
Proof.
  intros rt params [Hdays Hhours] Hcase.
  destruct (sweep_of_nothing rt params (plusDays rt 1) 0.1 (sstSample rt)
              (fun t t' => Hdays 1%Z t t' eq_refl) Hcase) as [f1 H1].
  destruct (sweep_of_nothing rt params (plusDays rt 1) 0.25 (seaLevelSample rt)
              (fun t t' => Hdays 1%Z t t' eq_refl) Hcase) as [f2 H2].
  destruct (sweep_of_nothing rt params (plusDays rt 8) 0.04 (chlorophyllSample rt)
              (fun t t' => Hdays 8%Z t t' eq_refl) Hcase) as [f3 H3].
  destruct (sweep_of_nothing rt params (plusDays rt 1) 0.25 (windSample rt)
              (fun t t' => Hdays 1%Z t t' eq_refl) Hcase) as [f4 H4].
  destruct (sweep_of_nothing rt params (plusHours rt 3) 0.1 (rainfallSample rt)
              (fun t t' => Hhours 3%Z t t' eq_refl) Hcase) as [f5 H5].
  exists (f1 + f2 + f3 + f4 + f5)%nat. intros fuel Hfuel.
  unfold generateMockSSTData, generateMockSeaLevelData, generateMockChlorophyllData,
    generateMockWindData, generateMockRainfallData.
  repeat split; [apply H1 | apply H2 | apply H3 | apply H4 | apply H5]; lia.
Qed.

Lemma sampleRuntime_stepsForward : stepsForward sampleRuntime.
Proof. split; intros n t t' Hn H; cbn in H; injection H as <-; lia. Qed.

Lemma generators_return_nothing_witness :
  exists fuel0,
    forall fuel, (fuel0 <= fuel)%nat ->
    generateMockSSTData sampleRuntime fuel (paramsOver (bbox 20 72 18 75)) = Some [] /\
    generateMockSeaLevelData sampleRuntime fuel (paramsOver (bbox 20 72 18 75))
      = Some [] /\
    generateMockChlorophyllData sampleRuntime fuel (paramsOver (bbox 20 72 18 75))
      = Some [] /\
    generateMockWindData sampleRuntime fuel (paramsOver (bbox 20 72 18 75)) = Some [] /\
    generateMockRainfallData sampleRuntime fuel (paramsOver (bbox 20 72 18 75))
      = Some [].
Proof.
  apply (generators_return_nothing sampleRuntime (paramsOver (bbox 20 72 18 75))).
  - exact sampleRuntime_stepsForward.
  - left. reflexivity.
Defined.

Ltac made_within Hlat Hlon He Hte :=
  unfold madeWithin; cbn;
  repeat split;
    try exact Hlat; try exact Hlon;
    try (match goal with |- context [if ?b then good else fair] => destruct b end;
         discriminate);
    try (do 2 eexists; split; [reflexivity | split; [exact He | exact Hte]]).

(** X8. Every point a generator returns carries that generator's own
    source id, whatever dataset was asked for; its quality is good or
    fair; its coordinates are not beyond the greatest latitude and
    longitude of the box; and its timestamp prints an instant that is not
    after the end date. On the generated points the kind's own field repeats
    [value]: [concentration] for chlorophyll, [speed] for wind,
    [accumulation] for rainfall, whose intensity is never extreme. *)
Theorem generated_points_are_made_within_the_request :
  forall (rt : Runtime) (fuel : nat) (params : Params),
    (forall data,
       generateMockSSTData rt fuel params = Some data ->
       Forall (fun p : SSTData => madeWithin rt params "MUR_SST" p /\ depth p = Some 0)
         data) /\
    (forall data,
       generateMockSeaLevelData rt fuel params = Some data ->
       Forall (fun p : SeaLevelData => madeWithin rt params "AVISO_SLA" p) data) /\
    (forall data,
       generateMockChlorophyllData rt fuel params = Some data ->
       Forall (fun p : ChlorophyllData =>
                 madeWithin rt params "OCEANCOLOR_CHL" p /\ concentration p = value p)
         data) /\
    (forall data,
       generateMockWindData rt fuel params = Some data ->
       Forall (fun p : WindData =>
                 madeWithin rt params "ASCAT_WIND" p /\ speed p = value p) data) /\
    (forall data,
       generateMockRainfallData rt fuel params = Some data ->
       Forall (fun p : RainfallData =>
                 madeWithin rt params "IMERG_RAIN" p /\ accumulation p = value p /\
                 intensity p <> extreme /\ duration p = 3) data).
Proof.
  intros rt fuel params.
  split; [| split; [| split; [| split]]]; intros data;
    apply sweep_invariant; intros t e lat lon st He Hte Hlat Hlon.
  - unfold sstSample. do 2 eexists. split; [reflexivity |].
    split; [made_within Hlat Hlon He Hte | reflexivity].
  - unfold seaLevelSample. do 2 eexists. split; [reflexivity |].
    made_within Hlat Hlon He Hte.
  - unfold chlorophyllSample. do 2 eexists. split; [reflexivity |].
    split; [made_within Hlat Hlon He Hte | reflexivity].
  - unfold windSample. do 2 eexists. split; [reflexivity |].
    split; [made_within Hlat Hlon He Hte | reflexivity].
  - unfold rainfallSample. do 2 eexists. split; [reflexivity |].
    split; [made_within Hlat Hlon He Hte |].
    cbn. split; [reflexivity |]. split; [| reflexivity].
    repeat match goal with |- context [if ?b then _ else _] => destruct b end;
      discriminate.
Qed.

(** A run that makes points: one grid cell over the two sample instants. *)
Example generated_wind_over_one_cell :
  exists p1 p2,
    generateMockWindData sampleRuntime 3 (paramsOver (bbox 18 72 18 72))
      = Some [p1; p2] /\
    timestamp p1 = "2024-01-01T00:00:00.000Z"%string /\
    timestamp p2 = "2024-01-02T00:00:00.000Z"%string /\
    value p1 = 8 /\ speed p1 = 8 /\ source p1 = "ASCAT_WIND"%string.
Proof.
  do 2 eexists. split; [vm_compute; reflexivity |]. vm_compute. repeat split.
Qed.

(** ** The summary hook over the service *)

Lemma registered_is_found (created datasetId : string) :
  In datasetId registryIds ->
  exists info, JSMap.get datasetId (initializeDatasets created) = Some info.
Proof.
  intros Hin.
  destruct (JSMap.get datasetId (initializeDatasets created)) as [info |] eqn:Hget.
  - exists info. reflexivity.
  - apply get_none_iff in Hget. rewrite registry_keys in Hget. contradiction.
Qed.

Lemma or_else_nonempty (message : string) (b : option string) :
  message <> EmptyString -> or_else (Some message) b = Some message.
Proof.
  intros Hne. unfold or_else.
  destruct (String.eqb_spec message EmptyString) as [E | _];
    [contradiction | reflexivity].
Qed.

(** A query of the hook, on a registered id: the generator's array as a
    success, or the failure object. *)
Lemma hook_query {T : Type} (datasetId : string)
    (generateMockData : Params -> Completion (list T)) (completeness accuracy : number)
    (created startDate endDate : string) (box : BoundingBox) :
  In datasetId registryIds ->
  datasetId <> EmptyString ->
  exists r,
    queryData (getData datasetId generateMockData completeness accuracy
                 (initializeDatasets created)
                 (hookParams startDate endDate box datasetId)) = Some r /\
    match generateMockData (hookParams startDate endDate box datasetId) with
    | Return d => data r = d /\ error r = None
    | Throw e =>
        r = failureResponse (hookParams startDate endDate box datasetId) e
    end.
Proof.
  intros Hin Hne. unfold getData.
  cbn [dataset hookParams]. rewrite (or_string_supplied _ _ Hne).
  destruct (registered_is_found created datasetId Hin) as [info ->].
  destruct (generateMockData (hookParams startDate endDate box datasetId)) as [d | e];
    eexists; (split; [reflexivity |]); [split; reflexivity | reflexivity].
Qed.

Ltac hook_queries g1 g2 g3 g4 g5 created startDate endDate boundingBox :=
  destruct (hook_query "MUR_SST" g1 0.95 0.92 created startDate endDate
              (defaultBbox boundingBox) ltac:(cbn; tauto) ltac:(discriminate))
    as (r1 & Q1 & H1);
  destruct (hook_query "AVISO_SLA" g2 0.88 0.89 created startDate endDate
              (defaultBbox boundingBox) ltac:(cbn; tauto) ltac:(discriminate))
    as (r2 & Q2 & H2);
  destruct (hook_query "OCEANCOLOR_CHL" g3 0.82 0.85 created startDate endDate
              (defaultBbox boundingBox) ltac:(cbn; tauto) ltac:(discriminate))
    as (r3 & Q3 & H3);
  destruct (hook_query "ASCAT_WIND" g4 0.91 0.87 created startDate endDate
              (defaultBbox boundingBox) ltac:(cbn; tauto) ltac:(discriminate))
    as (r4 & Q4 & H4);
  destruct (hook_query "IMERG_RAIN" g5 0.94 0.90 created startDate endDate
              (defaultBbox boundingBox) ltac:(cbn; tauto) ltac:(discriminate))
    as (r5 & Q5 & H5);
  unfold settledAssessment, settledSummary, settledError, sstQuery, seaLevelQuery,
    chlorophyllQuery, windQuery, rainfallQuery, getSSTData, getSeaLevelData,
    getChlorophyllData, getWindData, getRainfallData;
  rewrite Q1, Q2, Q3, Q4, Q5.

(** X9. Once its five queries have settled, [useOceanographicSummary]
    always has a summary: the five ids it asks for are registered, so no
    fetch throws, whatever the generators do. When the SST generator throws
    an error with a message, the hook reports that message as its error
    and still returns a summary, whose SST value is [NaN]. *)
Theorem settled_hook_always_has_a_summary :
  forall (generateMockSSTData : Params -> Completion (list SSTData))
         (generateMockSeaLevelData : Params -> Completion (list SeaLevelData))
         (generateMockChlorophyllData : Params -> Completion (list ChlorophyllData))
         (generateMockWindData : Params -> Completion (list WindData))
         (generateMockRainfallData : Params -> Completion (list RainfallData))
         (created startDate endDate now : string) (boundingBox : option BoundingBox),
    (exists s,
       settledSummary generateMockSSTData generateMockSeaLevelData
         generateMockChlorophyllData generateMockWindData generateMockRainfallData
         created startDate endDate now boundingBox = Some s) /\
    (forall message,
       generateMockSSTData
         (hookParams startDate endDate (defaultBbox boundingBox) "MUR_SST")
         = Throw (ErrorObject message) ->
       message <> EmptyString ->
       settledError generateMockSSTData generateMockSeaLevelData
         generateMockChlorophyllData generateMockWindData generateMockRainfallData
         created startDate endDate boundingBox = Some message /\
       exists s,
         settledSummary generateMockSSTData generateMockSeaLevelData
           generateMockChlorophyllData generateMockWindData generateMockRainfallData
           created startDate endDate now boundingBox = Some s /\
         Trended.value (seaSurfaceTemperature (parameters s)) = nan /\
         Trended.risk (seaSurfaceTemperature (parameters s)) = low).
Proof.
  intros g1 g2 g3 g4 g5 created startDate endDate now boundingBox.
  split.
  - hook_queries g1 g2 g3 g4 g5 created startDate endDate boundingBox.
    eexists. reflexivity.
  - intros message Hthrow Hmsg.
    hook_queries g1 g2 g3 g4 g5 created startDate endDate boundingBox.
    rewrite Hthrow in H1. subst r1. split.
    + unfold summaryError. cbn [errorOf failureResponse error].
      rewrite !(or_else_nonempty message) by exact Hmsg. reflexivity.
    + eexists. split; [reflexivity |].
      cbn [parameters seaSurfaceTemperature Trended.value Trended.risk].
      vm_compute. split; reflexivity.
Qed.

(** X10. When the five generators return the empty array (as they do over
    an inverted box), every fetch succeeds with no data and no error, so the
    settled hook reports no error and returns a summary whose four averaged
    values are [NaN] and whose rainfall total is 0; its five risks and its
    overall risk are low, and the assessment made from it has score 0 and
    level low. *)
Theorem empty_arrays_end_as_a_nan_summary :
  forall (generateMockSSTData : Params -> Completion (list SSTData))
         (generateMockSeaLevelData : Params -> Completion (list SeaLevelData))
         (generateMockChlorophyllData : Params -> Completion (list ChlorophyllData))
         (generateMockWindData : Params -> Completion (list WindData))
         (generateMockRainfallData : Params -> Completion (list RainfallData))
         (created startDate endDate now : string) (boundingBox : option BoundingBox),
    generateMockSSTData
      (hookParams startDate endDate (defaultBbox boundingBox) "MUR_SST") = Return [] ->
    generateMockSeaLevelData
      (hookParams startDate endDate (defaultBbox boundingBox) "AVISO_SLA") = Return [] ->
    generateMockChlorophyllData
      (hookParams startDate endDate (defaultBbox boundingBox) "OCEANCOLOR_CHL")
      = Return [] ->
    generateMockWindData
      (hookParams startDate endDate (defaultBbox boundingBox) "ASCAT_WIND") = Return [] ->
    generateMockRainfallData
      (hookParams startDate endDate (defaultBbox boundingBox) "IMERG_RAIN") = Return [] ->
    settledError generateMockSSTData generateMockSeaLevelData
      generateMockChlorophyllData generateMockWindData generateMockRainfallData
      created startDate endDate boundingBox = None /\
    exists s a,
      settledSummary generateMockSSTData generateMockSeaLevelData
        generateMockChlorophyllData generateMockWindData generateMockRainfallData
        created startDate endDate now boundingBox = Some s /\
      Trended.value (seaSurfaceTemperature (parameters s)) = nan /\
      Trended.value (seaLevel (parameters s)) = nan /\
      Chl.value (chlorophyll (parameters s)) = nan /\
      Wind.speed (wind (parameters s)) = nan /\
      Rain.total (rainfall (parameters s)) = 0 /\
      (forall k, riskOf (parameters s) k = low) /\
      overallRisk s = low /\
      settledAssessment generateMockSSTData generateMockSeaLevelData
        generateMockChlorophyllData generateMockWindData generateMockRainfallData
        created startDate endDate now boundingBox = Some a /\
      threatScore a = 0 /\
      threatLevel a = ThreatLevel.low /\
      threatFactors a = [].
Proof.
  intros g1 g2 g3 g4 g5 created startDate endDate now boundingBox E1 E2 E3 E4 E5.
  hook_queries g1 g2 g3 g4 g5 created startDate endDate boundingBox.
  rewrite E1 in H1. rewrite E2 in H2. rewrite E3 in H3. rewrite E4 in H4.
  rewrite E5 in H5.
  destruct H1 as [D1 N1], H2 as [D2 N2], H3 as [D3 N3], H4 as [D4 N4],
    H5 as [D5 N5].
  destruct r1 as [d1 m1 e1], r2 as [d2 m2 e2], r3 as [d3 m3 e3],
    r4 as [d4 m4 e4], r5 as [d5 m5 e5].
  cbn [data error] in D1, D2, D3, D4, D5, N1, N2, N3, N4, N5. subst.
  split; [reflexivity |].
  do 2 eexists. split; [reflexivity |].
  vm_compute. repeat split. intros k. destruct k; reflexivity.
Qed.

Lemma empty_arrays_end_as_a_nan_summary_witness :
  settledError (fun _ => Return []) (fun _ => Return []) (fun _ => Return [])
    (fun _ => Return []) (fun _ => Return [])
    sampleNow "2024-01-01T00:00:00.000Z" "2024-01-02T00:00:00.000Z"
    (Some (bbox 20 72 18 75)) = None /\
  exists s a,
    settledSummary (fun _ => Return []) (fun _ => Return []) (fun _ => Return [])
      (fun _ => Return []) (fun _ => Return [])
      sampleNow "2024-01-01T00:00:00.000Z" "2024-01-02T00:00:00.000Z" sampleNow
      (Some (bbox 20 72 18 75)) = Some s /\
    Trended.value (seaSurfaceTemperature (parameters s)) = nan /\
    Trended.value (seaLevel (parameters s)) = nan /\
    Chl.value (chlorophyll (parameters s)) = nan /\
    Wind.speed (wind (parameters s)) = nan /\
    Rain.total (rainfall (parameters s)) = 0 /\
    (forall k, riskOf (parameters s) k = low) /\
    overallRisk s = low /\
    settledAssessment (fun _ => Return []) (fun _ => Return []) (fun _ => Return [])
      (fun _ => Return []) (fun _ => Return [])
      sampleNow "2024-01-01T00:00:00.000Z" "2024-01-02T00:00:00.000Z" sampleNow
      (Some (bbox 20 72 18 75)) = Some a /\
    threatScore a = 0 /\
    threatLevel a = ThreatLevel.low /\
    threatFactors a = [].
Proof.
  apply (empty_arrays_end_as_a_nan_summary
           (fun _ => Return []) (fun _ => Return []) (fun _ => Return [])
           (fun _ => Return []) (fun _ => Return [])
           sampleNow "2024-01-01T00:00:00.000Z" "2024-01-02T00:00:00.000Z" sampleNow
           (Some (bbox 20 72 18 75))); reflexivity.
Defined.

(** ** Order of doubles, and operations that make no NaN

    More of the IEEE 754 operations, from their specification: [<=] is a
    total preorder away from NaN, rounding a magnitude never makes a NaN,
    and multiplying by one changes nothing. *)

Module DoubleOrder.

Local Open Scope Z_scope.

Lemma compare_cont_Eq (a b : positive) :
  Pos.compare_cont Eq a b = Z.compare (Zpos a) (Zpos b).
Proof.
  rewrite Pos.compare_cont_spec. unfold Pos.switch_Eq.
  change (Z.compare (Zpos a) (Zpos b)) with (Pos.compare a b).
  destruct (Pos.compare a b); reflexivity.
Qed.

Ltac compare_cases :=
  repeat match goal with
         | H : context [Z.compare ?a ?b] |- _ =>
             destruct (Z.compare_spec a b); cbn [CompOpp] in *
         | |- context [Z.compare ?a ?b] =>
             destruct (Z.compare_spec a b); cbn [CompOpp] in *
         end;
  try discriminate; try reflexivity; try lia.

Ltac sf_order :=
  unfold SFltb, SFleb, SFeqb, SFcompare;
  repeat match goal with
         | |- forall x : spec_float, _ => intros [[|] | [|] | | [|] ? ?]
         end;
  rewrite ?compare_cont_Eq;
  intros;
  try discriminate; try reflexivity; try congruence;
  compare_cases.

Lemma SFleb_refl (x : spec_float) : x <> S754_nan -> SFleb x x = true.
Proof. revert x. sf_order. Qed.

Lemma SFltb_leb (x y : spec_float) : SFltb x y = true -> SFleb x y = true.
Proof. revert x y. sf_order. Qed.

Lemma SFleb_total (x y : spec_float) :
  x <> S754_nan -> y <> S754_nan -> SFltb x y = false -> SFleb y x = true.
Proof. revert x y. sf_order. Qed.

Lemma SFltb_leb_trans (a x y : spec_float) :
  SFltb a x = true -> SFleb x y = true -> SFltb a y = true.
Proof. revert a x y. sf_order. Qed.

Lemma SFleb_trans (a x y : spec_float) :
  SFleb a x = true -> SFleb x y = true -> SFleb a y = true.
Proof. revert a x y. sf_order. Qed.

Lemma SFleb_not_nan (x y : spec_float) :
  SFleb x y = true -> x <> S754_nan /\ y <> S754_nan.
Proof. revert x y. sf_order; split; discriminate. Qed.

Lemma SFeqb_refl (x : spec_float) : x <> S754_nan -> SFeqb x x = true.
Proof. revert x. sf_order. Qed.

(** Rounding never makes a NaN. *)
Lemma shr_1_nonneg (mrs : shr_record) : 0 <= shr_m mrs -> 0 <= shr_m (shr_1 mrs).
Proof. destruct mrs as [[| [p | p |] | p] r s]; cbn; lia. Qed.

Lemma iter_shr_1_nonneg (p : positive) :
  forall mrs, 0 <= shr_m mrs -> 0 <= shr_m (iter_pos shr_1 p mrs).
Proof.
  induction p as [p IH | p IH |]; intros mrs H; cbn [iter_pos].
  - apply IH, IH, shr_1_nonneg, H.
  - apply IH, IH, H.
  - apply shr_1_nonneg, H.
Qed.

Lemma shr_fexp_nonneg (m e : Z) (l : SpecFloat.location) :
  0 <= m -> 0 <= shr_m (fst (shr_fexp prec emax m e l)).
Proof.
  intros H. unfold shr_fexp, shr.
  assert (H0 : 0 <= shr_m (shr_record_of_loc m l)) by (destruct l as [| []]; exact H).
  destruct (fexp prec emax (Zdigits2 m + e) - e); cbn [fst]; try exact H0.
  apply iter_shr_1_nonneg. exact H0.
Qed.

Lemma round_nearest_even_nonneg (m : Z) (l : SpecFloat.location) :
  0 <= m -> 0 <= round_nearest_even m l.
Proof.
  intros H. destruct l as [| []]; cbn [round_nearest_even];
    try destruct (Z.even m); lia.
Qed.

Lemma binary_round_aux_not_nan (sx : bool) (m e : Z) (l : SpecFloat.location) :
  0 <= m -> binary_round_aux prec emax sx m e l <> S754_nan.
Proof.
  intros H. unfold binary_round_aux.
  pose proof (shr_fexp_nonneg m e l H) as H1.
  destruct (shr_fexp prec emax m e l) as [mrs1 e1]. cbn [fst] in H1.
  pose proof (shr_fexp_nonneg _ e1 loc_Exact
                (round_nearest_even_nonneg _ (loc_of_shr_record mrs1) H1)) as H2.
  destruct (shr_fexp prec emax
              (round_nearest_even (shr_m mrs1) (loc_of_shr_record mrs1)) e1 loc_Exact)
    as [mrs2 e2].
  cbn [fst] in H2.
  destruct (shr_m mrs2); [discriminate | | lia].
  destruct (e2 <=? emax - prec); discriminate.
Qed.

Lemma binary_normalize_not_nan (m e : Z) (szero : bool) :
  binary_normalize prec emax m e szero <> S754_nan.
Proof.
  destruct m as [| p | p]; cbn [binary_normalize]; [discriminate | |];
    unfold binary_round;
    destruct (shl_align p e (fexp prec emax (Zpos (digits2_pos p) + e)));
    apply binary_round_aux_not_nan; lia.
Qed.

Lemma SFmul_finite_r (x : spec_float) (s : bool) (m : positive) (e : Z) :
  x <> S754_nan -> SF64mul x (S754_finite s m e) <> S754_nan.
Proof.
  intros H. destruct x as [sx | sx | | sx mx ex]; cbn; try discriminate;
    [contradiction |].
  apply binary_round_aux_not_nan. lia.
Qed.

Lemma SFmul_finite_l (x : spec_float) (s : bool) (m : positive) (e : Z) :
  x <> S754_nan -> SF64mul (S754_finite s m e) x <> S754_nan.
Proof.
  intros H. destruct x as [sx | sx | | sx mx ex]; cbn; try discriminate;
    [contradiction |].
  apply binary_round_aux_not_nan. lia.
Qed.

Lemma SFadd_finite_l (x : spec_float) (s : bool) (m : positive) (e : Z) :
  x <> S754_nan -> SF64add (S754_finite s m e) x <> S754_nan.
Proof.
  intros H. destruct x as [sx | sx | | sx mx ex]; cbn; try discriminate;
    [contradiction |].
  apply binary_normalize_not_nan.
Qed.

Lemma SFsub_finite_r (x : spec_float) (s : bool) (m : positive) (e : Z) :
  x <> S754_nan -> SF64sub x (S754_finite s m e) <> S754_nan.
Proof.
  intros H. destruct x as [sx | sx | | sx mx ex]; cbn; try discriminate;
    [contradiction |].
  apply binary_normalize_not_nan.
Qed.

(** Multiplying by one. *)
Lemma canonical_exponent (m : positive) (e : Z) :
  bounded prec emax m e = true ->
  fexp prec emax (Zpos (digits2_pos m) + e) = e /\ e <= emax - prec.
Proof.
  unfold bounded, canonical_mantissa. intros H.
  apply andb_true_iff in H. destruct H as [H1 H2].
  apply Z.eqb_eq in H1. apply Z.leb_le in H2. split; assumption.
Qed.

Lemma round_one_times (s : bool) (m : positive) (e : Z) :
  bounded prec emax m e = true ->
  binary_round_aux prec emax s (Zpos (4503599627370496 * m)) (-52 + e) loc_Exact
  = S754_finite s m e.
Proof.
  intros B. destruct (canonical_exponent m e B) as [C L].
  unfold binary_round_aux.
  assert (E1 : shr_fexp prec emax (Zpos (4503599627370496 * m)) (-52 + e) loc_Exact
               = (Build_shr_record (Zpos m) false false, e)).
  { unfold shr_fexp, Zdigits2.
    replace (fexp prec emax (Zpos (digits2_pos (4503599627370496 * m)) + (-52 + e))
             - (-52 + e)) with 52.
    - unfold shr. cbn [Pos.mul iter_pos shr_record_of_loc shr_1 orb]. f_equal. lia.
    - cbn [Pos.mul digits2_pos].
      revert C. unfold fexp, emin, prec, emax. lia. }
  rewrite E1. cbn [shr_m loc_of_shr_record round_nearest_even].
  assert (E2 : shr_fexp prec emax (Zpos m) e loc_Exact
               = (Build_shr_record (Zpos m) false false, e)).
  { unfold shr_fexp, Zdigits2. rewrite C, Z.sub_diag. reflexivity. }
  rewrite E2. cbn [shr_m].
  apply Z.leb_le in L. rewrite L. reflexivity.
Qed.

Lemma SFmul_1_l (x : spec_float) :
  valid_binary x = true -> SF64mul (S754_finite false 4503599627370496 (-52)) x = x.
Proof.
  destruct x as [s | s | | s m e]; intros V; try reflexivity.
  unfold SF64mul, SFmul. cbn [xorb]. apply round_one_times. exact V.
Qed.

Lemma SFsub_diag (s : bool) (m : positive) (e : Z) :
  SF64sub (S754_finite s m e) (S754_finite s m e) = S754_zero false.
Proof.
  unfold SF64sub, SFsub. rewrite Z.sub_diag. reflexivity.
Qed.

(** [1 * (0 + a) - a] is zero, or NaN when [a] is not finite. *)
Lemma centred_is_zero_or_nan (a : spec_float) :
  valid_binary a = true ->
  let c := SF64sub (SF64mul (S754_finite false 4503599627370496 (-52))
                      (SF64add (S754_zero false) a)) a in
  c = S754_zero false \/ c = S754_nan.
Proof.
  intros V. destruct a as [[|] | [|] | | s m e];
    try (left; reflexivity); try (right; reflexivity).
  cbn zeta.
  change (SF64add (S754_zero false) (S754_finite s m e)) with (S754_finite s m e).
  rewrite SFmul_1_l by exact V. left. apply SFsub_diag.
Qed.

(** [1 * (0 + t * v) - (0 + t) * (0 + v)], the numerator of the slope of a
    single point, and with [v = t] its denominator. *)
Lemma cross_term_is_zero_or_nan (t v : spec_float) :
  valid_binary (SF64mul t v) = true ->
  let c := SF64sub (SF64mul (S754_finite false 4503599627370496 (-52))
                      (SF64add (S754_zero false) (SF64mul t v)))
             (SF64mul (SF64add (S754_zero false) t) (SF64add (S754_zero false) v)) in
  c = S754_zero false \/ c = S754_nan.
Proof.
  intros V.
  destruct t as [[|] | [|] | | st mt et], v as [[|] | [|] | | sv mv ev];
    try (left; reflexivity); try (right; reflexivity);
    try (destruct sv; solve [left; reflexivity | right; reflexivity]);
    try (destruct st; solve [left; reflexivity | right; reflexivity]).
  cbn zeta.
  change (SF64add (S754_zero false) (S754_finite st mt et)) with (S754_finite st mt et).
  change (SF64add (S754_zero false) (S754_finite sv mv ev)) with (S754_finite sv mv ev).
  apply centred_is_zero_or_nan. exact V.
Qed.

(** *** On doubles *)

Local Open Scope float_scope.

Lemma is_nan_false (x : float) : is_nan x = false <-> Prim2SF x <> S754_nan.
Proof.
  unfold is_nan. rewrite eqb_spec. split.
  - intros H E. rewrite E in H. discriminate H.
  - intros H. rewrite (SFeqb_refl _ H). reflexivity.
Qed.

Lemma is_nan_true (x : float) : is_nan x = true -> x = nan.
Proof.
  intros H. apply Prim2SF_inj. change (Prim2SF nan) with S754_nan.
  destruct (is_nan x) eqn:E; [| discriminate H].
  destruct (Prim2SF x) as [s | s | | s m e] eqn:P; try reflexivity;
    assert (N : is_nan x = false) by (apply is_nan_false; rewrite P; discriminate);
    rewrite N in E; discriminate E.
Qed.

Lemma leb_refl (x : float) : is_nan x = false -> (x <=? x) = true.
Proof. rewrite is_nan_false, leb_spec. apply SFleb_refl. Qed.

Lemma ltb_leb (x y : float) : (x <? y) = true -> (x <=? y) = true.
Proof. rewrite ltb_spec, leb_spec. apply SFltb_leb. Qed.

Lemma leb_total (x y : float) :
  is_nan x = false -> is_nan y = false -> (x <? y) = false -> (y <=? x) = true.
Proof. rewrite !is_nan_false, ltb_spec, leb_spec. apply SFleb_total. Qed.

Lemma ltb_leb_trans (a x y : float) :
  (a <? x) = true -> (x <=? y) = true -> (a <? y) = true.
Proof. rewrite !ltb_spec, leb_spec. apply SFltb_leb_trans. Qed.

Lemma leb_trans (a x y : float) :
  (a <=? x) = true -> (x <=? y) = true -> (a <=? y) = true.
Proof. rewrite !leb_spec. apply SFleb_trans. Qed.

Lemma leb_not_nan (x y : float) :
  (x <=? y) = true -> is_nan x = false /\ is_nan y = false.
Proof. rewrite !is_nan_false, leb_spec. apply SFleb_not_nan. Qed.

(** Arithmetic with a finite constant makes no NaN of a number. *)
Lemma mul_finite_r (x c : float) :
  match Prim2SF c with S754_finite _ _ _ => True | _ => False end ->
  is_nan x = false -> is_nan (x * c) = false.
Proof.
  rewrite !is_nan_false, mul_spec.
  destruct (Prim2SF c); try contradiction. intros _. apply SFmul_finite_r.
Qed.

Lemma mul_finite_l (x c : float) :
  match Prim2SF c with S754_finite _ _ _ => True | _ => False end ->
  is_nan x = false -> is_nan (c * x) = false.
Proof.
  rewrite !is_nan_false, mul_spec.
  destruct (Prim2SF c); try contradiction. intros _. apply SFmul_finite_l.
Qed.

Lemma add_finite_l (x c : float) :
  match Prim2SF c with S754_finite _ _ _ => True | _ => False end ->
  is_nan x = false -> is_nan (c + x) = false.
Proof.
  rewrite !is_nan_false, add_spec.
  destruct (Prim2SF c); try contradiction. intros _. apply SFadd_finite_l.
Qed.

Lemma sub_finite_r (x c : float) :
  match Prim2SF c with S754_finite _ _ _ => True | _ => False end ->
  is_nan x = false -> is_nan (x - c) = false.
Proof.
  rewrite !is_nan_false, sub_spec.
  destruct (Prim2SF c); try contradiction. intros _. apply SFsub_finite_r.
Qed.

Lemma abs_opp (x : float) : abs (- x) = abs x.
Proof.
  apply Prim2SF_inj. rewrite !abs_spec, opp_spec.
  destruct (Prim2SF x); reflexivity.
Qed.

Lemma cross_term (t v : float) :
  let c := Prim2SF (1 * (0 + t * v) - (0 + t) * (0 + v)) in
  c = S754_zero false \/ c = S754_nan.
Proof.
  cbn zeta. rewrite sub_spec, !mul_spec, !add_spec, mul_spec.
  apply cross_term_is_zero_or_nan.
  rewrite <- mul_spec. apply Prim2SF_valid.
Qed.

Lemma one_point_quotient (t v : float) :
  (1 * (0 + t * v) - (0 + t) * (0 + v)) / (1 * (0 + t * t) - (0 + t) * (0 + t)) = nan.
Proof.
  apply Prim2SF_inj. rewrite div_spec.
  destruct (cross_term t v) as [-> | ->], (cross_term t t) as [-> | ->]; reflexivity.
Qed.

End DoubleOrder.

(** ** The tiers *)

Lemma tier_monotone (hi lo x y : number) :
  (x <=? y) = true ->
  (riskRank (if gt x hi then high else if gt x lo then medium else low)
   <= riskRank (if gt y hi then high else if gt y lo then medium else low))%nat.
Proof.
  intros H. unfold gt.
  destruct (hi <? x) eqn:Hx.
  - rewrite (DoubleOrder.ltb_leb_trans hi x y Hx H). cbn. lia.
  - destruct (lo <? x) eqn:Lx.
    + rewrite (DoubleOrder.ltb_leb_trans lo x y Lx H).
      destruct (hi <? y); cbn; lia.
    + destruct (hi <? y), (lo <? y); cbn; lia.
Qed.

(** X11. Each of the four rules on a plain value is monotone: a larger
    mean (or rainfall total) is never rated lower than a smaller one. *)
Theorem risk_tiers_are_monotone (x y : number) :
  (x <=? y) = true ->
  (riskRank (sstRisk x) <= riskRank (sstRisk y))%nat /\
  (riskRank (chlorophyllRisk x) <= riskRank (chlorophyllRisk y))%nat /\
  (riskRank (windRisk x) <= riskRank (windRisk y))%nat /\
  (riskRank (rainfallRisk x) <= riskRank (rainfallRisk y))%nat.
Proof.
  intros H. unfold sstRisk, chlorophyllRisk, windRisk, rainfallRisk.
  repeat split; apply tier_monotone; exact H.
Qed.

Lemma risk_tiers_are_monotone_witness :
  (riskRank (sstRisk 28%float) <= riskRank (sstRisk 30.5%float))%nat /\
  (riskRank (chlorophyllRisk 28%float) <= riskRank (chlorophyllRisk 30.5%float))%nat /\
  (riskRank (windRisk 28%float) <= riskRank (windRisk 30.5%float))%nat /\
  (riskRank (rainfallRisk 28%float) <= riskRank (rainfallRisk 30.5%float))%nat.
Proof.
  apply (risk_tiers_are_monotone 28 30.5). reflexivity.
Defined.

(** X12. The sea-level rule rates the magnitude of the mean: a mean and
    its opposite get the same risk, and a mean of larger magnitude is never
    rated lower. *)
Theorem sea_level_risk_rates_the_magnitude (x y : number) :
  seaLevelRisk (- x) = seaLevelRisk x /\
  ((Math_abs x <=? Math_abs y) = true ->
   (riskRank (seaLevelRisk x) <= riskRank (seaLevelRisk y))%nat).
Proof.
  unfold seaLevelRisk, Math_abs. split.
  - rewrite DoubleOrder.abs_opp. reflexivity.
  - intros H. apply (tier_monotone 0.5 0.3 (abs x) (abs y) H).
Qed.

(** X13. A NaN never raises an alarm: each of the five rules rates a NaN
    mean low, a NaN score is threat level low, a NaN slope is a stable
    trend, and a NaN quality is shown in red. *)
Theorem nan_is_rated_low (x : number) :
  is_nan x = true ->
  sstRisk x = low /\ seaLevelRisk x = low /\ chlorophyllRisk x = low /\
  windRisk x = low /\ rainfallRisk x = low /\
  threatLevelOf x = ThreatLevel.low /\
  slopeTrend x = stable /\
  getQualityColor x = "text-red-600"%string.
Proof.
  intros H. apply DoubleOrder.is_nan_true in H. subst x.
  vm_compute. repeat split.
Qed.

Lemma nan_is_rated_low_witness :
  sstRisk (0 / 0) = low /\ seaLevelRisk (0 / 0) = low /\ chlorophyllRisk (0 / 0) = low /\
  windRisk (0 / 0) = low /\ rainfallRisk (0 / 0) = low /\
  threatLevelOf (0 / 0) = ThreatLevel.low /\
  slopeTrend (0 / 0) = stable /\
  getQualityColor (0 / 0) = "text-red-600"%string.
Proof.
  apply (nan_is_rated_low (0 / 0)). reflexivity.
Defined.

(** ** A series of one observation *)

Lemma regressionSlope_single (t v : number) : regressionSlope [t] [v] = nan.
Proof.
  unfold regressionSlope, reduce, reducei, index.
  cbn [fold_left reduce_from length nth].
  change (of_nat 1) with 1.
  apply DoubleOrder.one_point_quotient.
Qed.

Lemma Math_min_single (v : number) : Math_min_all [v] = v.
Proof.
  unfold Math_min_all. cbn [fold_left]. unfold Math_min.
  change (is_nan infinity) with false. cbn [orb].
  destruct (is_nan v) eqn:N.
  - symmetry. apply DoubleOrder.is_nan_true. exact N.
  - assert (H : (infinity <? v) = false).
    { rewrite ltb_spec. change (Prim2SF infinity) with (S754_infinity false).
      destruct (Prim2SF v) as [[|] | [|] | | [|] m e]; reflexivity. }
    rewrite H. destruct (v <? infinity); reflexivity.
Qed.

Lemma Math_max_single (v : number) : Math_max_all [v] = v.
Proof.
  unfold Math_max_all. cbn [fold_left]. unfold Math_max.
  change (is_nan neg_infinity) with false. cbn [orb].
  destruct (is_nan v) eqn:N.
  - symmetry. apply DoubleOrder.is_nan_true. exact N.
  - assert (H : (v <? neg_infinity) = false).
    { rewrite ltb_spec. change (Prim2SF neg_infinity) with (S754_infinity true).
      destruct (Prim2SF v) as [[|] | [|] | | [|] m e]; reflexivity. }
    rewrite H. destruct (neg_infinity <? v); reflexivity.
Qed.

(** X14. A series of a single observation has no slope: whatever its
    timestamp and value, the regression divides zero (or NaN) by zero, so the
    slope reported is NaN and the trend is stable; the minimum and the maximum
    are the observation's value. *)
Theorem single_observation_has_no_slope :
  forall (getTime : string -> number) (parameter : Param.t)
         (startDate endDate : string)
         sstData seaLevelData chlorophyllData windData rainfallData
         (d : EarthdataResponse (pointType parameter)) (p : pointType parameter),
    selectData parameter sstData seaLevelData chlorophyllData windData rainfallData
      = Some d ->
    data d = [p] ->
    exists r,
      trends getTime parameter startDate endDate sstData seaLevelData
        chlorophyllData windData rainfallData = Some r /\
      slope (statistics r) = nan /\
      stat_trend (statistics r) = stable /\
      min (statistics r) = seriesValue parameter p /\
      max (statistics r) = seriesValue parameter p /\
      dataPoints (statistics r) = 1%nat.
Proof.
  intros getTime parameter startDate endDate a b c w rn d p Hsel Hd.
  unfold trends. rewrite Hsel, Hd. cbn [length Nat.eqb map].
  eexists. split; [reflexivity |].
  cbn [statistics slope stat_trend min max dataPoints].
  rewrite regressionSlope_single, Math_min_single, Math_max_single.
  repeat split; vm_compute; reflexivity.
Qed.

Lemma single_observation_has_no_slope_witness :
  exists r,
    trends sampleGetTime Param.wind "2024-01-01T00:00:00.000Z"
      "2024-01-02T00:00:00.000Z" None None None
      (Some (response [windPointAt "2024-01-01T00:00:00.000Z" 5])) None = Some r /\
    slope (statistics r) = nan /\
    stat_trend (statistics r) = stable /\
    min (statistics r) = 5 /\
    max (statistics r) = 5 /\
    dataPoints (statistics r) = 1%nat.
Proof.
  exact (single_observation_has_no_slope sampleGetTime Param.wind
           "2024-01-01T00:00:00.000Z" "2024-01-02T00:00:00.000Z"
           None None None
           (Some (response [windPointAt "2024-01-01T00:00:00.000Z" 5])) None
           _ (windPointAt "2024-01-01T00:00:00.000Z" 5) eq_refl eq_refl).
Defined.

(** ** The fallback card *)

Lemma Math_min_below (a b : number) :
  is_nan a = false -> is_nan b = false ->
  is_nan (Math_min a b) = false /\ (Math_min a b <=? a) = true.
Proof.
  intros Ha Hb. unfold Math_min. rewrite Ha, Hb. cbn [orb].
  destruct (a <? b) eqn:E1.
  - split; [exact Ha | apply DoubleOrder.leb_refl; exact Ha].
  - destruct (b <? a) eqn:E2.
    + split; [exact Hb | apply DoubleOrder.ltb_leb; exact E2].
    + destruct (get_sign a).
      * split; [exact Ha | apply DoubleOrder.leb_refl; exact Ha].
      * split; [exact Hb | apply DoubleOrder.leb_total; assumption].
Qed.

Lemma Math_max_between (lo hi m : number) :
  (lo <=? hi) = true -> is_nan m = false -> (m <=? hi) = true ->
  between lo hi (Math_max lo m).
Proof.
  intros Hlh Hm Hmh. destruct (DoubleOrder.leb_not_nan lo hi Hlh) as [Hlo _].
  unfold Math_max, between. rewrite Hlo, Hm. cbn [orb].
  destruct (lo <? m) eqn:E1.
  - split; [apply DoubleOrder.ltb_leb; exact E1 | exact Hmh].
  - destruct (m <? lo) eqn:E2.
    + split; [apply DoubleOrder.leb_refl; exact Hlo | exact Hlh].
    + destruct (get_sign lo).
      * split; [apply DoubleOrder.leb_total; assumption | exact Hmh].
      * split; [apply DoubleOrder.leb_refl; exact Hlo | exact Hlh].
Qed.

(** [Math.max(lo, Math.min(hi, v))] lies between [lo] and [hi]. *)
Lemma clamp_between (lo hi v : number) :
  (lo <=? hi) = true -> is_nan v = false ->
  between lo hi (Math_max lo (Math_min hi v)).
Proof.
  intros Hlh Hv. destruct (DoubleOrder.leb_not_nan lo hi Hlh) as [_ Hhi].
  destruct (Math_min_below hi v Hhi Hv) as [Hn Hle].
  apply Math_max_between; assumption.
Qed.

Lemma baseData_keys (param : string) (data : BaseEntry) :
  baseData param = Some data ->
  In param ["sst"; "seaLevel"; "chlorophyll"; "wind"; "rainfall"]%string.
Proof.
  unfold baseData. intros H.
  repeat match type of H with
         | context [(param =? ?k)%string] =>
             destruct (String.eqb_spec param k) as [-> | ?]; [cbn; tauto |]
         end.
  discriminate H.
Qed.

Ltac finite_constant := vm_compute; exact I.

(** X15. The fallback of a card, for the two draws of [Math.random]
    (which are numbers): the value before it is rounded to two decimals lies
    within the range of the parameter's table entry, the quality lies
    between 0.7 and 0.95, the risk is never high and for sea level always
    low, the trend is stable, and of the five optional fields the result
    carries the one of its parameter only. *)
Theorem fallback_stays_within_its_ranges (param : string) (data : BaseEntry)
    (random1 random2 : number) :
  baseData param = Some data ->
  is_nan random1 = false ->
  is_nan random2 = false ->
  between (range_min (range data)) (range_max (range data))
    (clampedValue data random1) /\
  exists fb,
    generateDynamicFallbackData param random1 random2 = Some fb /\
    fb_value fb = Math_round (clampedValue data random1 * 100) / 100 /\
    between 0.7 0.95 (fb_quality fb) /\
    fb_risk fb <> high /\
    (param = "seaLevel"%string -> fb_risk fb = low) /\
    fb_trend fb = stable /\
    (fb_anomaly fb <> None <-> param = "sst"%string) /\
    (fb_trendValue fb <> None <-> param = "seaLevel"%string) /\
    (fb_bloomRisk fb <> None <-> param = "chlorophyll"%string) /\
    (fb_direction fb <> None <-> param = "wind"%string) /\
    (fb_intensity fb <> None <-> param = "rainfall"%string).
Proof.
  intros Hbase Hr1 Hr2.
  pose proof (baseData_keys param data Hbase) as Hkey.
  unfold generateDynamicFallbackData. rewrite Hbase.
  cbn [In] in Hkey.
  destruct Hkey as [<- | [<- | [<- | [<- | [<- | []]]]]];
    cbn in Hbase; injection Hbase as <-;
    (split;
     [ unfold clampedValue; cbn [range range_min range_max baseValue];
       apply clamp_between; [reflexivity |];
       apply DoubleOrder.mul_finite_l; [finite_constant |];
       apply DoubleOrder.add_finite_l; [finite_constant |];
       apply DoubleOrder.mul_finite_r; [finite_constant | exact Hr1]
     | eexists; split; [reflexivity |];
       cbn [fb_value fb_quality fb_risk fb_trend fb_anomaly fb_trendValue
            fb_bloomRisk fb_direction fb_intensity base_quality base_trend
            base_anomaly base_trendValue base_bloomRisk base_direction
            base_intensity];
       split; [reflexivity |];
       split;
       [ apply clamp_between; [reflexivity |];
         apply DoubleOrder.add_finite_l; [finite_constant |];
         apply DoubleOrder.mul_finite_r; [finite_constant |];
         apply DoubleOrder.sub_finite_r; [finite_constant | exact Hr2]
       | split;
         [ unfold dynamicRisk;
           repeat match goal with
                  | |- context [if ?b then _ else _] => destruct b
                  end; discriminate
         | cbn; repeat split; intros; try reflexivity; try discriminate;
           try congruence ] ] ]).
Qed.

Lemma fallback_stays_within_its_ranges_witness :
  let data :=
    {| baseValue := 12.5; base_unit := "m/s"; base_risk := low;
       base_trend := stable; base_quality := 0.88;
       range := {| range_min := 5; range_max := 25 |};
       base_anomaly := None; base_trendValue := None;
       base_bloomRisk := None; base_direction := Some 180;
       base_intensity := None |} in
  between 5 25 (clampedValue data 0.25) /\
  exists fb,
    generateDynamicFallbackData "wind" 0.25 0.75 = Some fb /\
    fb_value fb = Math_round (clampedValue data 0.25 * 100) / 100 /\
    between 0.7 0.95 (fb_quality fb) /\
    fb_risk fb <> high /\
    ("wind" = "seaLevel" -> fb_risk fb = low)%string /\
    fb_trend fb = stable /\
    (fb_anomaly fb <> None <-> "wind" = "sst")%string /\
    (fb_trendValue fb <> None <-> "wind" = "seaLevel")%string /\
    (fb_bloomRisk fb <> None <-> "wind" = "chlorophyll")%string /\
    (fb_direction fb <> None <-> "wind" = "wind")%string /\
    (fb_intensity fb <> None <-> "wind" = "rainfall")%string.
Proof.
  exact (fallback_stays_within_its_ranges "wind" _ 0.25 0.75 eq_refl eq_refl eq_refl).
Defined.

(** ** The dataset selector of the explorer *)

(** X16. On the registry of the service, the dataset the explorer selects
    for a parameter is registered. The options its selector lists are the
    datasets whose id includes the parameter's name in upper case: they
    include the selected dataset for SST and for wind only, and for sea
    level, chlorophyll and rainfall there is no option at all. *)
Theorem explorer_selector_options (created : string) (p : Param.t) :
  let datasets := getAvailableDatasets (initializeDatasets created) in
  let selected := getDefaultDataset (paramKey p) in
  (exists info,
     getDatasetInfo (initializeDatasets created) selected = Some info /\
     id info = selected) /\
  (In selected (map id (datasetOptions datasets p))
   <-> p = Param.sst \/ p = Param.wind) /\
  (datasetOptions datasets p = []
   <-> p = Param.seaLevel \/ p = Param.chlorophyll \/ p = Param.rainfall).
Proof.
  cbn zeta. split; [| split].
  - destruct p; eexists; split; vm_compute; reflexivity.
  - destruct p; vm_compute; split; intros H;
      solve [ tauto
            | repeat (destruct H as [H | H]; try discriminate H); contradiction ].
  - destruct p; vm_compute; split; intros H;
      solve [ tauto
            | discriminate H
            | repeat (destruct H as [H | H]; try discriminate H); discriminate H ].
Qed.

(** ** The card over the summary *)

(** X17. The card of a parameter over the summary of five responses: it
    shows the risk the reducer's rule gives the parameter's mean (total, for
    rainfall), the accuracy of the parameter's own response, and for
    chlorophyll, wind and rainfall a stable trend; without a summary, or for
    another key, it has nothing to show. *)
Theorem card_shows_the_reducer_rating :
  forall (now : string) (box : BoundingBox)
         sstData seaLevelData chlorophyllData windData rainfallData,
    getParameterData None = (fun _ => None) /\
    exists s,
      summary now box (Some sstData) (Some seaLevelData) (Some chlorophyllData)
        (Some windData) (Some rainfallData) = Some s /\
      (forall p : Param.t,
         exists pd,
           getParameterData (Some s) (paramKey p) = Some pd /\
           Some (pd_risk pd)
           = reducerRisk (paramKey p)
               (reducedValue p sstData seaLevelData chlorophyllData windData
                  rainfallData) /\
           pd_quality pd
           = responseAccuracy p sstData seaLevelData chlorophyllData windData
               rainfallData /\
           (p <> Param.sst -> p <> Param.seaLevel -> pd_trend pd = stable)) /\
      (forall key : string,
         ~ In key (map paramKey [Param.sst; Param.seaLevel; Param.chlorophyll;
                                 Param.wind; Param.rainfall]) ->
         getParameterData (Some s) key = None).
Proof.
  intros now box a b c w rn. split; [reflexivity |].
  eexists. split; [reflexivity |]. split.
  - intros p. destruct p; eexists; (split; [reflexivity |]);
      (split; [reflexivity |]); (split; [reflexivity |]);
      intros H1 H2; solve [reflexivity | contradiction].
  - intros key Hkey. cbn [map paramKey In] in Hkey. unfold getParameterData.
    repeat match goal with
           | |- context [(key =? ?k)%string] =>
               destruct (String.eqb_spec key k) as [-> | ?]; [exfalso; tauto |]
           end.
    reflexivity.
Qed.

(** A query of the hook, on a registered id: its accuracy is the
    method's constant, or 0 when the generator threw. *)
Lemma hook_query_accuracy {T : Type} (datasetId : string)
    (generateMockData : Params -> Completion (list T)) (comp acc : number)
    (created startDate endDate : string) (box : BoundingBox) :
  In datasetId registryIds ->
  datasetId <> EmptyString ->
  exists r,
    queryData (getData datasetId generateMockData comp acc
                 (initializeDatasets created)
                 (hookParams startDate endDate box datasetId)) = Some r /\
    accuracy (dataQuality (metadata r))
    = if returned (generateMockData (hookParams startDate endDate box datasetId))
      then acc else 0.
Proof.
  intros Hin Hne. unfold getData.
  cbn [dataset hookParams]. rewrite (or_string_supplied _ _ Hne).
  destruct (registered_is_found created datasetId Hin) as [info ->].
  destruct (generateMockData (hookParams startDate endDate box datasetId)) as [d | e];
    eexists; (split; [reflexivity |]); reflexivity.
Qed.

(** X18. The colour of the quality a card shows once the hook has settled,
    whatever the generators do: red when the generator behind the card's
    parameter threw; otherwise green for SST and rainfall, and yellow for sea
    level, chlorophyll and wind. *)
Theorem card_quality_colour_by_source :
  forall (generateMockSSTData : Params -> Completion (list SSTData))
         (generateMockSeaLevelData : Params -> Completion (list SeaLevelData))
         (generateMockChlorophyllData : Params -> Completion (list ChlorophyllData))
         (generateMockWindData : Params -> Completion (list WindData))
         (generateMockRainfallData : Params -> Completion (list RainfallData))
         (created startDate endDate now : string) (boundingBox : option BoundingBox)
         (p : Param.t),
  exists s pd,
    settledSummary generateMockSSTData generateMockSeaLevelData
      generateMockChlorophyllData generateMockWindData generateMockRainfallData
      created startDate endDate now boundingBox = Some s /\
    getParameterData (Some s) (paramKey p) = Some pd /\
    getQualityColor (pd_quality pd)
    = (if generated p generateMockSSTData generateMockSeaLevelData
            generateMockChlorophyllData generateMockWindData
            generateMockRainfallData startDate endDate (defaultBbox boundingBox)
       then match p with
            | Param.sst | Param.rainfall => "text-green-600"
            | _ => "text-yellow-600"
            end
       else "text-red-600")%string.
Proof.
  intros g1 g2 g3 g4 g5 created startDate endDate now boundingBox p.
  destruct (hook_query_accuracy "MUR_SST" g1 0.95 0.92 created startDate endDate
              (defaultBbox boundingBox) ltac:(cbn; tauto) ltac:(discriminate))
    as (r1 & Q1 & A1).
  destruct (hook_query_accuracy "AVISO_SLA" g2 0.88 0.89 created startDate endDate
              (defaultBbox boundingBox) ltac:(cbn; tauto) ltac:(discriminate))
    as (r2 & Q2 & A2).
  destruct (hook_query_accuracy "OCEANCOLOR_CHL" g3 0.82 0.85 created startDate endDate
              (defaultBbox boundingBox) ltac:(cbn; tauto) ltac:(discriminate))
    as (r3 & Q3 & A3).
  destruct (hook_query_accuracy "ASCAT_WIND" g4 0.91 0.87 created startDate endDate
              (defaultBbox boundingBox) ltac:(cbn; tauto) ltac:(discriminate))
    as (r4 & Q4 & A4).
  destruct (hook_query_accuracy "IMERG_RAIN" g5 0.94 0.90 created startDate endDate
              (defaultBbox boundingBox) ltac:(cbn; tauto) ltac:(discriminate))
    as (r5 & Q5 & A5).
  unfold settledSummary, sstQuery, seaLevelQuery, chlorophyllQuery, windQuery,
    rainfallQuery, getSSTData, getSeaLevelData, getChlorophyllData, getWindData,
    getRainfallData.
  rewrite Q1, Q2, Q3, Q4, Q5.
  destruct p; do 2 eexists; (split; [reflexivity |]); (split; [reflexivity |]);
    cbn [pd_quality summary_dataQuality q_sst q_seaLevel q_chlorophyll q_wind
         q_rainfall generated];
    rewrite ?A1, ?A2, ?A3, ?A4, ?A5;
    match goal with
    | |- context [returned ?c] => destruct (returned c)
    end; vm_compute; reflexivity.
Qed.

(** ** The prediction card *)

(** X19. The detail text of a prediction card, for a runtime in which the
    three trend words are not numbers (as in JavaScript): of the fifteen
    texts of the table only five can be shown. Sea level always shows the
    default text, since its trend word never compares above 0.2 and its
    entry has no key for the initial intensity; SST shows its high text above
    30 and its normal text otherwise; wind above 20, rainfall above 5 and
    chlorophyll with a high bloom risk show their last text, and the default
    text otherwise. *)
Theorem prediction_details_shown (StringToNumber : string -> number)
    (s : OceanographicSummary) (p : Param.t) :
  (forall t : Trend, is_nan (StringToNumber (Trend_name t)) = true) ->
  exists pd,
    PredictionCard.getParameterData StringToNumber (Some s) p = Some pd /\
    PredictionCard.details pd
    = (match p with
       | Param.sst =>
           if gt (Trended.value (seaSurfaceTemperature (parameters s))) 30
           then "Elevated temperatures may impact marine life"
           else "Temperature within normal seasonal range"
       | Param.seaLevel => "Normal conditions expected"
       | Param.chlorophyll =>
           if Risk_eqb (Chl.bloomRisk (chlorophyll (parameters s))) high
           then "High algal bloom risk - monitor water quality"
           else "Normal conditions expected"
       | Param.wind =>
           if gt (Wind.speed (wind (parameters s))) 20
           then "Strong winds may affect marine operations"
           else "Normal conditions expected"
       | Param.rainfall =>
           if gt (Rain.total (rainfall (parameters s))) 5
           then "Heavy rainfall may cause runoff issues"
           else "Normal conditions expected"
       end)%string.
Proof.
  intros Hnan.
  destruct p; eexists; (split; [reflexivity |]);
    cbn [PredictionCard.details]; unfold PredictionCard.generatePredictionDetails;
    cbn [Param_is andb PredictionCard.any_is PredictionCard.any_gt].
  - destruct (gt (Trended.value (seaSurfaceTemperature (parameters s))) 30);
      reflexivity.
  - rewrite (DoubleOrder.is_nan_true _ (Hnan (Trended.trend (seaLevel (parameters s))))).
    reflexivity.
  - destruct (Chl.bloomRisk (chlorophyll (parameters s))); reflexivity.
  - destruct (gt (Wind.speed (wind (parameters s))) 20); reflexivity.
  - destruct (gt (Rain.total (rainfall (parameters s))) 5); reflexivity.
Qed.

Lemma prediction_details_shown_witness :
  exists pd,
    PredictionCard.getParameterData (fun _ => nan)
      (Some (summaryWith low high low low low)) Param.seaLevel = Some pd /\
    PredictionCard.details pd = "Normal conditions expected"%string.
Proof.
  exact (prediction_details_shown (fun _ => nan) (summaryWith low high low low low)
           Param.seaLevel (fun _ => eq_refl)).
Defined.

(** ** The prediction timeline *)

Lemma loop_returns (rt : Runtime) (currentDate : Z) (p : Param.t)
    (tf : Timeline.Timeframe) (ks : list nat) :
  (forall k, In k ks -> plusDays rt (Z.of_nat k) currentDate <> None) ->
  forall data,
  exists made,
    Timeline.loop rt currentDate p tf ks data = Return (data ++ made) /\
    length made = length ks /\
    forall j k,
      nth_error ks j = Some k ->
      exists t,
        plusDays rt (Z.of_nat k) currentDate = Some t /\
        nth_error made j = Some (Timeline.pointAt rt p tf k (toISOString rt t)).
Proof.
  induction ks as [| k0 ks IH]; intros Hvalid data.
  - exists []. rewrite app_nil_r. split; [reflexivity |]. split; [reflexivity |].
    intros [| j] k H; discriminate H.
  - cbn [Timeline.loop]. unfold Timeline.iteration.
    destruct (plusDays rt (Z.of_nat k0) currentDate) as [t0 |] eqn:E0.
    + destruct (IH (fun k H => Hvalid k (or_intror H))
                  (data ++ [Timeline.pointAt rt p tf k0 (toISOString rt t0)]))
        as (made & Hloop & Hlen & Hnth).
      exists (Timeline.pointAt rt p tf k0 (toISOString rt t0) :: made).
      split; [rewrite Hloop, <- app_assoc; reflexivity |].
      split; [cbn [length]; rewrite Hlen; reflexivity |].
      intros [| j] k H; cbn [nth_error] in *.
      * injection H as <-. exists t0. split; [exact E0 | reflexivity].
      * apply Hnth. exact H.
    + exfalso. apply (Hvalid k0 (or_introl eq_refl)). exact E0.
Qed.

Ltac by_day k H :=
  do 30 (destruct k as [| k]; [vm_compute; first [reflexivity | exact I] |]);
  exfalso; lia.

Lemma far_day (tf : Timeline.Timeframe) (k : nat) :
  (k < 30)%nat ->
  gt (of_nat k) (of_nat (Timeline.days tf) * 0.7) = (Timeline.firstFarDay tf <=? k)%nat.
Proof. intros H. destruct tf; by_day k H. Qed.

Lemma day_below_3 (k : nat) : (k < 30)%nat -> (of_nat k <? 3) = (k <? 3)%nat.
Proof. intros H. by_day k H. Qed.

Lemma day_below_7 (k : nat) : (k < 30)%nat -> (of_nat k <? 7) = (k <? 7)%nat.
Proof. intros H. by_day k H. Qed.

Lemma day_confidence_finite (k : nat) :
  (k < 30)%nat ->
  match Prim2SF (90 - of_nat k * 2) with S754_finite _ _ _ => True | _ => False end.
Proof. intros H. by_day k H. Qed.

Lemma pointAt_facts (rt : Runtime) (p : Param.t) (tf : Timeline.Timeframe)
    (k : nat) (isoDate : string) :
  (k < 30)%nat ->
  let pt := Timeline.pointAt rt p tf k isoDate in
  Timeline.risk pt <> high /\
  ((Timeline.firstFarDay tf <= k)%nat -> Timeline.risk pt = medium) /\
  Timeline.predictions p (Timeline.band k) = Some (Timeline.prediction pt) /\
  (Timeline.anomaly pt <> None <-> p = Param.sst) /\
  (p = Param.seaLevel -> Timeline.trend pt = increasing) /\
  Timeline.unit pt = Timeline.base_unit (Timeline.baseValues p) /\
  Timeline.confidence pt = Math_round (Timeline.confidenceAt rt k) /\
  (is_nan (Math_random rt k) = false -> between 70 95 (Timeline.confidenceAt rt k)).
Proof.
  intros Hk. cbn zeta.
  cbn [Timeline.pointAt Timeline.risk Timeline.prediction Timeline.anomaly
       Timeline.trend Timeline.unit Timeline.confidence].
  split; [| split; [| split; [| split; [| split; [| split; [| split]]]]]].
  - unfold Timeline.riskAt.
    repeat match goal with
           | |- context [if ?b then _ else _] => destruct b
           end; discriminate.
  - intros Hfar. unfold Timeline.riskAt. rewrite (far_day tf k Hk).
    apply Nat.leb_le in Hfar. rewrite Hfar. reflexivity.
  - unfold Timeline.generatePrediction, Timeline.band.
    rewrite (day_below_3 k Hk), (day_below_7 k Hk).
    destruct (k <? 3)%nat, (k <? 7)%nat; destruct p; reflexivity.
  - destruct p; cbn; split; intros H;
      solve [reflexivity | discriminate | discriminate H | exfalso; apply H; reflexivity].
  - intros ->. reflexivity.
  - reflexivity.
  - reflexivity.
  - intros Hr. unfold Timeline.confidenceAt.
    apply clamp_between; [reflexivity |].
    apply DoubleOrder.add_finite_l; [apply day_confidence_finite; exact Hk |].
    apply DoubleOrder.mul_finite_r; [finite_constant |].
    apply DoubleOrder.sub_finite_r; [finite_constant | exact Hr].
Qed.

(** X20. The prediction timeline, when the dates of the next 30 days are
    valid: without a summary it is empty; with one it has as many points as
    the timeframe has days (7, 14 or 30), in order. No point is rated high,
    and every point from day 5 (of 7), 10 (of 14) or 22 (of 30) on is rated
    medium. The text of a point is its parameter's low text on days 0 to 2,
    the medium text on days 3 to 6 and the high text from day 7 on, never
    the default text. Only SST points carry an anomaly, sea-level points are
    always increasing, and the confidence is the rounding of a number
    that lies between 70 and 95 whenever the draw of [Math.random] is a
    number. *)
Theorem timeline_of_predictions (rt : Runtime) (currentDate : Z) (p : Param.t)
    (tf : Timeline.Timeframe) (s : OceanographicSummary) :
  (forall k, (k < 30)%nat -> plusDays rt (Z.of_nat k) currentDate <> None) ->
  Timeline.generateTimelineData rt currentDate p tf None = Return [] /\
  exists data,
    Timeline.generateTimelineData rt currentDate p tf (Some s) = Return data /\
    length data = Timeline.days tf /\
    forall k pt,
      nth_error data k = Some pt ->
      Timeline.risk pt <> high /\
      ((Timeline.firstFarDay tf <= k)%nat -> Timeline.risk pt = medium) /\
      Timeline.predictions p (Timeline.band k) = Some (Timeline.prediction pt) /\
      (Timeline.anomaly pt <> None <-> p = Param.sst) /\
      (p = Param.seaLevel -> Timeline.trend pt = increasing) /\
      Timeline.unit pt = Timeline.base_unit (Timeline.baseValues p) /\
      Timeline.confidence pt = Math_round (Timeline.confidenceAt rt k) /\
      (is_nan (Math_random rt k) = false ->
       between 70 95 (Timeline.confidenceAt rt k)).
Proof.
  intros Hvalid. split; [reflexivity |].
  assert (Hdays : (Timeline.days tf <= 30)%nat) by (destruct tf; cbn; lia).
  destruct (loop_returns rt currentDate p tf (seq 0 (Timeline.days tf))
              (fun k H => Hvalid k ltac:(apply in_seq in H; lia)) [])
    as (made & Hloop & Hlen & Hnth).
  exists made. split; [exact Hloop |].
  rewrite length_seq in Hlen. split; [exact Hlen |].
  intros k pt Hpt.
  assert (Hk : (k < Timeline.days tf)%nat).
  { rewrite <- Hlen. apply nth_error_Some. rewrite Hpt. discriminate. }
  destruct (Hnth k k) as (t & _ & Hmade).
  { rewrite nth_error_seq. 
    destruct (Nat.ltb_spec k (Timeline.days tf)); [reflexivity | lia]. }
  rewrite Hmade in Hpt. injection Hpt as <-.
  apply pointAt_facts. lia.
Qed.

Lemma timeline_of_predictions_witness :
  Timeline.generateTimelineData sampleRuntime 1704067200000 Param.wind Timeline.d7 None
  = Return [] /\
  exists data,
    Timeline.generateTimelineData sampleRuntime 1704067200000 Param.wind Timeline.d7
      (Some (summaryWith low low low low low)) = Return data /\
    length data = 7%nat /\
    forall k pt,
      nth_error data k = Some pt ->
      Timeline.risk pt <> high /\
      ((5 <= k)%nat -> Timeline.risk pt = medium) /\
      Timeline.predictions Param.wind (Timeline.band k) = Some (Timeline.prediction pt) /\
      (Timeline.anomaly pt <> None <-> Param.wind = Param.sst) /\
      (Param.wind = Param.seaLevel -> Timeline.trend pt = increasing) /\
      Timeline.unit pt = "m/s"%string /\
      Timeline.confidence pt = Math_round (Timeline.confidenceAt sampleRuntime k) /\
      (is_nan (Math_random sampleRuntime k) = false ->
       between 70 95 (Timeline.confidenceAt sampleRuntime k)).
Proof.
  apply (timeline_of_predictions sampleRuntime 1704067200000 Param.wind Timeline.d7
           (summaryWith low low low low low)).
  intros k _. discriminate.
Defined.

(** ** Minimum and maximum of a series *)

Lemma Math_min_cases (a b : number) :
  is_nan a = false -> is_nan b = false ->
  (Math_min a b = a \/ Math_min a b = b) /\
  is_nan (Math_min a b) = false /\
  (Math_min a b <=? a) = true /\ (Math_min a b <=? b) = true.
Proof.
  intros Ha Hb. unfold Math_min. rewrite Ha, Hb. cbn [orb].
  pose proof (DoubleOrder.leb_refl a Ha) as Ra.
  pose proof (DoubleOrder.leb_refl b Hb) as Rb.
  destruct (a <? b) eqn:E1.
  - repeat split; auto using DoubleOrder.ltb_leb.
  - destruct (b <? a) eqn:E2.
    + repeat split; auto using DoubleOrder.ltb_leb.
    + pose proof (DoubleOrder.leb_total a b Ha Hb E1) as Lba.
      pose proof (DoubleOrder.leb_total b a Hb Ha E2) as Lab.
      destruct (get_sign a); repeat split; auto.
Qed.

Lemma Math_max_cases (a b : number) :
  is_nan a = false -> is_nan b = false ->
  (Math_max a b = a \/ Math_max a b = b) /\
  is_nan (Math_max a b) = false /\
  (a <=? Math_max a b) = true /\ (b <=? Math_max a b) = true.
Proof.
  intros Ha Hb. unfold Math_max. rewrite Ha, Hb. cbn [orb].
  pose proof (DoubleOrder.leb_refl a Ha) as Ra.
  pose proof (DoubleOrder.leb_refl b Hb) as Rb.
  destruct (a <? b) eqn:E1.
  - repeat split; auto using DoubleOrder.ltb_leb.
  - destruct (b <? a) eqn:E2.
    + repeat split; auto using DoubleOrder.ltb_leb.
    + pose proof (DoubleOrder.leb_total a b Ha Hb E1) as Lba.
      pose proof (DoubleOrder.leb_total b a Hb Ha E2) as Lab.
      destruct (get_sign a); repeat split; auto.
Qed.

Lemma Math_min_of_nan (a b : number) :
  is_nan a = true \/ is_nan b = true -> Math_min a b = nan.
Proof.
  intros [H | H]; unfold Math_min; rewrite H; [| rewrite orb_true_r]; reflexivity.
Qed.

Lemma Math_max_of_nan (a b : number) :
  is_nan a = true \/ is_nan b = true -> Math_max a b = nan.
Proof.
  intros [H | H]; unfold Math_max; rewrite H; [| rewrite orb_true_r]; reflexivity.
Qed.

Lemma min_fold (values : list number) :
  forall acc,
    is_nan acc = false ->
    Forall (fun v => is_nan v = false) values ->
    is_nan (fold_left Math_min values acc) = false /\
    (fold_left Math_min values acc = acc \/ In (fold_left Math_min values acc) values) /\
    (fold_left Math_min values acc <=? acc) = true /\
    Forall (fun v => (fold_left Math_min values acc <=? v) = true) values.
Proof.
  induction values as [| v rest IH]; intros acc Hacc Hall; cbn [fold_left].
  - repeat split; auto using DoubleOrder.leb_refl.
  - inversion Hall as [| ? ? Hv Hrest]; subst.
    destruct (Math_min_cases acc v Hacc Hv) as (Hor & Hn & Hla & Hlv).
    destruct (IH (Math_min acc v) Hn Hrest) as (Mn & Mor & Mle & Mall).
    split; [exact Mn |]. split; [| split].
    + destruct Mor as [-> | Hin].
      * destruct Hor as [-> | ->]; [left; reflexivity | right; left; reflexivity].
      * right. right. exact Hin.
    + exact (DoubleOrder.leb_trans _ _ _ Mle Hla).
    + constructor; [exact (DoubleOrder.leb_trans _ _ _ Mle Hlv) | exact Mall].
Qed.

Lemma max_fold (values : list number) :
  forall acc,
    is_nan acc = false ->
    Forall (fun v => is_nan v = false) values ->
    is_nan (fold_left Math_max values acc) = false /\
    (fold_left Math_max values acc = acc \/ In (fold_left Math_max values acc) values) /\
    (acc <=? fold_left Math_max values acc) = true /\
    Forall (fun v => (v <=? fold_left Math_max values acc) = true) values.
Proof.
  induction values as [| v rest IH]; intros acc Hacc Hall; cbn [fold_left].
  - repeat split; auto using DoubleOrder.leb_refl.
  - inversion Hall as [| ? ? Hv Hrest]; subst.
    destruct (Math_max_cases acc v Hacc Hv) as (Hor & Hn & Hla & Hlv).
    destruct (IH (Math_max acc v) Hn Hrest) as (Mn & Mor & Mle & Mall).
    split; [exact Mn |]. split; [| split].
    + destruct Mor as [-> | Hin].
      * destruct Hor as [-> | ->]; [left; reflexivity | right; left; reflexivity].
      * right. right. exact Hin.
    + exact (DoubleOrder.leb_trans _ _ _ Hla Mle).
    + constructor; [exact (DoubleOrder.leb_trans _ _ _ Hlv Mle) | exact Mall].
Qed.

Lemma fold_of_nan (f : number -> number -> number) (values : list number) :
  (forall a b, is_nan a = true \/ is_nan b = true -> f a b = nan) ->
  forall acc,
    is_nan acc = true \/ Exists (fun v => is_nan v = true) values ->
    is_nan (fold_left f values acc) = true.
Proof.
  intros Hf. induction values as [| v rest IH]; intros acc H; cbn [fold_left].
  - destruct H as [H | H]; [exact H | inversion H].
  - apply IH. destruct H as [H | H].
    + left. rewrite Hf by (left; exact H). reflexivity.
    + inversion H as [? ? Hv | ? ? Hrest]; subst.
      * left. rewrite Hf by (right; exact Hv). reflexivity.
      * right. exact Hrest.
Qed.

Lemma above_infinity (v : number) : (infinity <=? v) = true -> v = infinity.
Proof.
  rewrite leb_spec. change (Prim2SF infinity) with (S754_infinity false).
  intros H. apply Prim2SF_inj. change (Prim2SF infinity) with (S754_infinity false).
  destruct (Prim2SF v) as [[|] | [|] | | [|] m e]; try discriminate H; reflexivity.
Qed.

Lemma below_neg_infinity (v : number) : (v <=? neg_infinity) = true -> v = neg_infinity.
Proof.
  rewrite leb_spec. change (Prim2SF neg_infinity) with (S754_infinity true).
  intros H. apply Prim2SF_inj. change (Prim2SF neg_infinity) with (S754_infinity true).
  destruct (Prim2SF v) as [[|] | [|] | | [|] m e]; try discriminate H; reflexivity.
Qed.

(** X21. The minimum and the maximum a trend result reports. When no value
    of the series is NaN, both are values of the series, the minimum is below
    or equal to every value and the maximum above or equal to every value.
    When some value is NaN, both are NaN. *)
Theorem trend_minimum_and_maximum :
  forall (getTime : string -> number) (parameter : Param.t)
         (startDate endDate : string)
         sstData seaLevelData chlorophyllData windData rainfallData
         (d : EarthdataResponse (pointType parameter)),
    selectData parameter sstData seaLevelData chlorophyllData windData rainfallData
      = Some d ->
    data d <> [] ->
    let values := map (seriesValue parameter) (data d) in
    exists r,
      trends getTime parameter startDate endDate sstData seaLevelData
        chlorophyllData windData rainfallData = Some r /\
      (Forall (fun v => is_nan v = false) values ->
       In (min (statistics r)) values /\
       In (max (statistics r)) values /\
       Forall (fun v => (min (statistics r) <=? v) = true /\
                        (v <=? max (statistics r)) = true) values) /\
      (Exists (fun v => is_nan v = true) values ->
       is_nan (min (statistics r)) = true /\ is_nan (max (statistics r)) = true).
Proof.
  intros getTime parameter startDate endDate a b c w rn d Hsel Hne. cbn zeta.
  unfold trends. rewrite Hsel.
  destruct (data d) as [| p0 rest] eqn:Hd; [contradiction |].
  cbn [length Nat.eqb]. eexists. split; [reflexivity |].
  cbn [statistics min max]. unfold Math_min_all, Math_max_all.
  set (values := map (seriesValue parameter) (p0 :: rest)).
  split.
  - intros Hall.
    destruct (min_fold values infinity eq_refl Hall) as (_ & Hmin & _ & Hbelow).
    destruct (max_fold values neg_infinity eq_refl Hall) as (_ & Hmax & _ & Habove).
    assert (Hv0 : In (seriesValue parameter p0) values)
      by (subst values; cbn [map In]; left; reflexivity).
    split; [| split].
    + destruct Hmin as [Hinf | Hin]; [| exact Hin].
      pose proof (proj1 (Forall_forall _ _) Hbelow _ Hv0) as H0. cbn beta in H0.
      rewrite Hinf in H0. apply above_infinity in H0.
      rewrite Hinf, <- H0. exact Hv0.
    + destruct Hmax as [Hinf | Hin]; [| exact Hin].
      pose proof (proj1 (Forall_forall _ _) Habove _ Hv0) as H0. cbn beta in H0.
      rewrite Hinf in H0. apply below_neg_infinity in H0.
      rewrite Hinf, <- H0. exact Hv0.
    + rewrite Forall_forall in *. intros v Hv. split; auto.
  - intros Hex. split.
    + apply (fold_of_nan Math_min values Math_min_of_nan). right. exact Hex.
    + apply (fold_of_nan Math_max values Math_max_of_nan). right. exact Hex.
Qed.

Lemma trend_minimum_and_maximum_witness :
  let series :=
    response [windPointAt "2024-01-01T00:00:00.000Z" 7;
              windPointAt "2024-01-02T00:00:00.000Z" 5] in
  exists r,
    trends sampleGetTime Param.wind "2024-01-01T00:00:00.000Z"
      "2024-01-02T00:00:00.000Z" None None None (Some series) None = Some r /\
    (Forall (fun v => is_nan v = false) [7; 5] ->
     In (min (statistics r)) [7; 5] /\
     In (max (statistics r)) [7; 5] /\
     Forall (fun v => (min (statistics r) <=? v) = true /\
                      (v <=? max (statistics r)) = true) [7; 5]) /\
    (Exists (fun v => is_nan v = true) [7; 5] ->
     is_nan (min (statistics r)) = true /\ is_nan (max (statistics r)) = true).
Proof.
  intros series.
  apply (trend_minimum_and_maximum sampleGetTime Param.wind
           "2024-01-01T00:00:00.000Z" "2024-01-02T00:00:00.000Z"
           None None None (Some series) None series eq_refl).
  discriminate.
Defined.

(** ** More high risks, more threat *)

Lemma Risk_eqb_high (r : Risk) : Risk_eqb r high = true <-> r = high.
Proof. destruct r; cbn; split; intros H; try discriminate H; reflexivity. Qed.

Lemma assessAll_lists (p : Parameters) :
  st_threatFactors (assessAll p) = map factorText (highKinds p) /\
  st_recommendations (assessAll p) = map recommendationText (highKinds p).
Proof.
  unfold assessAll, assessParameter, highKinds, evaluationOrder.
  cbn [filter riskOf].
  destruct (Risk_eqb (Trended.risk (seaSurfaceTemperature p)) high),
    (Risk_eqb (Trended.risk (seaLevel p)) high),
    (Risk_eqb (Chl.risk (chlorophyll p)) high),
    (Risk_eqb (Wind.risk (wind p)) high),
    (Risk_eqb (Rain.risk (rainfall p)) high); split; reflexivity.
Qed.

(** The score alone, without the two lists. *)
Lemma assessAll_score (p : Parameters) :
  st_threatScore (assessAll p)
  = (let score := 0 in
     let score :=
       if Risk_eqb (Trended.risk (seaSurfaceTemperature p)) high then score + 25
       else score in
     let score :=
       if Risk_eqb (Trended.risk (seaLevel p)) high then score + 30 else score in
     let score :=
       if Risk_eqb (Chl.risk (chlorophyll p)) high then score + 20 else score in
     let score := if Risk_eqb (Wind.risk (wind p)) high then score + 15 else score in
     let score :=
       if Risk_eqb (Rain.risk (rainfall p)) high then score + 20 else score in
     score).
Proof.
  unfold assessAll, assessParameter.
  destruct (Risk_eqb (Trended.risk (seaSurfaceTemperature p)) high),
    (Risk_eqb (Trended.risk (seaLevel p)) high),
    (Risk_eqb (Chl.risk (chlorophyll p)) high),
    (Risk_eqb (Wind.risk (wind p)) high),
    (Risk_eqb (Rain.risk (rainfall p)) high); reflexivity.
Qed.

Lemma highKinds_incl (p p' : Parameters) :
  (forall k, riskOf p k = high -> riskOf p' k = high) ->
  forall k, In k (highKinds p) -> In k (highKinds p').
Proof.
  intros Hmore k Hk. unfold highKinds in *.
  apply filter_In in Hk. destruct Hk as [Hin Hhigh].
  apply filter_In. split; [exact Hin |].
  apply Risk_eqb_high. apply Hmore. apply Risk_eqb_high. exact Hhigh.
Qed.

(** X22. More high risks never lower the threat: if every parameter that
    is at high risk in one summary is also at high risk in another, then the
    second assessment's score is not below the first's, its level is not
    below the first's, and it lists every factor and every recommendation
    the first lists. *)
Theorem more_high_risks_never_lower_the_threat :
  forall s s' : OceanographicSummary,
    (forall k, riskOf (parameters s) k = high -> riskOf (parameters s') k = high) ->
    exists a a',
      threatAssessment (Some s) = Some a /\
      threatAssessment (Some s') = Some a' /\
      (threatScore a <=? threatScore a') = true /\
      (levelRank (threatLevel a) <= levelRank (threatLevel a'))%nat /\
      (forall f, In f (threatFactors a) -> In f (threatFactors a')) /\
      (forall f, In f (recommendations a) -> In f (recommendations a')).
Proof.
  intros s s' Hmore.
  do 2 eexists. split; [reflexivity |]. split; [reflexivity |].
  cbn [threatScore threatLevel threatFactors recommendations].
  destruct (assessAll_lists (parameters s)) as [F R].
  destruct (assessAll_lists (parameters s')) as [F' R'].
  assert (Hlists :
            (forall f, In f (st_threatFactors (assessAll (parameters s))) ->
                       In f (st_threatFactors (assessAll (parameters s')))) /\
            (forall f, In f (st_recommendations (assessAll (parameters s))) ->
                       In f (st_recommendations (assessAll (parameters s'))))).
  { rewrite F, F', R, R'. split; intros f Hf; apply in_map_iff in Hf;
      destruct Hf as (k & <- & Hk); apply in_map;
      apply (highKinds_incl _ _ Hmore); exact Hk. }
  destruct Hlists as [HF HR].
  assert (Hnum :
            (st_threatScore (assessAll (parameters s))
             <=? st_threatScore (assessAll (parameters s'))) = true /\
            (levelRank (threatLevelOf (st_threatScore (assessAll (parameters s))))
             <= levelRank (threatLevelOf (st_threatScore (assessAll (parameters s')))))%nat).
  { pose proof (Hmore Kind.SST) as H1. pose proof (Hmore Kind.SeaLevel) as H2.
    pose proof (Hmore Kind.Chlorophyll) as H3. pose proof (Hmore Kind.Wind) as H4.
    pose proof (Hmore Kind.Rainfall) as H5.
    cbn [riskOf] in H1, H2, H3, H4, H5.
    rewrite <- !Risk_eqb_high in H1, H2, H3, H4, H5.
    rewrite !assessAll_score. cbn zeta.
    clear Hmore F R F' R' HF HR.
    revert H1 H2 H3 H4 H5.
    generalize (Risk_eqb (Trended.risk (seaSurfaceTemperature (parameters s))) high)
      (Risk_eqb (Trended.risk (seaSurfaceTemperature (parameters s'))) high)
      (Risk_eqb (Trended.risk (seaLevel (parameters s))) high)
      (Risk_eqb (Trended.risk (seaLevel (parameters s'))) high)
      (Risk_eqb (Chl.risk (chlorophyll (parameters s))) high)
      (Risk_eqb (Chl.risk (chlorophyll (parameters s'))) high)
      (Risk_eqb (Wind.risk (wind (parameters s))) high)
      (Risk_eqb (Wind.risk (wind (parameters s'))) high)
      (Risk_eqb (Rain.risk (rainfall (parameters s))) high)
      (Risk_eqb (Rain.risk (rainfall (parameters s'))) high).
    clear s s'.
    intros b1 c1 b2 c2 b3 c3 b4 c4 b5 c5 H1 H2 H3 H4 H5.
    destruct b1, c1; try discriminate (H1 eq_refl); clear H1;
      (destruct b2, c2; try discriminate (H2 eq_refl); clear H2);
      (destruct b3, c3; try discriminate (H3 eq_refl); clear H3);
      (destruct b4, c4; try discriminate (H4 eq_refl); clear H4);
      (destruct b5, c5; try discriminate (H5 eq_refl); clear H5);
      vm_compute; split; solve [reflexivity | lia]. }
  destruct Hnum as [Hscore Hlevel].
  split; [exact Hscore |]. split; [exact Hlevel |]. split; [exact HF | exact HR].
Qed.

Lemma more_high_risks_never_lower_the_threat_witness :
  exists a a',
    threatAssessment (Some (summaryWith low high low low low)) = Some a /\
    threatAssessment (Some (summaryWith high high low high low)) = Some a' /\
    (threatScore a <=? threatScore a') = true /\
    (levelRank (threatLevel a) <= levelRank (threatLevel a'))%nat /\
    (forall f, In f (threatFactors a) -> In f (threatFactors a')) /\
    (forall f, In f (recommendations a) -> In f (recommendations a')).
Proof.
  apply (more_high_risks_never_lower_the_threat
           (summaryWith low high low low low) (summaryWith high high low high low)).
  intros k. destruct k; cbn; intros H; solve [reflexivity | discriminate H].
Defined.
